(** * A shallow embedding of the video downloader

    The development follows [video_downloader.py] (class [VideoDownloader])
    and [app.py] (the Flask routes).  Python values are modelled as follows.

    - a [str] is a sequence of Unicode code points, [str] below; a code
      point is a number.  The behaviour of Python on the code points below
      128 is written out.  For the others it is read from the Unicode data
      of the interpreter, which the class [Py.Unicode] stands for: every
      statement holds for every such data.
    - [int] is [Z]; a number that is an [int] or a [float], like the bitrates
      [tbr] and [abr], is a [Py.number], the float given by its exact value
      in [Q]; the one float operation of the program whose rounding can
      change a result, the product by 1000, is a field of the class
      [Py.Floats]; a number that may be Python's [None] is an [option].
    - a [dict] read in insertion order is an association list.
    - a raised exception is [None] in a function that returns an [option],
      and a value carrying [str(e)] where the text is used. *)

From Stdlib Require Import ZArith QArith List Bool Lia Lqa.
From Stdlib Require Import Permutation Sorted DecimalString DecimalPos DecimalZ.
From Stdlib.Strings Require Import Byte.
Import ListNotations.

(** ** Texts *)

(** A code point. *)
Definition char : Set := N.

(** A Python [str]. *)
Inductive str : Set :=
| EmptyString
| String (c : char) (s : str).

Declare Scope chr_scope.
Delimit Scope chr_scope with chr.
Bind Scope chr_scope with char.
Declare Scope str_scope.
Delimit Scope str_scope with str.
Bind Scope str_scope with str.

(** The literals ["a"%chr] and ["abc"] stand for the code points of their
    characters, which are ASCII; any other code point is written as a
    number. *)
Definition char_of_bytes (l : list byte) : option N :=
  match l with
  | [b] => if (Byte.to_N b <? 128)%N then Some (Byte.to_N b) else None
  | _ => None
  end.

Definition bytes_of_char (c : N) : option (list byte) :=
  if (c <? 128)%N then option_map (fun b => [b]) (Byte.of_N c) else None.

String Notation N char_of_bytes bytes_of_char : chr_scope.

Fixpoint str_of_bytes (l : list byte) : option str :=
  match l with
  | [] => Some EmptyString
  | b :: l' =>
      match char_of_bytes [b], str_of_bytes l' with
      | Some c, Some s => Some (String c s)
      | _, _ => None
      end
  end.

Fixpoint bytes_of_str (s : str) : option (list byte) :=
  match s with
  | EmptyString => Some []
  | String c s' =>
      match bytes_of_char c, bytes_of_str s' with
      | Some [b], Some l => Some (b :: l)
      | _, _ => None
      end
  end.

String Notation str str_of_bytes bytes_of_str : str_scope.

#[local] Open Scope str_scope.
#[local] Open Scope Z_scope.

Module Chr.

Definition eqb (a b : char) : bool := N.eqb a b.

(** A code point below 128. *)
Definition is_ascii (c : char) : bool := (c <? 128)%N.

Definition in_range (lo hi : N) (c : char) : bool :=
  ((lo <=? c)%N && (c <=? hi)%N)%bool.

End Chr.

Fixpoint append (a b : str) : str :=
  match a with
  | EmptyString => b
  | String c a' => String c (append a' b)
  end.

Notation "a ++ b" := (append a b) : str_scope.

Module Str.

(** [len(s)] *)
Fixpoint length (s : str) : nat :=
  match s with
  | EmptyString => O
  | String _ s' => S (length s')
  end.

(** [a == b] *)
Fixpoint eqb (a b : str) : bool :=
  match a, b with
  | EmptyString, EmptyString => true
  | String x a', String y b' => (Chr.eqb x y && eqb a' b')%bool
  | _, _ => false
  end.

(** [s.startswith(p)], the prefix first. *)
Fixpoint prefix (p s : str) : bool :=
  match p with
  | EmptyString => true
  | String x p' =>
      match s with
      | EmptyString => false
      | String y s' => (Chr.eqb x y && prefix p' s')%bool
      end
  end.

(** The text of a numeral of the Standard Library, and back for a text of
    code points below 256. *)
Fixpoint of_string (s : Strings.String.string) : str :=
  match s with
  | Strings.String.EmptyString => EmptyString
  | Strings.String.String a s' => String (Ascii.N_of_ascii a) (of_string s')
  end.

Fixpoint to_string (s : str) : option Strings.String.string :=
  match s with
  | EmptyString => Some Strings.String.EmptyString
  | String c s' =>
      if (c <? 256)%N then
        option_map (Strings.String.String (Ascii.ascii_of_N c)) (to_string s')
      else None
  end.

End Str.

Notation "a =? b" := (Str.eqb a b) : str_scope.

(** ** Python builtins used by the program *)

Module Py.

(** *** The Unicode data of the interpreter

    What Python knows of a code point from 128 on: whether it is
    alphanumeric ([str.isalnum]), white space ([str.isspace]) or neither -
    no code point is both; its lower case and whether it has a case, with
    the further code points that [re.IGNORECASE] takes for equal to it
    (the long s for s, the dotless i for i); and its upper case, which may
    be several code points (SS for the sharp s).  The functions are never
    applied to a code point below 128. *)

Inductive class : Set := Alnum | White | Other.

Class Unicode : Type := {
  uni_class : char -> class;
  uni_lower : char -> char;
  uni_cased : char -> bool;
  uni_extra : char -> char -> bool;
  uni_upper : char -> str
}.

(** *** Numbers *)

(** A number: an [int], or a [float] given by its value. *)
Inductive number : Type :=
| Int (n : Z)
| Float (x : Q).

(** [x * 1000] for a float [x]: the float nearest to the product.  The
    product of zero is zero. *)
Class Floats : Type := {
  float_times_1000 : Q -> Q;
  float_times_1000_zero : forall x, (x == 0)%Q -> (float_times_1000 x == 0)%Q
}.

Definition value_of (x : number) : Q :=
  match x with
  | Int n => inject_Z n
  | Float q => q
  end.

(** [type(x).__name__] *)
Definition number_type_name (x : number) : str :=
  match x with
  | Int _ => "int"
  | Float _ => "float"
  end.

(** [x * 1000] *)
Definition times_1000 {F : Floats} (x : number) : number :=
  match x with
  | Int n => Int (n * 1000)
  | Float q => Float (float_times_1000 q)
  end.

(** [str(n)] for an integer. *)
Definition str_of_int (n : Z) : str :=
  Str.of_string (NilZero.string_of_int (Z.to_int n)).

(** [int(s)] on a string: an optional minus sign followed by decimal digits.
    [None] stands for [ValueError]. *)
Definition int_of_str (s : str) : option Z :=
  match Str.to_string s with
  | Some t => option_map Z.of_int (NilZero.int_of_string t)
  | None => None
  end.

(** [int(q)] on a number: truncation toward zero. *)
Definition int_of_Q (q : Q) : Z := Z.quot (Qnum q) (Z.pos (Qden q)).

Definition int_of_number (x : number) : Z :=
  match x with
  | Int n => n
  | Float q => int_of_Q q
  end.

(** Truth value of a string, an integer and a number. *)
Definition truthy_str (s : str) : bool := negb (s =? EmptyString)%str.
Definition truthy_int (n : Z) : bool := negb (n =? 0).
Definition truthy_Q (q : Q) : bool := negb (Qeq_bool q 0).
Definition truthy_number (x : number) : bool := truthy_Q (value_of x).

(** Truth value of a number that may be [None]. *)
Definition truthy_opt_int (o : option Z) : bool :=
  match o with Some n => truthy_int n | None => false end.

(** [str(n)] for an integer that may be [None]. *)
Definition str_of_opt_int (o : option Z) : str :=
  match o with Some n => str_of_int n | None => "None" end.

(** [s.startswith(p)]. *)
Definition startswith (s p : str) : bool := Str.prefix p s.

(** [sub in s]. *)
Fixpoint contains (sub s : str) : bool :=
  Str.prefix sub s ||
  match s with
  | EmptyString => false
  | String _ s' => contains sub s'
  end.

(** [s.split(c)[0]] for a one-character separator [c]. *)
Fixpoint split_head (c : char) (s : str) : str :=
  match s with
  | EmptyString => EmptyString
  | String a s' => if Chr.eqb a c then EmptyString else String a (split_head c s')
  end.

(** [s.split(c)] for a one-character separator [c]. *)
Fixpoint split (c : char) (s : str) : list str :=
  match s with
  | EmptyString => [EmptyString]
  | String a s' =>
      if Chr.eqb a c then EmptyString :: split c s'
      else match split c s' with
           | [] => [String a EmptyString]
           | w :: ws => String a w :: ws
           end
  end.

(** The ASCII letters and digits. *)
Definition is_upper (c : char) : bool := Chr.in_range 65 90 c.
Definition is_lower (c : char) : bool := Chr.in_range 97 122 c.
Definition is_digit (c : char) : bool := Chr.in_range 48 57 c.

Section Text.

Context {U : Unicode}.

(** [str.isspace] on one character, which is also the class [\s] and what
    [str.strip] removes: below 128 the tab, line feed, vertical tab, form
    feed, carriage return, the four separators 0x1c-0x1f and the space. *)
Definition is_space (c : char) : bool :=
  if Chr.is_ascii c then
    (Chr.in_range 9 13 c || Chr.in_range 28 31 c || Chr.eqb c " ")%bool
  else match uni_class c with White => true | _ => false end.

(** The class [\w]: the alphanumeric characters and the underscore. *)
Definition is_word (c : char) : bool :=
  if Chr.is_ascii c then
    (is_upper c || is_lower c || is_digit c || Chr.eqb c "_")%bool
  else match uni_class c with Alnum => true | _ => false end.

(** [c.upper()] for one character. *)
Definition upper_char (c : char) : str :=
  if Chr.is_ascii c then
    String (if is_lower c then (c - 32)%N else c) EmptyString
  else uni_upper c.

(** [s.upper()]: character by character. *)
Fixpoint upper (s : str) : str :=
  match s with
  | EmptyString => EmptyString
  | String a s' => upper_char a ++ upper s'
  end.

(** The lower case that [re.IGNORECASE] compares, and whether a character
    has a case. *)
Definition lower_char (c : char) : char :=
  if Chr.is_ascii c then (if is_upper c then (c + 32)%N else c) else uni_lower c.

Definition is_cased (c : char) : bool :=
  if Chr.is_ascii c then (is_upper c || is_lower c)%bool else uni_cased c.

(** Whether the character [a] of a text matches the character [c] of a
    pattern under [re.IGNORECASE]: a [c] without case matches itself only;
    else the lower cases are equal, or Unicode takes them for equal; two
    different ASCII characters are never taken for equal. *)
Definition ci_match (a c : char) : bool :=
  if is_cased c then
    let la := lower_char a in
    let lc := lower_char c in
    (Chr.eqb la lc
     || (negb (Chr.is_ascii la && Chr.is_ascii lc) && uni_extra la lc))%bool
  else Chr.eqb a c.

Fixpoint lstrip (s : str) : str :=
  match s with
  | EmptyString => EmptyString
  | String a s' => if is_space a then lstrip s' else s
  end.

(** [s.rstrip()]: a character is dropped when it is a space and everything
    after it has been dropped. *)
Fixpoint rstrip (s : str) : str :=
  match s with
  | EmptyString => EmptyString
  | String a s' =>
      match rstrip s' with
      | EmptyString => if is_space a then EmptyString else String a EmptyString
      | t => String a t
      end
  end.

(** [s.strip()]. *)
Definition strip (s : str) : str := rstrip (lstrip s).

End Text.

(** [s[:n]]. *)
Fixpoint take (n : nat) (s : str) : str :=
  match n, s with
  | O, _ => EmptyString
  | _, EmptyString => EmptyString
  | S n', String a s' => String a (take n' s')
  end.

(** [f"{n:02d}"]: the decimal form, padded with zeros on the left to two
    characters. *)
Definition format_02d (n : Z) : str :=
  let s := str_of_int n in
  if Nat.ltb (Str.length s) 2 then "0" ++ s else s.

(** *** Values read from a JSON request body *)

#[local] Set Warnings "-register-all".

Inductive value : Type :=
| VNone
| VBool (b : bool)
| VInt (n : Z)
| VStr (s : str)
| VList (l : list value)
| VDict (d : list (str * value)).

(** [type(v).__name__] *)
Definition type_name (v : value) : str :=
  match v with
  | VNone => "NoneType"
  | VBool _ => "bool"
  | VInt _ => "int"
  | VStr _ => "str"
  | VList _ => "list"
  | VDict _ => "dict"
  end.

Definition truthy (v : value) : bool :=
  match v with
  | VNone => false
  | VBool b => b
  | VInt n => truthy_int n
  | VStr s => truthy_str s
  | VList l => match l with [] => false | _ => true end
  | VDict d => match d with [] => false | _ => true end
  end.

(** [v == s] for a string literal [s]. *)
Definition eq_str (v : value) (s : str) : bool :=
  match v with
  | VStr t => (t =? s)%str
  | _ => false
  end.

Fixpoint lookup (key : str) (d : list (str * value)) : option value :=
  match d with
  | [] => None
  | (k, v) :: d' => if (k =? key)%str then Some v else lookup key d'
  end.

(** *** Exceptions and the error log

    A computation ends with a value or with a raised exception, of which
    only the text [str(e)] is kept, and emits the records written with
    [logging.error], oldest first.  The records of [logging.info] are not
    modelled. *)

Inductive outcome (A : Type) : Type :=
| Ok (a : A)
| Raise (msg : str).
Arguments Ok {A} a.
Arguments Raise {A} msg.

Definition M (A : Type) : Type := (outcome A * list str)%type.

Definition ret {A : Type} (a : A) : M A := (Ok a, []).
Definition raise {A : Type} (msg : str) : M A := (Raise msg, []).
Definition log_error (msg : str) : M unit := (Ok tt, [msg]).

Definition bind {A B : Type} (m : M A) (k : A -> M B) : M B :=
  match m with
  | (Ok a, l) => let (r, l') := k a in (r, (l ++ l')%list)
  | (Raise e, l) => (Raise e, l)
  end.

(** [try: m except Exception as e: handler(str(e))] *)
Definition try_except {A : Type} (m : M A) (handler : str -> M A) : M A :=
  match m with
  | (Ok a, l) => (Ok a, l)
  | (Raise e, l) => let (r, l') := handler e in (r, (l ++ l')%list)
  end.

(** [AttributeError] for a method the value does not have. *)
Definition no_attribute {A : Type} (v : value) (attr : str) : M A :=
  raise ("'" ++ type_name v ++ "' object has no attribute '" ++ attr ++ "'").

(** [v.get(key, default)] *)
Definition get (v : value) (key : str) (default : value) : M value :=
  match v with
  | VDict d =>
      match lookup key d with
      | Some x => ret x
      | None => ret default
      end
  | _ => no_attribute v "get"
  end.

(** [v.strip()] *)
Definition strip_value {U : Unicode} (v : value) : M str :=
  match v with
  | VStr s => ret (strip s)
  | _ => no_attribute v "strip"
  end.

End Py.

Notation "x <- m ;; k" := (Py.bind m (fun x => k))
  (at level 61, m at next level, right associativity).

(** ** The fragment of [re] used by the program

    The patterns of the program are built from literal characters, character
    sets, sequencing, optional groups [(?:...)?] and one-or-more repetition
    of a character set [[...]+]. *)

Module Re.

(** The members of a character set: the classes [\w] and [\s], or the
    hyphen, the one character that the program puts in a set.  A set that
    holds no cased character is matched in the same way with and without
    [re.IGNORECASE]. *)
Inductive item : Type :=
| Word
| Space
| Hyphen.

(** [[...]] and [[^...]]. *)
Record charset : Type := { negated : bool; items : list item }.

Inductive regex : Type :=
| Eps
| Lit (c : char)
| Set_ (cs : charset)
| Seq (r1 r2 : regex)
| Opt (r : regex)
| Plus (cs : charset).

(** A run of literal characters. *)
Fixpoint lit (s : str) : regex :=
  match s with
  | EmptyString => Eps
  | String a s' => Seq (Lit a) (lit s')
  end.

Section Matcher.

Context {U : Py.Unicode}.

(** Comparison of an input character with a pattern character; [ic] is the
    flag [re.IGNORECASE]. *)
Definition char_eq (ic : bool) (a c : char) : bool :=
  if ic then Py.ci_match a c else Chr.eqb a c.

Definition item_mem (a : char) (i : item) : bool :=
  match i with
  | Word => Py.is_word a
  | Space => Py.is_space a
  | Hyphen => Chr.eqb a "-"
  end.

Definition charset_mem (cs : charset) (a : char) : bool :=
  xorb (negated cs) (existsb (item_mem a) (items cs)).

(** The remainders left by zero or more characters of [cs] at the head of
    [s], longest run first. *)
Fixpoint star_rests (cs : charset) (s : str) : list str :=
  match s with
  | EmptyString => [s]
  | String a s' =>
      if charset_mem cs a then (star_rests cs s' ++ [s])%list else [s]
  end.

(** [rests ic r s] lists what is left of [s] after each way of matching [r]
    at its head, in the order in which the backtracking matcher tries them:
    an optional group is tried before it is skipped, a repetition takes as
    many characters as it can before giving some back. *)
Fixpoint rests (ic : bool) (r : regex) (s : str) : list str :=
  match r with
  | Eps => [s]
  | Lit c =>
      match s with
      | String a s' => if char_eq ic a c then [s'] else []
      | EmptyString => []
      end
  | Set_ cs =>
      match s with
      | String a s' => if charset_mem cs a then [s'] else []
      | EmptyString => []
      end
  | Seq r1 r2 => flat_map (rests ic r2) (rests ic r1 s)
  | Opt r1 => (rests ic r1 s ++ [s])%list
  | Plus cs =>
      match s with
      | String a s' => if charset_mem cs a then star_rests cs s' else []
      | EmptyString => []
      end
  end.

(** [re.match(r, s, flags)]: the match is anchored at the start of [s] and
    need not reach its end.  [Some rest] is a match that leaves [rest];
    [None] is Python's [None]. *)
Definition match_ (ic : bool) (r : regex) (s : str) : option str :=
  hd_error (rests ic r s).

(** The first way of matching [r] at the head of [s] that consumes at least
    one character. *)
Definition match_nonempty (ic : bool) (r : regex) (s : str) : option str :=
  find (fun rest => Nat.ltb (Str.length rest) (Str.length s)) (rests ic r s).

(** [re.sub(r, repl, s)].  [skip] counts the characters of [s] that belong to
    a match already replaced.  A match is looked for at each position from
    left to right; an empty match is replaced too, after which only a
    non-empty match is accepted at the same position. *)
Fixpoint sub_from (ic : bool) (r : regex) (repl : str) (skip : nat) (s : str)
  : str :=
  match s with
  | EmptyString =>
      match match_ ic r s with
      | Some _ => repl
      | None => EmptyString
      end
  | String a s' =>
      match skip with
      | S k => sub_from ic r repl k s'
      | O =>
          match match_ ic r s with
          | None => String a (sub_from ic r repl 0 s')
          | Some rest =>
              let n := (Str.length s - Str.length rest)%nat in
              match n with
              | S k => repl ++ sub_from ic r repl k s'
              | O =>
                  repl ++
                  match match_nonempty ic r s with
                  | Some rest' =>
                      repl ++
                      sub_from ic r repl
                        (Str.length s - Str.length rest' - 1)%nat s'
                  | None => String a (sub_from ic r repl 0 s')
                  end
              end
          end
      end
  end.

Definition sub (ic : bool) (r : regex) (repl s : str) : str :=
  sub_from ic r repl 0 s.

End Matcher.

End Re.
(** ** [video_downloader.py]: class [VideoDownloader] *)

Module VideoDownloader.

(** *** [is_valid_youtube_url] *)

(** [(?:https?://)?] *)
Definition scheme : Re.regex :=
  Re.Opt (Re.Seq (Re.lit "http") (Re.Seq (Re.Opt (Re.Lit "s")) (Re.lit "://"))).

(** [(?:www\.)?] *)
Definition www : Re.regex := Re.Opt (Re.lit "www.").

(** [[\w-]+] *)
Definition video_id : Re.regex :=
  Re.Plus {| Re.negated := false; Re.items := [Re.Word; Re.Hyphen] |}.

Definition youtube_patterns : list Re.regex :=
  [ (* (?:https?://)?(?:www\.)?youtube\.com/watch\?v=[\w-]+ *)
    Re.Seq scheme (Re.Seq www (Re.Seq (Re.lit "youtube.com/watch?v=") video_id));
    (* (?:https?://)?(?:www\.)?youtube\.com/shorts/[\w-]+ *)
    Re.Seq scheme (Re.Seq www (Re.Seq (Re.lit "youtube.com/shorts/") video_id));
    (* (?:https?://)?youtu\.be/[\w-]+ *)
    Re.Seq scheme (Re.Seq (Re.lit "youtu.be/") video_id);
    (* (?:https?://)?(?:www\.)?youtube\.com/embed/[\w-]+ *)
    Re.Seq scheme (Re.Seq www (Re.Seq (Re.lit "youtube.com/embed/") video_id)) ].

Definition is_some {A : Type} (o : option A) : bool :=
  match o with Some _ => true | None => false end.

Definition is_valid_youtube_url {U : Py.Unicode} (url : str) : bool :=
  existsb (fun pattern => is_some (Re.match_ true pattern url)) youtube_patterns.

(** *** [format_duration]

    The argument is [None] when the duration is missing. *)
Definition format_duration (duration_seconds : option Z) : str :=
  match duration_seconds with
  | None => "Unknown"
  | Some d =>
      if negb (Py.truthy_int d) || (d <=? 0) then "Unknown"
      else
        let hours := d / 3600 in
        let minutes := (d mod 3600) / 60 in
        let seconds := d mod 60 in
        if hours >? 0 then
          Py.format_02d hours ++ ":" ++ Py.format_02d minutes ++ ":" ++
          Py.format_02d seconds
        else Py.format_02d minutes ++ ":" ++ Py.format_02d seconds
  end.

(** *** [get_video_info]: the processing of the format list *)

(** One element of [info['formats']].  Each field holds what the
    corresponding [fmt.get(key, default)] returns: the default for an absent
    key, and [None] where the extractor stored Python's [None] for a number
    it does not know.  The codecs are texts, ['none'] for a stream without
    the codec; every other value counts as a codec.  The bitrates [tbr] and
    [abr] are integers or floats. *)
Record raw_format : Type := {
  format_id : str;
  height : option Z;
  width : option Z;
  ext : str;
  vcodec : str;
  acodec : str;
  filesize : option Z;
  filesize_approx : option Z;
  tbr : option Py.number;
  abr : option Py.number;
  url : option str;
  format_note : str
}.

Inductive format_type : Type := Video | Audio.

Definition type_name (t : format_type) : str :=
  match t with Video => "video" | Audio => "audio" end.

Definition format_type_eqb (a b : format_type) : bool :=
  match a, b with
  | Video, Video | Audio, Audio => true
  | _, _ => false
  end.

(** One value of the dictionary [processed_formats].  The display field
    [filesize_mb], a rounded float that no later step reads, is left out. *)
Record processed_format : Type := {
  p_format_id : str;
  p_quality : str;
  p_ext : str;
  p_type : format_type;
  p_filesize : option Z;
  p_tbr : option Py.number;
  p_height : option Z;
  p_width : option Z
}.

(** [fmt.get('filesize', 0) or fmt.get('filesize_approx', 0)] *)
Definition effective_filesize (fmt : raw_format) : option Z :=
  if Py.truthy_opt_int (filesize fmt) then filesize fmt else filesize_approx fmt.

(** [height and height >= 144] *)
Definition height_ok (fmt : raw_format) : bool :=
  match height fmt with
  | Some h => Py.truthy_int h && (h >=? 144)
  | None => false
  end.

Section Formats.

Context {U : Py.Unicode} {F : Py.Floats}.

(** The label of an audio format:
    [f"Audio {int(abr)}kbps" if abr else f"Audio ({ext.upper()})"] *)
Definition audio_quality (fmt : raw_format) : str :=
  match abr fmt with
  | Some a =>
      if Py.truthy_number a
      then "Audio " ++ Py.str_of_int (Py.int_of_number a) ++ "kbps"
      else "Audio (" ++ Py.upper (ext fmt) ++ ")"
  | None => "Audio (" ++ Py.upper (ext fmt) ++ ")"
  end.

(** Lines 91-109: the filter and the classification.  [None] is [continue]. *)
Definition classify (fmt : raw_format) : option (format_type * str) :=
  if negb (Py.truthy_str (format_id fmt)) || Py.startswith (format_id fmt) "sb"
  then None
  else if negb (vcodec fmt =? "none")%str && negb (acodec fmt =? "none")%str
          && height_ok fmt
  then Some (Video, Py.str_of_opt_int (height fmt) ++ "p (with audio)")
  else if negb (vcodec fmt =? "none")%str && height_ok fmt
  then Some (Video, Py.str_of_opt_int (height fmt) ++ "p")
  else if negb (acodec fmt =? "none")%str && (vcodec fmt =? "none")%str
  then Some (Audio, audio_quality fmt)
  else None.

(** [f"{format_type}_{quality}_{ext}"] *)
Definition dedup_key (t : format_type) (quality ext_ : str) : str :=
  type_name t ++ "_" ++ quality ++ "_" ++ ext_.

Definition Qltb (x y : Q) : bool := negb (Qle_bool y x).

(** [tbr * 1000 if tbr else 0], by its value. *)
Definition tbr_score (fmt : raw_format) : Q :=
  match tbr fmt with
  | Some t => if Py.truthy_number t then Py.value_of (Py.times_1000 t) else 0%Q
  | None => 0%Q
  end.

(** [filesize or (tbr * 1000 if tbr else 0)] *)
Definition current_score (fmt : raw_format) : Q :=
  match effective_filesize fmt with
  | Some n => if Py.truthy_int n then inject_Z n else tbr_score fmt
  | None => tbr_score fmt
  end.

(** [processed_formats[key].get('tbr', 0) * 1000]: the stored entry always
    has the key ['tbr'], and the product of [None] and 1000 is a
    [TypeError], here [None]. *)
Definition stored_tbr_score (e : processed_format) : option Q :=
  match p_tbr e with
  | Some t => Some (Py.value_of (Py.times_1000 t))
  | None => None
  end.

(** [processed_formats[key].get('filesize', 0) or
     (processed_formats[key].get('tbr', 0) * 1000)];
    [None] is the [TypeError]. *)
Definition stored_score (e : processed_format) : option Q :=
  match p_filesize e with
  | Some n => if Py.truthy_int n then Some (inject_Z n) else stored_tbr_score e
  | None => stored_tbr_score e
  end.

(** The dictionary [processed_formats], in insertion order. *)
Definition dict : Type := list (str * processed_format).

Fixpoint dict_get (key : str) (d : dict) : option processed_format :=
  match d with
  | [] => None
  | (k, v) :: d' => if (k =? key)%str then Some v else dict_get key d'
  end.

(** [d[key] = v]: a present key keeps its place, a new key goes last. *)
Fixpoint dict_set (key : str) (v : processed_format) (d : dict) : dict :=
  match d with
  | [] => [(key, v)]
  | (k, w) :: d' =>
      if (k =? key)%str then (k, v) :: d' else (k, w) :: dict_set key v d'
  end.

Definition dict_values (d : dict) : list processed_format := map snd d.

(** The dictionary literal of lines 121-131. *)
Definition make_entry (fmt : raw_format) (t : format_type) (quality : str)
  : processed_format :=
  {| p_format_id := format_id fmt;
     p_quality := quality;
     p_ext := ext fmt;
     p_type := t;
     p_filesize := effective_filesize fmt;
     p_tbr := tbr fmt;
     p_height := height fmt;
     p_width := width fmt |}.

(** One turn of the loop of lines 81-131.  [None] is an exception, which
    ends [get_video_info] in its [except] clause. *)
Definition dedup_step (processed_formats : dict) (fmt : raw_format) : option dict :=
  match classify fmt with
  | None => Some processed_formats
  | Some (format_type_, quality) =>
      let key := dedup_key format_type_ quality (ext fmt) in
      match
        match dict_get key processed_formats with
        | Some e => stored_score e
        | None => Some 0%Q
        end
      with
      | None => None
      | Some existing_score =>
          if negb (is_some (dict_get key processed_formats))
             || Qltb existing_score (current_score fmt)
          then Some (dict_set key (make_entry fmt format_type_ quality)
                       processed_formats)
          else Some processed_formats
      end
  end.

Definition dedup_loop (acc : option dict) (fmt : raw_format) : option dict :=
  match acc with
  | Some processed_formats => dedup_step processed_formats fmt
  | None => None
  end.

Definition dedup (formats : list raw_format) : option dict :=
  fold_left dedup_loop formats (Some []).

(** The sort key.  [None] stands for the [ValueError] of [int]. *)
Definition format_priority (fmt : processed_format) : option (bool * Z) :=
  match
    (if Py.contains "p" (p_quality fmt)
     then Py.int_of_str (Py.split_head "p" (p_quality fmt))
     else Some 0)
  with
  | None => None
  | Some quality_num =>
      let has_audio := Py.contains "(with audio)" (p_quality fmt) in
      Some (has_audio, quality_num)
  end.

(** Order of the tuples [(bool, int)]: [False < True], then the integers. *)
Definition key_ltb (a b : bool * Z) : bool :=
  match fst a, fst b with
  | false, true => true
  | true, false => false
  | _, _ => snd a <? snd b
  end.

(** [list.sort(key=..., reverse=True)] is a stable sort: elements come out
    by decreasing key, and elements with equal keys keep their order.  The
    keys are computed once, before any comparison. *)
Fixpoint insert_desc {A : Type} (x : (bool * Z) * A) (l : list ((bool * Z) * A))
  : list ((bool * Z) * A) :=
  match l with
  | [] => [x]
  | y :: l' => if key_ltb (fst x) (fst y) then y :: insert_desc x l' else x :: l
  end.

Definition sort_desc {A : Type} (l : list ((bool * Z) * A)) : list ((bool * Z) * A) :=
  fold_right insert_desc [] l.

Fixpoint decorate {A : Type} (key : A -> option (bool * Z)) (l : list A)
  : option (list ((bool * Z) * A)) :=
  match l with
  | [] => Some []
  | x :: l' =>
      match key x with
      | None => None
      | Some k =>
          match decorate key l' with
          | None => None
          | Some kl => Some ((k, x) :: kl)
          end
      end
  end.

Definition sort_by_key_reverse {A : Type} (key : A -> option (bool * Z)) (l : list A)
  : option (list A) :=
  option_map (fun kl => map snd (sort_desc kl)) (decorate key l).

Definition is_video (fmt : processed_format) : bool :=
  format_type_eqb (p_type fmt) Video.

(** Lines 133-153: from the dictionary to [video_info['formats']]. *)
Definition sort_formats (processed_formats : dict) : option (list processed_format) :=
  let video_formats := filter is_video (dict_values processed_formats) in
  let audio_formats :=
    filter (fun fmt => negb (is_video fmt)) (dict_values processed_formats) in
  match sort_by_key_reverse format_priority video_formats with
  | None => None
  | Some sorted_video => Some (sorted_video ++ audio_formats)%list
  end.

(** Lines 76-153: from [info['formats']] to [video_info['formats']].  [None]
    is an exception raised on the way. *)
Definition get_video_info_formats (formats : list raw_format)
  : option (list processed_format) :=
  match dedup formats with
  | None => None
  | Some processed_formats => sort_formats processed_formats
  end.

End Formats.

(** *** [download_video] and [get_direct_download_url]: the file name *)

(** [[^\w\s-]] *)
Definition unsafe_char : Re.regex :=
  Re.Set_ {| Re.negated := true;
             Re.items := [Re.Word; Re.Space; Re.Hyphen] |}.

(** [[-\s]+] *)
Definition separators : Re.regex :=
  Re.Plus {| Re.negated := false; Re.items := [Re.Hyphen; Re.Space] |}.

(** Lines 179-180 and 349-350. *)
Definition safe_title {U : Py.Unicode} (title : str) : str :=
  let safe_title := Py.strip (Re.sub false unsafe_char EmptyString title) in
  Py.take 50 (Re.sub false separators "_" safe_title).

(** *** [download_video]: the format selection expression *)

(** The double quote character of the filters below. *)
Definition dq : str := String 34%N EmptyString.

(** [[vcodec!="none"][acodec!="none"]] *)
Definition both_codecs : str :=
  "[vcodec!=" ++ dq ++ "none" ++ dq ++ "][acodec!=" ++ dq ++ "none" ++ dq ++ "]".

(** Lines 185-209: the value of [ydl_opts['format']].  In video mode with a
    chosen id it is the f-str
    [{format_id}+bestaudio/best[vcodec!="none"][acodec!="none"]/best[height<=?1080][vcodec!="none"][acodec!="none"]/best]. *)
Definition format_selector (format_id_ download_type : str) : str :=
  if (download_type =? "audio")%str then "bestaudio/best"
  else if Py.truthy_str format_id_ then
    format_id_ ++ "+bestaudio/best" ++ both_codecs ++
    "/best[height<=?1080]" ++ both_codecs ++ "/best"
  else "best" ++ both_codecs ++ "/best[height<=?1080]".

(** *** [get_direct_download_url] *)

(** What [extract_info] returns for one video: the title after
    [get('title', 'audio')] and the formats after [get('formats', [])]. *)
Record media : Type := { title : str; formats : list raw_format }.

(** The [info] dictionary: one video, or a playlist with its [entries]; a
    falsy entry is [None]. *)
Inductive extracted : Type :=
| Single (v : media)
| Playlist (entries : list (option media)).

Inductive download_result : Type :=
| Failure (error : str)
| Success (url_ filename : str) (filesize_ : option Z) (quality : str).

(** [a > b] on two numbers that may be [None]: numbers are compared by
    value; comparing with [None] is a [TypeError], whose text names the
    types of both. *)
Definition number_type_name (o : option Py.number) : str :=
  match o with Some x => Py.number_type_name x | None => "NoneType" end.

Definition gt (a b : option Py.number) : Py.M bool :=
  match a, b with
  | Some x, Some y => Py.ret (Qltb (Py.value_of y) (Py.value_of x))
  | _, _ =>
      Py.raise ("'>' not supported between instances of '" ++ number_type_name a
                ++ "' and '" ++ number_type_name b ++ "'")
  end.

(** One turn of the loop of lines 328-331: the first audio-only format
    among those of the highest [abr]. *)
Definition best_audio_step (requested_format : option raw_format) (fmt : raw_format)
  : Py.M (option raw_format) :=
  if negb (acodec fmt =? "none")%str && (vcodec fmt =? "none")%str then
    match requested_format with
    | None => Py.ret (Some fmt)
    | Some r =>
        better <- gt (abr fmt) (abr r) ;;
        Py.ret (if better then Some fmt else requested_format)
    end
  else Py.ret requested_format.

Fixpoint best_audio (requested_format : option raw_format) (formats_ : list raw_format)
  : Py.M (option raw_format) :=
  match formats_ with
  | [] => Py.ret requested_format
  | fmt :: rest =>
      r <- best_audio_step requested_format fmt ;;
      best_audio r rest
  end.

Section Extractor.

Context {U : Py.Unicode}.

(** [ydl.extract_info(url, download=False)] of the external library: it
    returns a falsy value ([None]), an [info] dictionary, or raises. *)
Variable extract_info : str -> Py.M (option extracted).

Definition get_direct_download_url
  (url_ : str) (format_id_ download_type : Py.value) : Py.M download_result :=
  if Py.eq_str download_type "video" then
    Py.ret (Failure
      "Direct download not supported for videos with audio. Using server download.")
  else
    Py.try_except
      (info <- extract_info url_ ;;
       match info with
       | None => Py.ret (Failure "Unable to extract video information")
       | Some info =>
           let video_info :=
             match info with
             | Playlist entries =>
                 match entries with
                 | [] => None
                 | first :: _ => first
                 end
             | Single v => Some v
             end in
           match video_info with
           | None => Py.ret (Failure "No video information found")
           | Some video_info =>
               requested_format <- best_audio None (formats video_info) ;;
               match requested_format with
               | None =>
                   Py.ret (Failure "No suitable audio format found for download")
               | Some requested_format =>
                   match url requested_format with
                   | None => Py.ret (Failure "Unable to get direct download URL")
                   | Some download_url =>
                       if negb (Py.truthy_str download_url)
                       then Py.ret (Failure "Unable to get direct download URL")
                       else
                         Py.ret (Success download_url
                                   (safe_title (title video_info) ++ ".mp3")
                                   (filesize requested_format)
                                   (format_note requested_format))
                   end
               end
           end
       end)
      (fun e =>
         _ <- Py.log_error ("Error getting direct download URL: " ++ e) ;;
         Py.ret (Failure ("Failed to get download URL: " ++ e))).

End Extractor.

End VideoDownloader.

(** ** [app.py]: the routes *)

Module App.

Inductive payload : Type :=
| ErrorPayload (error : str)
| DirectPayload (download_url filename : str) (filesize : option Z)
    (quality : str)
| ServerPayload (download_url filename : str).

(** What a route returns: the JSON document and the HTTP status. *)
Record response : Type := { body : payload; status : Z }.

(** What [VideoDownloader.download_video] returns. *)
Inductive server_result : Type :=
| Downloaded (filename path : str)
| NotDownloaded (error : str).

Section Routes.

Context {U : Py.Unicode}.

Variable extract_info : str -> Py.M (option VideoDownloader.extracted).

(** [downloader.download_video(url, format_id, download_type)], which runs
    the external library and scans the download directory. *)
Variable downloader_download_video :
  str -> Py.value -> Py.value -> Py.M server_result.

(** Route [/download], for the parsed JSON body [data]. *)
Definition download_video (data : Py.value) : Py.M response :=
  Py.try_except
    (url_v <- Py.get data "url" (Py.VStr EmptyString) ;;
     url <- Py.strip_value url_v ;;
     format_id <- Py.get data "format_id" (Py.VStr EmptyString) ;;
     download_type <- Py.get data "download_type" (Py.VStr "video") ;;
     if negb (Py.truthy_str url) || negb (Py.truthy format_id) then
       Py.ret {| body := ErrorPayload
                   "Missing required parameters. Please select a format and try again.";
                 status := 400 |}
     else if negb (VideoDownloader.is_valid_youtube_url url) then
       Py.ret {| body := ErrorPayload "Please provide a valid YouTube URL";
                 status := 400 |}
     else
       download_result <-
         VideoDownloader.get_direct_download_url extract_info url format_id
           download_type ;;
       match download_result with
       | VideoDownloader.Success u f sz q =>
           Py.ret {| body := DirectPayload u f sz q; status := 200 |}
       | VideoDownloader.Failure err =>
           Py.ret {| body := ErrorPayload err; status := 400 |}
       end)
    (fun e =>
       _ <- Py.log_error ("Error getting download URL: " ++ e) ;;
       Py.ret {| body := ErrorPayload
                   "An error occurred while preparing the download. Please try again.";
                 status := 500 |}).

(** Route [/server_download], for the parsed JSON body [data]. *)
Definition server_download (data : Py.value) : Py.M response :=
  Py.try_except
    (if negb (Py.truthy data) then
       Py.ret {| body := ErrorPayload "No data received"; status := 400 |}
     else
       url_v <- Py.get data "url" (Py.VStr EmptyString) ;;
       url <- Py.strip_value url_v ;;
       format_id <- Py.get data "format_id" (Py.VStr EmptyString) ;;
       download_type <- Py.get data "download_type" (Py.VStr "video") ;;
       if negb (Py.truthy_str url) || negb (Py.truthy format_id) then
         Py.ret {| body := ErrorPayload "Missing required parameters";
                   status := 400 |}
       else if negb (VideoDownloader.is_valid_youtube_url url) then
         Py.ret {| body := ErrorPayload "Please provide a valid YouTube URL";
                   status := 400 |}
       else
         download_result <- downloader_download_video url format_id download_type ;;
         match download_result with
         | Downloaded filename _ =>
             Py.ret {| body := ServerPayload ("/download_file/" ++ filename) filename;
                       status := 200 |}
         | NotDownloaded err =>
             _ <- Py.log_error ("Download failed: " ++ err) ;;
             Py.ret {| body := ErrorPayload err; status := 400 |}
         end)
    (fun e =>
       _ <- Py.log_error ("Error in server download: " ++ e) ;;
       Py.ret {| body := ErrorPayload ("Server error: " ++ e); status := 500 |}).

End Routes.

End App.

(** ** The properties, in the words of the specification *)

Module Spec.

Fixpoint all_chars (p : char -> bool) (s : str) : bool :=
  match s with
  | EmptyString => true
  | String a s' => p a && all_chars p s'
  end.

Section Texts.

Context {U : Py.Unicode}.

(** The text [w] is the text [lit] up to the case of its letters, as
    [re.IGNORECASE] compares them: character by character. *)
Fixpoint ci_eqb (w lit : str) : bool :=
  match w, lit with
  | EmptyString, EmptyString => true
  | String a w', String c lit' => Py.ci_match a c && ci_eqb w' lit'
  | _, _ => false
  end.

Definition ci_eq (w lit : str) : Prop := ci_eqb w lit = true.

(** A character of a video identifier: a word character or a hyphen. *)
Definition id_char (c : char) : bool := Py.is_word c || Chr.eqb c "-".

(** [url] starts with an optional scheme [http://] or [https://], an
    optional [www.] where [with_www] allows it, the text [site] and at least
    one identifier character; letters are compared without regard to case
    and anything may follow. *)
Definition url_shape (with_www : bool) (site url : str) : Prop :=
  exists sch w body ident rest : str,
    url = sch ++ w ++ body ++ ident ++ rest /\
    (sch = EmptyString \/ ci_eq sch "http://" \/ ci_eq sch "https://") /\
    (w = EmptyString \/ (with_www = true /\ ci_eq w "www.")) /\
    ci_eq body site /\
    ident <> EmptyString /\
    all_chars id_char ident = true.

(** The four shapes as the program has them: the short link takes no
    [www.]. *)
Definition recognized (url : str) : Prop :=
  url_shape true "youtube.com/watch?v=" url \/
  url_shape true "youtube.com/shorts/" url \/
  url_shape false "youtu.be/" url \/
  url_shape true "youtube.com/embed/" url.

(** The four shapes with the scheme and [www.] optional on each of them. *)
Definition recognized_www_everywhere (url : str) : Prop :=
  url_shape true "youtube.com/watch?v=" url \/
  url_shape true "youtube.com/shorts/" url \/
  url_shape true "youtu.be/" url \/
  url_shape true "youtube.com/embed/" url.

(** The language of a pattern: the texts it matches exactly. *)
Inductive lang (ic : bool) : Re.regex -> str -> Prop :=
| lang_eps : lang ic Re.Eps EmptyString
| lang_lit a c :
    Re.char_eq ic a c = true -> lang ic (Re.Lit c) (String a EmptyString)
| lang_set a cs :
    Re.charset_mem cs a = true -> lang ic (Re.Set_ cs) (String a EmptyString)
| lang_seq r1 r2 w1 w2 :
    lang ic r1 w1 -> lang ic r2 w2 -> lang ic (Re.Seq r1 r2) (w1 ++ w2)
| lang_opt_none r : lang ic (Re.Opt r) EmptyString
| lang_opt_some r w : lang ic r w -> lang ic (Re.Opt r) w
| lang_plus cs w :
    w <> EmptyString -> all_chars (Re.charset_mem cs) w = true ->
    lang ic (Re.Plus cs) w.

End Texts.

(** The decimal digit of a number between 0 and 9. *)
Definition digit (n : Z) : char := (48 + Z.to_N n)%N.

(** A number below 100 written with exactly two decimal digits. *)
Definition two_digits (n : Z) : str :=
  String (digit (n / 10)) (String (digit (n mod 10)) EmptyString).

(** A number written in decimal with at least two digits: one leading zero
    below 10, the plain numeral from 10 on. *)
Definition at_least_two_digits (n : Z) : str :=
  if n <? 10 then String "0" (Py.str_of_int n) else Py.str_of_int n.

Section FileNames.

Context {U : Py.Unicode}.

(** A character kept in a file name: a word character, a space or a
    hyphen. *)
Definition safe_char (c : char) : bool :=
  Py.is_word c || Py.is_space c || Chr.eqb c "-".

(** A character of a run to collapse: a space or a hyphen. *)
Definition separator (c : char) : bool := Py.is_space c || Chr.eqb c "-".

(** The text without the characters that fail [p]. *)
Fixpoint keep_chars (p : char -> bool) (s : str) : str :=
  match s with
  | EmptyString => EmptyString
  | String a s' => if p a then String a (keep_chars p s') else keep_chars p s'
  end.

Definition starts_with (p : char -> bool) (s : str) : bool :=
  match s with
  | EmptyString => false
  | String a _ => p a
  end.

Fixpoint ends_with (p : char -> bool) (s : str) : bool :=
  match s with
  | EmptyString => false
  | String a EmptyString => p a
  | String _ s' => ends_with p s'
  end.

(** [t] is [s] without its leading and trailing spaces. *)
Definition stripped (s t : str) : Prop :=
  exists l r,
    s = l ++ t ++ r /\
    all_chars Py.is_space l = true /\ all_chars Py.is_space r = true /\
    starts_with Py.is_space t = false /\ ends_with Py.is_space t = false.

(** [collapsed s t]: [t] is [s] with every maximal run of separators
    replaced by one underscore.  A run is maximal: what follows it does not
    start with a separator, and what precedes it is a kept character. *)
Inductive collapsed : str -> str -> Prop :=
| collapsed_end : collapsed EmptyString EmptyString
| collapsed_char a s t :
    separator a = false -> collapsed s t -> collapsed (String a s) (String a t)
| collapsed_run run s t :
    run <> EmptyString -> all_chars separator run = true ->
    starts_with separator s = false -> collapsed s t ->
    collapsed (run ++ s) (String "_" t).

End FileNames.

(** The alternatives of a format selection expression: its parts between
    the slashes. *)
Definition alternatives (selector : str) : list str := Py.split "/" selector.

Definition no_slash (s : str) : bool :=
  all_chars (fun c => negb (Chr.eqb c "/")) s.

(** The three alternatives of the specification: the chosen id merged with
    the best audio, the best format with both codecs up to height 1080, the
    best format. *)
Definition three_alternatives (format_id : str) : list str :=
  [ format_id ++ "+bestaudio";
    "best[height<=?1080]" ++ VideoDownloader.both_codecs;
    "best" ].

(** The four alternatives of the program: between the first and the capped
    one stands the best format with both codecs and no bound on the
    height. *)
Definition four_alternatives (format_id : str) : list str :=
  [ format_id ++ "+bestaudio";
    "best" ++ VideoDownloader.both_codecs;
    "best[height<=?1080]" ++ VideoDownloader.both_codecs;
    "best" ].

(** *** The deduplication *)

Section Deduplication.

Context {U : Py.Unicode} {F : Py.Floats}.

(** What one turn of the loop would store for a candidate: the key and the
    entry; [None] for a discarded candidate. *)
Definition keyed (fmt : VideoDownloader.raw_format)
  : option (str * VideoDownloader.processed_format) :=
  match VideoDownloader.classify fmt with
  | Some (t, q) =>
      Some (VideoDownloader.dedup_key t q (VideoDownloader.ext fmt),
            VideoDownloader.make_entry fmt t q)
  | None => None
  end.

Definition key_of (fmt : VideoDownloader.raw_format) : option str :=
  option_map fst (keyed fmt).

(** The deduplication key (type, quality label, ext) of a candidate, [None]
    when it is discarded, and that of an entry. *)
Definition group (fmt : VideoDownloader.raw_format)
  : option (VideoDownloader.format_type * str * str) :=
  match VideoDownloader.classify fmt with
  | Some (t, q) => Some (t, q, VideoDownloader.ext fmt)
  | None => None
  end.

Definition entry_group (e : VideoDownloader.processed_format)
  : VideoDownloader.format_type * str * str :=
  (VideoDownloader.p_type e, VideoDownloader.p_quality e, VideoDownloader.p_ext e).

Definition entry_key (e : VideoDownloader.processed_format) : str :=
  VideoDownloader.dedup_key (VideoDownloader.p_type e) (VideoDownloader.p_quality e)
    (VideoDownloader.p_ext e).

(** The distinct elements of a list in the order of their first
    occurrence. *)
Fixpoint first_seen (l : list str) : list str :=
  match l with
  | [] => []
  | k :: l' => k :: filter (fun x => negb (x =? k)%str) (first_seen l')
  end.

(** The keys of the candidates that are not discarded, in input order. *)
Definition accepted_keys (formats : list VideoDownloader.raw_format) : list str :=
  flat_map (fun c => match key_of c with Some k => [k] | None => [] end) formats.

(** The entry [e] stored under [k] was built from a candidate [c] of [l]
    that beats every earlier candidate of the same key and is not beaten by
    a later one. *)
Definition origin (l : list VideoDownloader.raw_format) (k : str)
  (e : VideoDownloader.processed_format) : Prop :=
  exists l1 c l2,
    l = (l1 ++ c :: l2)%list /\ keyed c = Some (k, e) /\
    (forall c', In c' l1 -> key_of c' = Some k ->
       (VideoDownloader.current_score c' < VideoDownloader.current_score c)%Q) /\
    (forall c', In c' l2 -> key_of c' = Some k ->
       (VideoDownloader.current_score c' <= VideoDownloader.current_score c)%Q).

(** The state of the dictionary after the candidates [l]. *)
Record dedup_inv (l : list VideoDownloader.raw_format) (d : VideoDownloader.dict)
  : Prop := {
  inv_nodup : NoDup (map fst d);
  inv_origin : forall k e, In (k, e) d -> origin l k e;
  inv_complete :
    forall c k, In c l -> key_of c = Some k -> In k (map fst d);
  inv_order : map fst d = first_seen (accepted_keys l)
}.

End Deduplication.

(** The entry carries the label of a stream with both codecs. *)
Definition with_audio (e : VideoDownloader.processed_format) : bool :=
  Py.contains "(with audio)" (VideoDownloader.p_quality e).

(** The height of an entry, 0 when it is not known. *)
Definition height_of (e : VideoDownloader.processed_format) : Z :=
  match VideoDownloader.p_height e with Some h => h | None => 0 end.

(** The sort key of a video entry, read from its fields. *)
Definition priority (e : VideoDownloader.processed_format) : bool * Z :=
  (with_audio e, height_of e).

Definition key_eqb (a b : bool * Z) : bool :=
  Bool.eqb (fst a) (fst b) && (snd a =? snd b).

(** Order of two decorated elements: the first does not come after the
    second in a list sorted by decreasing key. *)
Definition geq {A : Type} (x y : (bool * Z) * A) : Prop :=
  VideoDownloader.key_ltb (fst x) (fst y) = false.

(** Each element of [l] is decorated with its key under [f]. *)
Definition keyed_by {A : Type} (f : A -> bool * Z) (l : list ((bool * Z) * A)) : Prop :=
  Forall (fun p => fst p = f (snd p)) l.

(** A character of a decimal numeral: a digit or the minus sign. *)
Definition numeral_char (c : char) : bool := Py.is_digit c || Chr.eqb c "-".

(** A candidate with the given id, container, codecs, height, file size,
    bitrate and audio bitrate. *)
Definition sample (id ext_ vcodec_ acodec_ : str) (height_ filesize_ : option Z)
  (tbr_ abr_ : option Py.number) : VideoDownloader.raw_format :=
  {| VideoDownloader.format_id := id; VideoDownloader.height := height_;
     VideoDownloader.width := None; VideoDownloader.ext := ext_;
     VideoDownloader.vcodec := vcodec_; VideoDownloader.acodec := acodec_;
     VideoDownloader.filesize := filesize_; VideoDownloader.filesize_approx := None;
     VideoDownloader.tbr := tbr_; VideoDownloader.abr := abr_;
     VideoDownloader.url := None; VideoDownloader.format_note := "Unknown" |}.

(** Two candidates of the specification's example: 1080p without audio and
    720p with audio. *)
Definition sample_1080p_video_only : VideoDownloader.raw_format :=
  sample "137" "mp4" "avc1" "none" (Some 1080) None None None.

Definition sample_720p_with_audio : VideoDownloader.raw_format :=
  sample "22" "mp4" "avc1" "mp4a" (Some 720) None None None.

(** Two audio candidates of one key, [(audio, Audio (M4A), m4a)], for which
    the extractor knows neither a size nor a bitrate and stores [None]. *)
Definition sample_unknown_first : VideoDownloader.raw_format :=
  sample "139" "m4a" "none" "mp4a" None None None None.

Definition sample_unknown_second : VideoDownloader.raw_format :=
  sample "140" "m4a" "none" "mp4a" None None None None.

(** The same two candidates when the extractor leaves the key [tbr] out, so
    that [fmt.get('tbr', 0)] is 0. *)
Definition sample_absent_first : VideoDownloader.raw_format :=
  sample "139" "m4a" "none" "mp4a" None None (Some (Py.Int 0)) None.

Definition sample_absent_second : VideoDownloader.raw_format :=
  sample "140" "m4a" "none" "mp4a" None None (Some (Py.Int 0)) None.

(** *** The routes *)

(** A request body in video mode: its [download_type] is ['video'] or is
    absent, in which case the route takes ['video']. *)
Definition video_mode (d : list (str * Py.value)) : Prop :=
  Py.lookup "download_type" d = Some (Py.VStr "video") \/
  Py.lookup "download_type" d = None.

(** The [url] of the body is a text or is absent. *)
Definition url_is_text (d : list (str * Py.value)) : Prop :=
  Py.lookup "url" d = None \/ exists u, Py.lookup "url" d = Some (Py.VStr u).

(** A body whose [url] is the number 5 instead of a text. *)
Definition body_with_numeric_url : Py.value :=
  Py.VDict [("url", Py.VInt 5); ("format_id", Py.VStr "18");
            ("download_type", Py.VStr "video")].

(** An extractor that finds nothing. *)
Definition extract_nothing (url : str) : Py.M (option VideoDownloader.extracted) :=
  Py.ret None.

(** An extractor that finds one video with one audio-only format that has a
    direct URL. *)
Definition extract_one_audio (url : str) : Py.M (option VideoDownloader.extracted) :=
  Py.ret (Some (VideoDownloader.Single
    {| VideoDownloader.title := "Amazing Video!! (2024)";
       VideoDownloader.formats :=
         [ {| VideoDownloader.format_id := "140"; VideoDownloader.height := None;
              VideoDownloader.width := None; VideoDownloader.ext := "m4a";
              VideoDownloader.vcodec := "none"; VideoDownloader.acodec := "mp4a";
              VideoDownloader.filesize := Some 4096;
              VideoDownloader.filesize_approx := None;
              VideoDownloader.tbr := Some (Py.Int 128);
              VideoDownloader.abr := Some (Py.Int 128);
              VideoDownloader.url := Some "https://cdn.example/a.m4a";
              VideoDownloader.format_note := "medium" |} ] |})).

(** A well-formed body in audio mode. *)
Definition audio_body : Py.value :=
  Py.VDict [("url", Py.VStr "https://youtu.be/abc"); ("format_id", Py.VStr "140");
            ("download_type", Py.VStr "audio")].

(** The score of a candidate can be read back from its stored entry: its
    bitrate is a number, or its file size is known and not zero. *)
Definition score_readable (c : VideoDownloader.raw_format) : Prop :=
  VideoDownloader.tbr c <> None \/
  exists n, VideoDownloader.effective_filesize c = Some n /\ n <> 0.

End Spec.

(** ** [os.path]: the one function whose result the program depends on *)

Module Os.

(** [s.endswith('/')] *)
Fixpoint ends_with_sep (s : str) : bool :=
  match s with
  | EmptyString => false
  | String a EmptyString => Chr.eqb a "/"
  | String _ s' => ends_with_sep s'
  end.

(** [os.path.join(a, b)] of [posixpath]: an absolute [b] replaces [a]; the
    separator is added unless [a] is empty or ends with it. *)
Definition path_join (a b : str) : str :=
  if Py.startswith b "/" then b
  else if negb (Py.truthy_str a) || ends_with_sep a then a ++ b
  else a ++ "/" ++ b.

End Os.

(** ** [video_downloader.py]: the rest of the class [VideoDownloader] *)

Module Downloader.

(** [self.downloads_dir] *)
Definition downloads_dir : str := "downloads".

(** *** [format_view_count] *)

Section Float.

(** [f"{x:.1f}"] for the float nearest to the quotient [x] of two integers:
    the text with one decimal that Python's float formatting gives. *)
Variable format_1f : Q -> str.

(** The argument is [None] when the count is missing.  The last branch is
    reached for counts from 1 to 999 only, which [f"{view_count:,}"] writes
    without a thousands separator. *)
Definition format_view_count (view_count : option Z) : str :=
  match view_count with
  | None => "Unknown views"
  | Some n =>
      if negb (Py.truthy_int n) || (n <=? 0) then "Unknown views"
      else if n >=? 1000000 then format_1f (inject_Z n / 1000000)%Q ++ "M views"
      else if n >=? 1000 then format_1f (inject_Z n / 1000)%Q ++ "K views"
      else Py.str_of_int n ++ " views"
  end.

End Float.

(** *** [get_video_info] *)

(** The [info] dictionary of the extractor, each field after its
    [info.get(key, default)]; a number or a description stored as [None] is
    [None]. *)
Record info_dict : Type := {
  title : str;
  duration : option Z;
  uploader : str;
  view_count : option Z;
  thumbnail : str;
  description : option str;
  formats : list VideoDownloader.raw_format
}.

(** The dictionary [video_info] that [get_video_info] returns. *)
Record video_info : Type := {
  v_title : str;
  v_duration : option Z;
  v_uploader : str;
  v_view_count : option Z;
  v_thumbnail : str;
  v_description : str;
  v_formats : list VideoDownloader.processed_format
}.

(** [info.get('description', '')[:200] + '...' if info.get('description')
    else ''] *)
Definition short_description (description_ : option str) : str :=
  match description_ with
  | Some d => if Py.truthy_str d then Py.take 200 d ++ "..." else EmptyString
  | None => EmptyString
  end.

Section Extractor.

Context {U : Py.Unicode} {F : Py.Floats}.

(** [ydl.extract_info(url, download=False)]: a falsy value ([None]), an
    [info] dictionary, or an exception. *)
Variable extract_info : str -> Py.M (option info_dict).

(** What [get_video_info] returns; [None] is Python's [None], returned for a
    falsy [info] and by the [except] clause, which catches the exceptions of
    the extractor and of the format loop.  The record that the clause
    writes to the log is not modelled. *)
Definition get_video_info (url : str) : option video_info :=
  match fst (extract_info url) with
  | Py.Raise _ => None
  | Py.Ok None => None
  | Py.Ok (Some info) =>
      match VideoDownloader.get_video_info_formats (formats info) with
      | None => None
      | Some formats_ =>
          Some {| v_title := title info;
                  v_duration := duration info;
                  v_uploader := uploader info;
                  v_view_count := view_count info;
                  v_thumbnail := thumbnail info;
                  v_description := short_description (description info);
                  v_formats := formats_ |}
      end
  end.

End Extractor.

(** *** [download_video]: the progress hook *)

(** The dictionary that the library passes to a progress hook: [status]
    and the byte counts, each after its [d.get(key, 0)]; a count that the
    library does not know is [None].  The counts are integers or fractional
    estimates, here rationals, and the quotient below is exact where Python
    rounds it to a float. *)
Record progress : Type := {
  status : str;
  total_bytes : option Q;
  total_bytes_estimate : option Q;
  downloaded_bytes : option Q
}.

Definition truthy_opt_Q (o : option Q) : bool :=
  match o with Some q => Py.truthy_Q q | None => false end.

(** [min(percentage, 99)]: the first argument unless the second is
    smaller. *)
Definition min_99 (percentage : Q) : Q :=
  if VideoDownloader.Qltb 99 percentage then 99%Q else percentage.

(** Lines 165-172.  [progress_callback] tells whether a callback was given;
    the result lists the percentages passed to it, and [None] is the
    [TypeError] of comparing or dividing [None]. *)
Definition progress_hook (progress_callback : bool) (d : progress) : option (list Q) :=
  if progress_callback && (status d =? "downloading")%str then
    let total :=
      if truthy_opt_Q (total_bytes d) then total_bytes d else total_bytes_estimate d in
    let downloaded := downloaded_bytes d in
    match total with
    | None => None
    | Some total =>
        if VideoDownloader.Qltb 0 total then
          match downloaded with
          | None => None
          | Some downloaded =>
              let percentage := ((downloaded / total) * 100)%Q in
              Some [min_99 percentage]
          end
        else Some []
    end
  else Some [].

(** *** [download_video]: the options of the library *)

Record postprocessor : Type := {
  key : str;
  preferredcodec : str;
  preferredquality : str
}.

(** The dictionary [ydl_opts] without its [progress_hooks]; an absent key is
    [None]. *)
Record ydl_opts : Type := {
  format : str;
  outtmpl : str;
  quiet : bool;
  no_warnings : bool;
  postprocessors : option (list postprocessor);
  merge_output_format : option str;
  writesubtitles : option bool;
  writeautomaticsub : option bool
}.

(** Lines 185-220. *)
Definition make_ydl_opts (safe_title format_id download_type : str) : ydl_opts :=
  if (download_type =? "audio")%str then
    {| format := "bestaudio/best";
       outtmpl := Os.path_join downloads_dir (safe_title ++ ".%(ext)s");
       quiet := true;
       no_warnings := true;
       postprocessors :=
         Some [ {| key := "FFmpegExtractAudio"; preferredcodec := "mp3";
                   preferredquality := "192" |} ];
       merge_output_format := None;
       writesubtitles := None;
       writeautomaticsub := None |}
  else
    {| format := VideoDownloader.format_selector format_id download_type;
       outtmpl := Os.path_join downloads_dir (safe_title ++ ".%(ext)s");
       quiet := true;
       no_warnings := true;
       postprocessors := None;
       merge_output_format := Some "mp4";
       writesubtitles := Some false;
       writeautomaticsub := Some false |}.

(** *** [download_video]: the search for the downloaded file *)

(** [list.sort(key=..., reverse=True)] on file names: the key of every name
    is computed first; the names come out by decreasing key, names of equal
    key in their order.  A name stands with its key. *)
Fixpoint insert_desc (x : Q * str) (l : list (Q * str)) : list (Q * str) :=
  match l with
  | [] => [x]
  | y :: l' =>
      if VideoDownloader.Qltb (fst x) (fst y)
      then y :: insert_desc x l'
      else x :: l
  end.

Definition sort_reverse (l : list (Q * str)) : list (Q * str) :=
  fold_right insert_desc [] l.

(** [max(first :: rest, key=...)]: the first element of the greatest
    key. *)
Fixpoint max_by (best : Q * str) (rest : list (Q * str)) : Q * str :=
  match rest with
  | [] => best
  | x :: rest' =>
      max_by (if VideoDownloader.Qltb (fst best) (fst x) then x else best) rest'
  end.

Section Library.

Context {U : Py.Unicode}.

(** [temp_ydl.extract_info(url, download=False)] followed by
    [info.get('title', 'video')]: [None] for a falsy [info]. *)
Variable extract_title : str -> Py.M (option str).

(** [ydl.download([url])] under the given options. *)
Variable ydl_download : ydl_opts -> str -> Py.M unit.

(** The download directory when the download has ended, which the search
    does not change: [os.listdir], [os.path.isfile] and [os.path.getctime]
    on a path, and [time.time()].  [os.path.getctime] raises [OSError] for
    a path that cannot be examined.  Times are floats, given by their
    values: the difference of line 239 is rounded only where it is far from
    120, for any clock time, which counts the seconds since 1970, from 2004
    on, so that its comparison with 120 is that of the values. *)
Variable listdir : list str.
Variable isfile : str -> bool.
Variable getctime : str -> Py.M Q.
Variable current_time : Q.

(** [os.path.getctime(os.path.join(self.downloads_dir, x))] *)
Definition ctime_of (x : str) : Py.M Q := getctime (Os.path_join downloads_dir x).

(** Lines 233-241: the loop over the directory, which keeps the files
    created in the last two minutes. *)
Fixpoint recent_files (files : list str) : Py.M (list str) :=
  match files with
  | [] => Py.ret []
  | file :: rest =>
      if (file =? ".gitkeep")%str then recent_files rest
      else if isfile (Os.path_join downloads_dir file) then
        ctime <- ctime_of file ;;
        let file_age := (current_time - ctime)%Q in
        downloaded_files <- recent_files rest ;;
        Py.ret (if VideoDownloader.Qltb file_age 120
                then file :: downloaded_files
                else downloaded_files)
      else recent_files rest
  end.

(** The names with their keys, computed in the order of the list. *)
Fixpoint with_ctime (files : list str) : Py.M (list (Q * str)) :=
  match files with
  | [] => Py.ret []
  | x :: rest =>
      ctime <- ctime_of x ;;
      keyed <- with_ctime rest ;;
      Py.ret ((ctime, x) :: keyed)
  end.

(** Lines 229-270. *)
Definition find_downloaded_file : Py.M App.server_result :=
  downloaded_files <- recent_files listdir ;;
  match downloaded_files with
  | _ :: _ =>
      keyed <- with_ctime downloaded_files ;;
      let filename := snd (hd (0%Q, EmptyString) (sort_reverse keyed)) in
      Py.ret (App.Downloaded filename (Os.path_join downloads_dir filename))
  | [] =>
      let all_files := filter (fun f => negb (f =? ".gitkeep")%str) listdir in
      match all_files with
      | first :: rest =>
          first_ctime <- ctime_of first ;;
          keyed <- with_ctime rest ;;
          let latest_file := snd (max_by (first_ctime, first) keyed) in
          Py.ret (App.Downloaded latest_file
                    (Os.path_join downloads_dir latest_file))
      | [] => Py.ret (App.NotDownloaded "No downloaded file found in directory")
      end
  end.

(** Lines 161-277.  The callback, when given, takes the percentage. *)
Definition download_video (url format_id download_type : str)
  (progress_callback : option (Q -> Py.M unit)) : Py.M App.server_result :=
  Py.try_except
    (info_title <- extract_title url ;;
     let safe_title :=
       match info_title with
       | Some title_ => VideoDownloader.safe_title title_
       | None => "video"
       end in
     let opts := make_ydl_opts safe_title format_id download_type in
     _ <- ydl_download opts url ;;
     _ <- match progress_callback with
          | Some callback => callback 100%Q
          | None => Py.ret tt
          end ;;
     find_downloaded_file)
    (fun e =>
       _ <- Py.log_error ("Download error: " ++ e) ;;
       Py.ret (App.NotDownloaded ("Download failed: " ++ e))).

End Library.

End Downloader.

(** ** [app.py]: the route [/get_video_info] *)

Module AppInfo.

Inductive payload : Type :=
| ErrorPayload (error : str)
| InfoPayload (video_info : Downloader.video_info)
    (formatted_duration formatted_views : str).

Record response : Type := { body : payload; status : Z }.

Section Routes.

Context {U : Py.Unicode} {F : Py.Floats}.

Variable format_1f : Q -> str.
Variable extract_info : str -> Py.M (option Downloader.info_dict).

(** Route [/get_video_info], for the parsed JSON body [data]: the response
    alone, without the records written to the log. *)
Definition get_video_info (data : Py.value) : response :=
  match fst (url_v <- Py.get data "url" (Py.VStr EmptyString) ;;
             Py.strip_value url_v) with
  | Py.Raise _ =>
      {| body := ErrorPayload
           "An error occurred while fetching video information. Please try again.";
         status := 500 |}
  | Py.Ok url =>
      if negb (Py.truthy_str url) then
        {| body := ErrorPayload "Please provide a valid YouTube URL"; status := 400 |}
      else if negb (VideoDownloader.is_valid_youtube_url url) then
        {| body := ErrorPayload
             "Please provide a valid YouTube URL. Supported formats: youtube.com/watch, youtu.be, youtube.com/shorts, youtube.com/embed";
           status := 400 |}
      else
        match Downloader.get_video_info extract_info url with
        | None =>
            {| body := ErrorPayload
                 "Unable to fetch video information. Please check the URL and try again.";
               status := 400 |}
        | Some video_info =>
            {| body :=
                 InfoPayload video_info
                   (VideoDownloader.format_duration (Downloader.v_duration video_info))
                   (Downloader.format_view_count format_1f
                      (Downloader.v_view_count video_info));
               status := 200 |}
        end
  end.

End Routes.

End AppInfo.

(** ** Notions used by the further properties of the code *)

Module Props.

(** The Unicode data of the examples: the letters U+00C0 to U+00FF of the
    Latin-1 supplement with their cases, among them the sharp s whose upper
    case is SS; the long s and the dotless i that [re.IGNORECASE] takes for
    s and i, the dotted capital I and the Kelvin sign whose lower cases are
    i and k; the Greek iota in both cases and the combining iota (U+0345),
    which is no letter and has the capital iota for upper case; the CJK
    ideographs; and the no-break space.  The other code points, which no
    example uses, are given no class and no case. *)
Definition latin1_upper (c : char) : bool :=
  (Chr.in_range 192 222 c && negb (Chr.eqb c 215%N))%bool.

Definition latin1_lower (c : char) : bool :=
  (Chr.in_range 224 254 c && negb (Chr.eqb c 247%N))%bool.

Definition ideograph (c : char) : bool := Chr.in_range 19968 40959 c.

Definition one_of (l : list N) (c : char) : bool := existsb (Chr.eqb c) l.

Definition sample_unicode : Py.Unicode :=
  {| Py.uni_class c :=
       if (latin1_upper c || latin1_lower c || ideograph c
           || one_of [223; 255; 304; 305; 376; 383; 921; 953; 8490]%N c)%bool
       then Py.Alnum
       else if Chr.eqb c 160%N then Py.White else Py.Other;
     Py.uni_lower c :=
       if latin1_upper c then (c + 32)%N
       else if Chr.eqb c 304%N then 105%N
       else if Chr.eqb c 376%N then 255%N
       else if Chr.eqb c 921%N then 953%N
       else if Chr.eqb c 8490%N then 107%N
       else c;
     Py.uni_cased c :=
       (latin1_upper c || latin1_lower c
        || one_of [223; 255; 304; 305; 376; 383; 837; 921; 953; 8490]%N c)%bool;
     Py.uni_extra a c :=
       ((Chr.eqb a 383%N && Chr.eqb c 115%N) || (Chr.eqb a 305%N && Chr.eqb c 105%N))%bool;
     Py.uni_upper c :=
       if latin1_lower c then String (c - 32)%N EmptyString
       else if Chr.eqb c 223%N then "SS"
       else if Chr.eqb c 255%N then String 376%N EmptyString
       else if Chr.eqb c 305%N then "I"
       else if Chr.eqb c 383%N then "S"
       else if (Chr.eqb c 837%N || Chr.eqb c 953%N)%bool then String 921%N EmptyString
       else String c EmptyString |}.

(** The text with its letters A to Z in lower case, and the text with its
    letters a to z in upper case; every other character is kept. *)
Definition lower_letter (c : char) : char :=
  if Py.is_upper c then (c + 32)%N else c.

Definition upper_letter (c : char) : char :=
  if Py.is_lower c then (c - 32)%N else c.

Fixpoint map_str (f : char -> char) (s : str) : str :=
  match s with
  | EmptyString => EmptyString
  | String a s' => String (f a) (map_str f s')
  end.

(** The characters of a text. *)
Fixpoint chars (s : str) : list char :=
  match s with
  | EmptyString => []
  | String a s' => a :: chars s'
  end.

(** A letter A to Z or a to z. *)
Definition is_letter (c : char) : bool := Py.is_upper c || Py.is_lower c.

Definition lower_letters (s : str) : str := map_str lower_letter s.
Definition upper_letters (s : str) : str := map_str upper_letter s.

(** Floats on which the product by 1000 is exact. *)
Definition exact_floats : Py.Floats :=
  {| Py.float_times_1000 x := (x * 1000)%Q;
     Py.float_times_1000_zero x H :=
       Qeq_trans _ _ _ (Qmult_comp x 0%Q H 1000%Q 1000%Q (Qeq_refl 1000%Q))
         (Qmult_0_l 1000%Q) |}.

(** Three candidates of the key [(video, 720p (with audio), mp4)]: files
    of 100 and 250 bytes, and a stream of unknown size at 0.25 kbit/s, whose
    score is 250 too. *)
Definition sample_sized (id : str) (filesize_ : option Z) (tbr_ : option Py.number)
  : VideoDownloader.raw_format :=
  Spec.sample id "mp4" "avc1" "mp4a" (Some 720) filesize_ tbr_ None.

Definition sample_sizes : list VideoDownloader.raw_format :=
  [ sample_sized "22" (Some 100) None; sample_sized "59" (Some 250) None;
    sample_sized "78" None (Some (Py.Float (1 # 4))) ].

(** The test of line 329: a stream with an audio codec and no video
    codec. *)
Definition audio_only (fmt : VideoDownloader.raw_format) : bool :=
  negb (VideoDownloader.acodec fmt =? "none")%str &&
  (VideoDownloader.vcodec fmt =? "none")%str.

Definition audio_formats (l : list VideoDownloader.raw_format)
  : list VideoDownloader.raw_format :=
  filter audio_only l.

(** An audio-only candidate with the given id and audio bitrate. *)
Definition sample_audio (id : str) (abr_ : option Py.number)
  : VideoDownloader.raw_format :=
  Spec.sample id "m4a" "none" "mp4a" None None None abr_.

(** Lines 311-315: the video that [get_direct_download_url] reads, the
    first entry of a playlist. *)
Definition first_video (info : VideoDownloader.extracted) : option VideoDownloader.media :=
  match info with
  | VideoDownloader.Single v => Some v
  | VideoDownloader.Playlist [] => None
  | VideoDownloader.Playlist (first :: _) => first
  end.

(** A computation that ends with an exception. *)
Definition raises {A : Type} (m : Py.M A) : Prop := exists msg, fst m = Py.Raise msg.

(** Three audio-only candidates of 128, 160 and 160 kbps after a video. *)
Definition sample_audio_list : list VideoDownloader.raw_format :=
  [ Spec.sample_720p_with_audio; sample_audio "139" (Some (Py.Int 128));
    sample_audio "140" (Some (Py.Float 160)); sample_audio "141" (Some (Py.Int 160)) ].

(** A progress report of a finished transfer of 200 bytes. *)
Definition sample_progress : Downloader.progress :=
  {| Downloader.status := "downloading";
     Downloader.total_bytes := Some 200%Q;
     Downloader.total_bytes_estimate := None;
     Downloader.downloaded_bytes := Some 200%Q |}.

(** A report for which the library knows neither the size nor an
    estimate. *)
Definition sample_progress_unknown : Downloader.progress :=
  {| Downloader.status := "downloading";
     Downloader.total_bytes := None;
     Downloader.total_bytes_estimate := None;
     Downloader.downloaded_bytes := Some 200%Q |}.

(** A download directory with the placeholder, a file of an earlier
    download and two files created 10 and 5 seconds before the time 1000. *)
Definition sample_listdir : list str :=
  [".gitkeep"; "old.mp4"; "a.mp4"; "b.mp4"].

Definition sample_isfile (path : str) : bool := true.

Definition sample_getctime (path : str) : Py.M Q :=
  if (path =? "downloads/a.mp4")%str then Py.ret 990%Q
  else if (path =? "downloads/b.mp4")%str then Py.ret 995%Q
  else Py.ret 100%Q.

Definition sample_time : Q := 1000%Q.

(** The creation time of an entry of the download directory, [None] when
    [os.path.getctime] raises. *)
Definition ctime (getctime : str -> Py.M Q) (x : str) : option Q :=
  match fst (getctime (Os.path_join Downloader.downloads_dir x)) with
  | Py.Ok t => Some t
  | Py.Raise _ => None
  end.

(** Lines 234-241: the test of one directory entry, a regular file other
    than [.gitkeep] created less than 120 seconds ago. *)
Definition recent_file (isfile : str -> bool) (getctime : str -> Py.M Q)
  (current_time : Q) (file : str) : bool :=
  negb (file =? ".gitkeep")%str &&
  isfile (Os.path_join Downloader.downloads_dir file) &&
  match ctime getctime file with
  | Some t => VideoDownloader.Qltb (current_time - t) 120
  | None => false
  end.

(** A directory as the sample one in which [old.mp4] cannot be examined. *)
Definition sample_getctime_broken (path : str) : Py.M Q :=
  if (path =? "downloads/old.mp4")%str
  then Py.raise "[Errno 13] Permission denied: 'downloads/old.mp4'"
  else sample_getctime path.

(** The value of a key of the body is a text or is absent. *)
Definition text_or_absent (key : str) (d : list (str * Py.value)) : Prop :=
  Py.lookup key d = None \/ exists s, Py.lookup key d = Some (Py.VStr s).

(** An extractor and a library for which every download succeeds. *)
Definition sample_extract_title (url : str) : Py.M (option str) :=
  Py.ret (Some "Amazing Video!! (2024)").

Definition sample_ydl_download (opts : Downloader.ydl_opts) (url : str) : Py.M unit :=
  Py.ret tt.

(** The text of a value of the body, for a text. *)
Definition text_of (v : Py.value) : str :=
  match v with Py.VStr s => s | _ => EmptyString end.

(** [downloader.download_video] over the sample directory, as the route
    [/server_download] calls it for a body whose values are texts. *)
Definition sample_download_video (url : str) (format_id download_type : Py.value)
  : Py.M App.server_result :=
  Downloader.download_video (U := sample_unicode) sample_extract_title
    sample_ydl_download sample_listdir
    sample_isfile sample_getctime sample_time url (text_of format_id)
    (text_of download_type) None.

(** A well-formed body in video mode. *)
Definition video_body : list (str * Py.value) :=
  [("url", Py.VStr "https://youtu.be/abc"); ("format_id", Py.VStr "137")].

(** An extractor that reports the two candidates of unknown bitrate. *)
Definition extract_unknown_bitrates (url : str) : Py.M (option Downloader.info_dict) :=
  Py.ret (Some {| Downloader.title := "Amazing Video!! (2024)";
                  Downloader.duration := Some 3725;
                  Downloader.uploader := "Unknown";
                  Downloader.view_count := Some 0;
                  Downloader.thumbnail := EmptyString;
                  Downloader.description := None;
                  Downloader.formats :=
                    [Spec.sample_unknown_first; Spec.sample_unknown_second] |}).

End Props.

(** The comparisons of code points, decided by arithmetic. *)
Ltac chr_compare :=
  unfold Py.is_upper, Py.is_lower, Py.is_digit, Chr.in_range, Chr.is_ascii, Chr.eqb in *;
  repeat match goal with
    | H : context [N.leb ?x ?y] |- _ => destruct (N.leb_spec x y); try lia
    | H : context [N.ltb ?x ?y] |- _ => destruct (N.ltb_spec x y); try lia
    | H : context [N.eqb ?x ?y] |- _ => destruct (N.eqb_spec x y); try lia
    | |- context [N.leb ?x ?y] => destruct (N.leb_spec x y); try lia
    | |- context [N.ltb ?x ?y] => destruct (N.ltb_spec x y); try lia
    | |- context [N.eqb ?x ?y] => destruct (N.eqb_spec x y); try lia
    end;
  cbn [andb orb negb] in *; try discriminate; try reflexivity; try lia.

(** ** Facts about characters and strings *)

Lemma chr_eqb_spec (a b : char) : reflect (a = b) (Chr.eqb a b).
Proof. apply N.eqb_spec. Qed.

Lemma chr_eqb_eq (a b : char) : Chr.eqb a b = true <-> a = b.
Proof. apply N.eqb_eq. Qed.

Lemma chr_eqb_neq (a b : char) : Chr.eqb a b = false <-> a <> b.
Proof. apply N.eqb_neq. Qed.

Lemma chr_eqb_refl (a : char) : Chr.eqb a a = true.
Proof. apply N.eqb_refl. Qed.

Lemma str_eqb_eq (a b : str) : (a =? b)%str = true <-> a = b.
Proof.
  revert b. induction a as [|x a IH]; intros [|y b]; simpl; split;
    try discriminate; try reflexivity.
  - intros H. apply andb_true_iff in H as [H1 H2].
    apply chr_eqb_eq in H1. apply IH in H2. now subst.
  - intros [= -> ->]. rewrite chr_eqb_refl. now apply IH.
Qed.

Lemma str_eqb_refl (a : str) : (a =? a)%str = true.
Proof. now apply str_eqb_eq. Qed.

Lemma str_eqb_neq (a b : str) : (a =? b)%str = false <-> a <> b.
Proof.
  rewrite <- str_eqb_eq. destruct (a =? b)%str; split; congruence.
Qed.

Lemma str_eqb_spec (a b : str) : reflect (a = b) (a =? b)%str.
Proof.
  destruct (a =? b)%str eqn:E; constructor.
  - now apply str_eqb_eq.
  - now apply str_eqb_neq.
Qed.

Lemma str_dec (a b : str) : {a = b} + {a <> b}.
Proof.
  destruct (str_eqb_spec a b); [now left | now right].
Qed.

Lemma str_app_assoc (a b c : str) : (a ++ b) ++ c = a ++ (b ++ c).
Proof. induction a as [|x a IH]; simpl; [reflexivity | now rewrite IH]. Qed.

Lemma str_app_empty_r (a : str) : a ++ EmptyString = a.
Proof. induction a as [|x a IH]; simpl; [reflexivity | now rewrite IH]. Qed.

Lemma str_length_app (a b : str) :
  Str.length (a ++ b) = (Str.length a + Str.length b)%nat.
Proof. induction a as [|x a IH]; simpl; [reflexivity | now rewrite IH]. Qed.

Lemma str_app_inv_length (a b c d : str) :
  Str.length a = Str.length c -> a ++ b = c ++ d -> a = c /\ b = d.
Proof.
  revert c. induction a as [|x a IH]; intros [|y c] Hl H; simpl in *; try discriminate.
  - now split.
  - injection H as -> H. injection Hl as Hl. destruct (IH _ Hl H) as [-> ->].
    now split.
Qed.

Lemma str_length_zero (s : str) : Str.length s = 0%nat -> s = EmptyString.
Proof. now destruct s. Qed.

Lemma all_chars_app (p : char -> bool) (a b : str) :
  Spec.all_chars p (a ++ b) = Spec.all_chars p a && Spec.all_chars p b.
Proof.
  induction a as [|x a IH]; simpl; [reflexivity |].
  now rewrite IH, andb_assoc.
Qed.

Lemma all_chars_ext (p q : char -> bool) (s : str) :
  (forall a, p a = q a) -> Spec.all_chars p s = Spec.all_chars q s.
Proof.
  intros E. induction s as [|x s IH]; simpl; [reflexivity | now rewrite E, IH].
Qed.

Section Matching.

Context {U : Py.Unicode}.

Lemma ci_eq_app (a b p q : str) :
  Spec.ci_eq a p -> Spec.ci_eq b q -> Spec.ci_eq (a ++ b) (p ++ q).
Proof.
  unfold Spec.ci_eq. revert p.
  induction a as [|x a IH]; intros [|y p] H1 H2; simpl in *; try discriminate.
  - assumption.
  - apply andb_true_iff in H1 as [Hx H1]. rewrite Hx. simpl. now apply IH.
Qed.

Lemma ci_eq_app_inv (p q w : str) :
  Spec.ci_eq w (p ++ q) ->
  exists w1 w2, w = w1 ++ w2 /\ Spec.ci_eq w1 p /\ Spec.ci_eq w2 q.
Proof.
  unfold Spec.ci_eq. revert w.
  induction p as [|c p IH]; intros w H; simpl in *.
  - exists EmptyString, w. now repeat split.
  - destruct w as [|a w]; simpl in H; [discriminate |].
    apply andb_true_iff in H as [Ha Hw].
    destruct (IH _ Hw) as (w1 & w2 & -> & H1 & H2).
    exists (String a w1), w2. simpl. now rewrite Ha, H1.
Qed.

Lemma ci_eq_empty (w : str) : Spec.ci_eq w EmptyString -> w = EmptyString.
Proof. unfold Spec.ci_eq. now destruct w. Qed.

(** ** The matcher computes the language of a pattern *)

Lemma lang_seq_iff ic r1 r2 w :
  Spec.lang ic (Re.Seq r1 r2) w <->
  exists w1 w2, w = w1 ++ w2 /\ Spec.lang ic r1 w1 /\ Spec.lang ic r2 w2.
Proof.
  split.
  - intros H. inversion H; subst. now exists w1, w2.
  - intros (w1 & w2 & -> & H1 & H2). now constructor.
Qed.

Lemma lang_opt_iff ic r w :
  Spec.lang ic (Re.Opt r) w <-> w = EmptyString \/ Spec.lang ic r w.
Proof.
  split.
  - intros H. inversion H; subst; auto.
  - intros [-> | H]; now constructor.
Qed.

Lemma lang_plus_iff ic cs w :
  Spec.lang ic (Re.Plus cs) w <->
  w <> EmptyString /\ Spec.all_chars (Re.charset_mem cs) w = true.
Proof.
  split.
  - intros H. inversion H; subst; auto.
  - intros [H1 H2]. now constructor.
Qed.

Lemma lang_Lit_iff c w :
  Spec.lang true (Re.Lit c) w <-> Spec.ci_eq w (String c EmptyString).
Proof.
  unfold Spec.ci_eq. split.
  - intros H. inversion H as [|a c' E| | | | |]; subst.
    unfold Re.char_eq in E. simpl. now rewrite E.
  - destruct w as [|a [|b w]]; simpl; try discriminate.
    + intros E. apply andb_true_iff in E as [E _]. now constructor.
    + intros E. apply andb_true_iff in E as [_ E]. discriminate.
Qed.

Lemma lang_lit_iff p w : Spec.lang true (Re.lit p) w <-> Spec.ci_eq w p.
Proof.
  revert w. induction p as [|c p IH]; intros w; simpl.
  - split.
    + intros H. inversion H. reflexivity.
    + intros H. apply ci_eq_empty in H. subst. constructor.
  - rewrite lang_seq_iff. split.
    + intros (w1 & w2 & -> & H1 & H2).
      apply lang_Lit_iff in H1. apply IH in H2.
      apply (ci_eq_app _ _ (String c EmptyString) p H1 H2).
    + intros H.
      destruct (ci_eq_app_inv (String c EmptyString) p w H) as (w1 & w2 & -> & H1 & H2).
      exists w1, w2. split; [reflexivity |]. split; [now apply lang_Lit_iff | now apply IH].
Qed.

Lemma star_rests_spec cs s rest :
  In rest (Re.star_rests cs s) <->
  exists w, s = w ++ rest /\ Spec.all_chars (Re.charset_mem cs) w = true.
Proof.
  revert rest. induction s as [|a s IH]; intros rest; simpl.
  - split.
    + intros [<- | []]. now exists EmptyString.
    + intros (w & H & _). destruct w; [simpl in H; now left | discriminate].
  - destruct (Re.charset_mem cs a) eqn:E.
    + rewrite in_app_iff, IH. simpl. split.
      * intros [(w & -> & Hw) | [<- | []]].
        -- exists (String a w). simpl. now rewrite E.
        -- now exists EmptyString.
      * intros (w & H & Hw). destruct w as [|b w]; simpl in *.
        -- right. left. now symmetry.
        -- injection H as <- ->. apply andb_true_iff in Hw as [_ Hw].
           left. now exists w.
    + simpl. split.
      * intros [<- | []]. now exists EmptyString.
      * intros (w & H & Hw). destruct w as [|b w]; simpl in *.
        -- left. now symmetry.
        -- injection H as <- ->. rewrite E in Hw. discriminate.
Qed.

Lemma rests_spec ic r s rest :
  In rest (Re.rests ic r s) <-> exists w, s = w ++ rest /\ Spec.lang ic r w.
Proof.
  revert s rest. induction r as [|c|cs|r1 IH1 r2 IH2|r IH|cs]; intros s rest; simpl.
  - split.
    + intros [<- | []]. exists EmptyString. split; [reflexivity | constructor].
    + intros (w & -> & H). inversion H. now left.
  - destruct s as [|a s].
    + split; [intros [] |]. intros (w & H & Hw). inversion Hw; subst. discriminate.
    + destruct (Re.char_eq ic a c) eqn:E.
      * split.
        -- intros [<- | []]. exists (String a EmptyString). split; [reflexivity | now constructor].
        -- intros (w & H & Hw). inversion Hw; subst. simpl in H. injection H as _ ->. now left.
      * split; [intros [] |]. intros (w & H & Hw). inversion Hw; subst.
        simpl in H. injection H as <- _. congruence.
  - destruct s as [|a s].
    + split; [intros [] |]. intros (w & H & Hw). inversion Hw; subst. discriminate.
    + destruct (Re.charset_mem cs a) eqn:E.
      * split.
        -- intros [<- | []]. exists (String a EmptyString). split; [reflexivity | now constructor].
        -- intros (w & H & Hw). inversion Hw; subst. simpl in H. injection H as _ ->. now left.
      * split; [intros [] |]. intros (w & H & Hw). inversion Hw; subst.
        simpl in H. injection H as <- _. congruence.
  - rewrite in_flat_map. split.
    + intros (mid & H1 & H2). apply IH1 in H1 as (w1 & -> & L1).
      apply IH2 in H2 as (w2 & -> & L2).
      exists (w1 ++ w2). split; [now rewrite str_app_assoc | now constructor].
    + intros (w & -> & H). apply lang_seq_iff in H as (w1 & w2 & -> & L1 & L2).
      exists (w2 ++ rest). split.
      * apply IH1. exists w1. split; [now rewrite str_app_assoc | assumption].
      * apply IH2. now exists w2.
  - rewrite in_app_iff, IH. simpl. split.
    + intros [(w & -> & H) | [<- | []]].
      * exists w. split; [reflexivity | now constructor].
      * exists EmptyString. split; [reflexivity | constructor].
    + intros (w & -> & H). apply lang_opt_iff in H as [-> | H].
      * right. now left.
      * left. now exists w.
  - destruct s as [|a s].
    + split; [intros [] |]. intros (w & H & Hw). apply lang_plus_iff in Hw as [Hn _].
      destruct w; [congruence | discriminate].
    + destruct (Re.charset_mem cs a) eqn:E.
      * rewrite star_rests_spec. split.
        -- intros (w & -> & Hw). exists (String a w). split; [reflexivity |].
           apply lang_plus_iff. split; [discriminate | simpl; now rewrite E].
        -- intros (w & H & Hw). apply lang_plus_iff in Hw as [Hn Hw].
           destruct w as [|b w]; [congruence |]. simpl in *. injection H as <- ->.
           apply andb_true_iff in Hw as [_ Hw]. now exists w.
      * split; [intros [] |]. intros (w & H & Hw). apply lang_plus_iff in Hw as [Hn Hw].
        destruct w as [|b w]; [congruence |]. simpl in *. injection H as <- ->.
        rewrite E in Hw. discriminate.
Qed.

(** [re.match] succeeds exactly when some prefix of the text is in the
    language of the pattern. *)
Lemma match_spec ic r s :
  VideoDownloader.is_some (Re.match_ ic r s) = true <->
  exists w rest, s = w ++ rest /\ Spec.lang ic r w.
Proof.
  unfold Re.match_. split.
  - destruct (Re.rests ic r s) as [|x l] eqn:E; simpl; [discriminate |].
    intros _. assert (H : In x (Re.rests ic r s)) by (rewrite E; now left).
    apply rests_spec in H as (w & -> & H). now exists w, x.
  - intros (w & rest & -> & H).
    assert (H' : In rest (Re.rests ic r (w ++ rest))) by (apply rests_spec; now exists w).
    now destruct (Re.rests ic r (w ++ rest)).
Qed.

End Matching.

(** ** [is_valid_youtube_url] *)

Section Url.

Context {U : Py.Unicode}.

Lemma id_char_mem (a : char) :
  Re.charset_mem {| Re.negated := false; Re.items := [Re.Word; Re.Hyphen] |} a
  = Spec.id_char a.
Proof.
  unfold Re.charset_mem, Spec.id_char. simpl. now rewrite orb_false_r.
Qed.

Lemma lang_scheme (w : str) :
  Spec.lang true VideoDownloader.scheme w <->
  w = EmptyString \/ Spec.ci_eq w "http://" \/ Spec.ci_eq w "https://".
Proof.
  unfold VideoDownloader.scheme.
  rewrite lang_opt_iff. split.
  - intros [-> | H]; [now left | right].
    apply lang_seq_iff in H as (w1 & w23 & -> & H1 & H).
    apply lang_seq_iff in H as (w2 & w3 & -> & H2 & H3).
    apply lang_lit_iff in H1, H3. apply lang_opt_iff in H2 as [-> | H2].
    + left. apply (ci_eq_app w1 w3 "http" "://" H1 H3).
    + right. apply lang_Lit_iff in H2.
      apply (ci_eq_app w1 (w2 ++ w3) "http" "s://" H1).
      apply (ci_eq_app w2 w3 "s" "://" H2 H3).
  - intros [-> | [H | H]]; [now left | right | right].
    + destruct (ci_eq_app_inv "http" "://" w H) as (w1 & w3 & -> & H1 & H3).
      apply lang_seq_iff. exists w1, w3. split; [reflexivity |].
      split; [now apply lang_lit_iff |].
      apply lang_seq_iff. exists EmptyString, w3. split; [reflexivity |].
      split; [apply lang_opt_iff; now left | now apply lang_lit_iff].
    + destruct (ci_eq_app_inv "http" "s://" w H) as (w1 & w23 & -> & H1 & H23).
      destruct (ci_eq_app_inv "s" "://" w23 H23) as (w2 & w3 & -> & H2 & H3).
      apply lang_seq_iff. exists w1, (w2 ++ w3). split; [reflexivity |].
      split; [now apply lang_lit_iff |].
      apply lang_seq_iff. exists w2, w3. split; [reflexivity |].
      split; [apply lang_opt_iff; right; now apply lang_Lit_iff | now apply lang_lit_iff].
Qed.

Lemma lang_www (w : str) :
  Spec.lang true VideoDownloader.www w <-> w = EmptyString \/ Spec.ci_eq w "www.".
Proof. unfold VideoDownloader.www. now rewrite lang_opt_iff, lang_lit_iff. Qed.

Lemma lang_video_id (w : str) :
  Spec.lang true VideoDownloader.video_id w <->
  w <> EmptyString /\ Spec.all_chars Spec.id_char w = true.
Proof.
  unfold VideoDownloader.video_id. rewrite lang_plus_iff.
  now rewrite (all_chars_ext _ Spec.id_char w id_char_mem).
Qed.

Lemma match_with_www (site url : str) :
  VideoDownloader.is_some
    (Re.match_ true
       (Re.Seq VideoDownloader.scheme
          (Re.Seq VideoDownloader.www
             (Re.Seq (Re.lit site) VideoDownloader.video_id))) url) = true
  <-> Spec.url_shape true site url.
Proof.
  rewrite match_spec. unfold Spec.url_shape. split.
  - intros (w & rest & -> & H).
    apply lang_seq_iff in H as (sch & w1 & -> & Hs & H).
    apply lang_seq_iff in H as (w0 & w2 & -> & Hw & H).
    apply lang_seq_iff in H as (body & ident & -> & Hb & Hi).
    apply lang_scheme in Hs. apply lang_www in Hw. apply lang_lit_iff in Hb.
    apply lang_video_id in Hi as [Hi1 Hi2].
    exists sch, w0, body, ident, rest. rewrite !str_app_assoc.
    repeat split; try assumption. destruct Hw as [-> | Hw]; [now left | right; now split].
  - intros (sch & w0 & body & ident & rest & -> & Hs & Hw & Hb & Hi1 & Hi2).
    exists (sch ++ w0 ++ body ++ ident), rest. rewrite !str_app_assoc.
    split; [reflexivity |].
    apply lang_seq_iff. exists sch, (w0 ++ body ++ ident). split; [reflexivity |].
    split; [now apply lang_scheme |].
    apply lang_seq_iff. exists w0, (body ++ ident). split; [reflexivity |].
    split; [apply lang_www; destruct Hw as [-> | [_ Hw]]; [now left | now right] |].
    apply lang_seq_iff. exists body, ident. split; [reflexivity |].
    split; [now apply lang_lit_iff | now apply lang_video_id].
Qed.

Lemma match_without_www (site url : str) :
  VideoDownloader.is_some
    (Re.match_ true
       (Re.Seq VideoDownloader.scheme
          (Re.Seq (Re.lit site) VideoDownloader.video_id)) url) = true
  <-> Spec.url_shape false site url.
Proof.
  rewrite match_spec. unfold Spec.url_shape. split.
  - intros (w & rest & -> & H).
    apply lang_seq_iff in H as (sch & w1 & -> & Hs & H).
    apply lang_seq_iff in H as (body & ident & -> & Hb & Hi).
    apply lang_scheme in Hs. apply lang_lit_iff in Hb.
    apply lang_video_id in Hi as [Hi1 Hi2].
    exists sch, EmptyString, body, ident, rest. rewrite !str_app_assoc.
    repeat split; try assumption. now left.
  - intros (sch & w0 & body & ident & rest & -> & Hs & Hw & Hb & Hi1 & Hi2).
    destruct Hw as [-> | [Hf _]]; [| discriminate].
    exists (sch ++ body ++ ident), rest. rewrite !str_app_assoc.
    split; [reflexivity |].
    apply lang_seq_iff. exists sch, (body ++ ident). split; [reflexivity |].
    split; [now apply lang_scheme |].
    apply lang_seq_iff. exists body, ident. split; [reflexivity |].
    split; [now apply lang_lit_iff | now apply lang_video_id].
Qed.

Lemma is_valid_iff_recognized (url : str) :
  VideoDownloader.is_valid_youtube_url url = true <-> Spec.recognized url.
Proof.
  unfold VideoDownloader.is_valid_youtube_url, VideoDownloader.youtube_patterns,
    Spec.recognized.
  cbn [existsb]. rewrite !orb_true_iff.
  rewrite !match_with_www, match_without_www. intuition discriminate.
Qed.

Lemma url_shape_host (b : bool) (site tail url : str) :
  Spec.url_shape b (site ++ tail) url ->
  exists sch w host rest,
    url = sch ++ w ++ host ++ rest /\
    (sch = EmptyString \/ Spec.ci_eq sch "http://" \/ Spec.ci_eq sch "https://") /\
    (w = EmptyString \/ Spec.ci_eq w "www.") /\
    Spec.ci_eq host site.
Proof.
  intros (sch & w & body & ident & rest & -> & Hs & Hw & Hb & _).
  destruct (ci_eq_app_inv site tail body Hb) as (h & t & -> & Hh & _).
  exists sch, w, h, (t ++ ident ++ rest). rewrite !str_app_assoc.
  repeat split; try assumption. destruct Hw as [-> | [_ Hw]]; [now left | now right].
Qed.

(** On ASCII texts, the comparison of [re.IGNORECASE] is equality up to the
    case of the letters A to Z. *)
Lemma ci_match_ascii (a c : char) :
  Chr.is_ascii a = true -> Chr.is_ascii c = true ->
  Py.ci_match a c = Chr.eqb (Props.lower_letter a) (Props.lower_letter c).
Proof.
  intros Ha Hc. unfold Py.ci_match, Py.is_cased, Py.lower_char, Props.lower_letter.
  rewrite Ha, Hc.
  destruct (Py.is_upper a) eqn:Ua; destruct (Py.is_upper c) eqn:Uc;
    destruct (Py.is_lower c) eqn:Lc; cbn [orb andb negb];
    chr_compare.
Qed.

Lemma ci_eq_ascii (w lit : str) :
  Spec.all_chars Chr.is_ascii w = true -> Spec.all_chars Chr.is_ascii lit = true ->
  (Spec.ci_eq w lit <-> Props.lower_letters w = Props.lower_letters lit).
Proof.
  unfold Spec.ci_eq, Props.lower_letters. revert lit.
  induction w as [|a w IH]; intros [|c lit] Hw Hl; cbn [Spec.ci_eqb Props.map_str];
    try (split; [discriminate | discriminate]); [tauto |].
  cbn [Spec.all_chars] in Hw, Hl.
  apply andb_true_iff in Hw as [Ha Hw]. apply andb_true_iff in Hl as [Hc Hl].
  rewrite (ci_match_ascii a c Ha Hc), andb_true_iff, chr_eqb_eq, (IH lit Hw Hl).
  split; [now intros [-> ->] | now intros [= -> ->]].
Qed.

(** C4, as amended: [is_valid_youtube_url] is true exactly on the texts that
    start, letters compared without regard to case, with one of the four
    shapes - an optional [http://] or [https://], an optional [www.] on the
    three [youtube.com] shapes only, the site text and at least one
    identifier character - and false on every other text, the empty text
    among them; an accepted text names the host [youtube.com] or [youtu.be]
    right after the optional scheme and [www.].  Letters are compared as
    [re.IGNORECASE] compares them, which on ASCII texts is equality up to
    the case of the letters A to Z. *)
Theorem is_valid_youtube_url_spec :
  (forall url, VideoDownloader.is_valid_youtube_url url = true <-> Spec.recognized url) /\
  (forall url, ~ Spec.recognized url -> VideoDownloader.is_valid_youtube_url url = false) /\
  VideoDownloader.is_valid_youtube_url EmptyString = false /\
  VideoDownloader.is_valid_youtube_url "https://vimeo.com/watch?v=abc" = false /\
  (forall url, VideoDownloader.is_valid_youtube_url url = true ->
     exists sch w host rest,
       url = sch ++ w ++ host ++ rest /\
       (sch = EmptyString \/ Spec.ci_eq sch "http://" \/ Spec.ci_eq sch "https://") /\
       (w = EmptyString \/ Spec.ci_eq w "www.") /\
       (Spec.ci_eq host "youtube.com/" \/ Spec.ci_eq host "youtu.be/")) /\
  (forall w lit,
     Spec.all_chars Chr.is_ascii w = true ->
     Spec.all_chars Chr.is_ascii lit = true ->
     (Spec.ci_eq w lit <-> Props.lower_letters w = Props.lower_letters lit)).
Proof.
  split; [exact is_valid_iff_recognized |].
  split.
  { intros url H. destruct (VideoDownloader.is_valid_youtube_url url) eqn:E; [| reflexivity].
    exfalso. apply H. now apply is_valid_iff_recognized. }
  split; [vm_compute; reflexivity |]. split; [vm_compute; reflexivity |].
  split; [| exact ci_eq_ascii].
  intros url H. apply is_valid_iff_recognized in H.
  destruct H as [H | [H | [H | H]]].
  - destruct (url_shape_host true "youtube.com/" "watch?v=" url H)
      as (sch & w & host & rest & E & Hs & Hw & Hh).
    exists sch, w, host, rest. auto.
  - destruct (url_shape_host true "youtube.com/" "shorts/" url H)
      as (sch & w & host & rest & E & Hs & Hw & Hh).
    exists sch, w, host, rest. auto.
  - assert (H' : Spec.url_shape false ("youtu.be/" ++ EmptyString) url) by exact H.
    destruct (url_shape_host false "youtu.be/" EmptyString url H')
      as (sch & w & host & rest & E & Hs & Hw & Hh).
    exists sch, w, host, rest. auto.
  - destruct (url_shape_host true "youtube.com/" "embed/" url H)
      as (sch & w & host & rest & E & Hs & Hw & Hh).
    exists sch, w, host, rest. auto.
Qed.

End Url.

(** C4, as stated, fails: with [www.] optional on every shape the text
    [www.youtu.be/abc] has the short-link shape, and the program rejects
    it, whatever the Unicode data. *)
Lemma is_valid_youtube_url_www_short_link :
  (forall U : Py.Unicode,
     Spec.recognized_www_everywhere (U := U) "www.youtu.be/abc") /\
  (forall U : Py.Unicode,
     VideoDownloader.is_valid_youtube_url (U := U) "www.youtu.be/abc" = false).
Proof.
  split; intros U; [| vm_compute; reflexivity].
  right. right. left.
  exists EmptyString, "www.", "youtu.be/", "abc", EmptyString.
  split; [reflexivity |]. split; [now left |].
  split; [right; split; reflexivity |].
  split; [reflexivity |]. split; [discriminate | reflexivity].
Qed.

(** ** [format_duration] *)

Lemma format_02d_below_100 (n : Z) :
  0 <= n < 100 -> Py.format_02d n = Spec.two_digits n.
Proof.
  intros H.
  assert (T : forallb (fun k => (Py.format_02d (Z.of_nat k) =? Spec.two_digits (Z.of_nat k))%str)
                (seq 0 100) = true) by (vm_compute; reflexivity).
  rewrite forallb_forall in T. specialize (T (Z.to_nat n)).
  rewrite Z2Nat.id in T by lia. apply str_eqb_eq, T, in_seq. lia.
Qed.

Lemma str_of_int_length (n : Z) : 10 <= n -> (2 <= Str.length (Py.str_of_int n))%nat.
Proof.
  intros H. unfold Py.str_of_int. pose proof (DecimalZ.of_to n) as E.
  destruct (Z.to_int n) as [u | u].
  - destruct u as [|u|u|u|u|u|u|u|u|u|u]; [vm_compute in E; lia | ..];
      (destruct u as [|u|u|u|u|u|u|u|u|u|u]; [vm_compute in E; lia | ..]);
      simpl; lia.
  - unfold Z.of_int, Z.of_uint in E. lia.
Qed.

Lemma format_02d_from_10 (n : Z) : 10 <= n -> Py.format_02d n = Py.str_of_int n.
Proof.
  intros H. unfold Py.format_02d. apply str_of_int_length in H.
  destruct (Nat.ltb_spec (Str.length (Py.str_of_int n)) 2); [lia | reflexivity].
Qed.

Lemma format_02d_hours (n : Z) : 0 <= n -> Py.format_02d n = Spec.at_least_two_digits n.
Proof.
  intros H. unfold Spec.at_least_two_digits. destruct (Z.ltb_spec n 10).
  - assert (T : forallb (fun k => (Py.format_02d (Z.of_nat k) =?
                                     String "0" (Py.str_of_int (Z.of_nat k)))%str)
                  (seq 0 10) = true) by (vm_compute; reflexivity).
    rewrite forallb_forall in T. specialize (T (Z.to_nat n)).
    rewrite Z2Nat.id in T by lia. apply str_eqb_eq, T, in_seq. lia.
  - now apply format_02d_from_10.
Qed.

(** C5: [format_duration] gives [Unknown] for a missing, zero or negative
    number of seconds, the two-digit minutes and seconds [MM:SS] below one
    hour, and [HH:MM:SS] with at least two digits for the hours from one
    hour on; 45 gives [00:45] and 3725 gives [01:02:05]. *)
Theorem format_duration_spec (d : Z) :
  VideoDownloader.format_duration None = "Unknown" /\
  (d <= 0 -> VideoDownloader.format_duration (Some d) = "Unknown") /\
  (0 < d < 3600 ->
   VideoDownloader.format_duration (Some d) =
   Spec.two_digits (d / 60) ++ ":" ++ Spec.two_digits (d mod 60)) /\
  (3600 <= d ->
   VideoDownloader.format_duration (Some d) =
   Spec.at_least_two_digits (d / 3600) ++ ":" ++
   Spec.two_digits (d mod 3600 / 60) ++ ":" ++ Spec.two_digits (d mod 60)) /\
  VideoDownloader.format_duration (Some 45) = "00:45" /\
  VideoDownloader.format_duration (Some 3725) = "01:02:05".
Proof.
  split; [reflexivity |].
  split.
  { intros H. unfold VideoDownloader.format_duration.
    destruct (Z.leb_spec d 0); [| lia]. now rewrite orb_true_r. }
  split.
  { intros H. unfold VideoDownloader.format_duration, Py.truthy_int.
    destruct (Z.eqb_spec d 0); [lia |]. destruct (Z.leb_spec d 0); [lia |].
    cbn [negb orb].
    rewrite (Z.div_small d 3600), (Z.mod_small d 3600) by lia. cbn [Z.gtb Z.compare].
    pose proof (Z.mod_pos_bound d 60 ltac:(lia)).
    rewrite !format_02d_below_100; [reflexivity | lia |].
    split; [apply Z.div_pos; lia | apply Z.div_lt_upper_bound; lia]. }
  split.
  { intros H. unfold VideoDownloader.format_duration, Py.truthy_int.
    destruct (Z.eqb_spec d 0); [lia |]. destruct (Z.leb_spec d 0); [lia |].
    cbn [negb orb].
    assert (Hh : 1 <= d / 3600) by (apply Z.div_le_lower_bound; lia).
    destruct (Z.gtb_spec (d / 3600) 0); [| lia].
    rewrite format_02d_hours by lia.
    pose proof (Z.mod_pos_bound d 60 ltac:(lia)).
    pose proof (Z.mod_pos_bound d 3600 ltac:(lia)).
    rewrite !format_02d_below_100; [reflexivity | lia |].
    split; [apply Z.div_pos; lia | apply Z.div_lt_upper_bound; lia]. }
  split; reflexivity.
Qed.

(** ** [download_video]: the format selection expression *)

Lemma split_nonempty (c : char) (t : str) : Py.split c t <> [].
Proof.
  destruct t as [|x t]; simpl; [discriminate |].
  destruct (Chr.eqb x c); [discriminate |]. now destruct (Py.split c t).
Qed.

Lemma split_app_no_sep (c : char) (a t : str) :
  Spec.all_chars (fun x => negb (Chr.eqb x c)) a = true ->
  Py.split c (a ++ t) =
  match Py.split c t with
  | [] => [a]
  | w :: ws => (a ++ w) :: ws
  end.
Proof.
  induction a as [|x a IH]; simpl; intros H.
  - destruct (Py.split c t) eqn:E; [now apply split_nonempty in E | reflexivity].
  - apply andb_true_iff in H as [Hx Ha]. apply negb_true_iff in Hx.
    rewrite Hx, (IH Ha). now destruct (Py.split c t).
Qed.

(** C7, as amended: for a non-empty chosen id without a slash, in video
    mode, the alternatives of the expression are, in order, exactly four:
    the chosen id merged with the best audio; the best format with both
    codecs, with no bound on the height; the best format with both codecs up
    to height 1080; the best format. *)
Theorem format_selector_alternatives (format_id download_type : str) :
  format_id <> EmptyString ->
  Spec.no_slash format_id = true ->
  download_type <> "audio" ->
  Spec.alternatives (VideoDownloader.format_selector format_id download_type)
  = Spec.four_alternatives format_id.
Proof.
  intros Hne Hns Hdt. unfold VideoDownloader.format_selector.
  destruct (str_eqb_spec download_type "audio") as [E | _]; [contradiction |].
  unfold Py.truthy_str. destruct (str_eqb_spec format_id EmptyString) as [E | _];
    [contradiction |].
  cbn [negb]. unfold Spec.alternatives. rewrite (split_app_no_sep "/" _ _ Hns).
  reflexivity.
Qed.

Lemma format_selector_alternatives_witness :
  Spec.alternatives (VideoDownloader.format_selector "137" "video")
  = Spec.four_alternatives "137".
Proof.
  apply (format_selector_alternatives "137" "video");
    [discriminate | reflexivity | discriminate].
Defined.

(** C7, as stated, fails: for the id [137] the expression has four
    alternatives, not the three of the specification, and the second one
    puts no bound on the height. *)
Lemma format_selector_not_three_alternatives :
  Spec.alternatives (VideoDownloader.format_selector "137" "video")
    <> Spec.three_alternatives "137" /\
  List.length (Spec.alternatives (VideoDownloader.format_selector "137" "video")) = 4%nat /\
  nth_error (Spec.alternatives (VideoDownloader.format_selector "137" "video")) 1
    = Some ("best" ++ VideoDownloader.both_codecs) /\
  Py.contains "height" ("best" ++ VideoDownloader.both_codecs) = false.
Proof.
  split; [vm_compute; discriminate |]. repeat split; reflexivity.
Qed.

(** ** The safe file name *)

Section FileName.

Context {U : Py.Unicode}.

Lemma unsafe_char_mem (a : char) :
  Re.charset_mem
    {| Re.negated := true; Re.items := [Re.Word; Re.Space; Re.Hyphen] |} a
  = negb (Spec.safe_char a).
Proof.
  unfold Re.charset_mem, Spec.safe_char.
  cbn [existsb Re.item_mem Re.negated Re.items].
  now destruct (Py.is_word a), (Py.is_space a), (Chr.eqb a "-").
Qed.

Lemma separator_mem (a : char) :
  Re.charset_mem
    {| Re.negated := false; Re.items := [Re.Hyphen; Re.Space] |} a
  = Spec.separator a.
Proof.
  unfold Re.charset_mem, Spec.separator.
  cbn [existsb Re.item_mem Re.negated Re.items].
  now destruct (Py.is_space a), (Chr.eqb a "-").
Qed.

(** Removing the matches of [[^\w\s-]] keeps exactly the safe characters. *)
Lemma sub_unsafe_char (s : str) :
  Re.sub false VideoDownloader.unsafe_char EmptyString s
  = Spec.keep_chars Spec.safe_char s.
Proof.
  unfold Re.sub. induction s as [|a s IH]; [reflexivity |].
  cbn [Re.sub_from Spec.keep_chars]. unfold Re.match_, VideoDownloader.unsafe_char.
  cbn [Re.rests]. rewrite unsafe_char_mem.
  destruct (Spec.safe_char a); cbn [negb hd_error].
  - now rewrite <- IH.
  - replace (Str.length (String a s) - Str.length s)%nat with 1%nat
      by (cbn [Str.length]; lia).
    cbn [append]. exact IH.
Qed.

Lemma sub_from_skip ic r repl (w s : str) :
  Re.sub_from ic r repl (Str.length w) (w ++ s) = Re.sub_from ic r repl 0 s.
Proof. induction w as [|a w IH]; [reflexivity | exact IH]. Qed.

Lemma star_rests_longest cs (run s : str) :
  Spec.all_chars (Re.charset_mem cs) run = true ->
  Spec.starts_with (Re.charset_mem cs) s = false ->
  hd_error (Re.star_rests cs (run ++ s)) = Some s.
Proof.
  intros Hrun Hs. induction run as [|a run IH]; cbn [append].
  - destruct s as [|b s]; [reflexivity |]. cbn in Hs |- *. now rewrite Hs.
  - cbn in Hrun |- *. apply andb_true_iff in Hrun as [Ha Hrun]. rewrite Ha.
    specialize (IH Hrun). destruct (Re.star_rests cs (run ++ s)); [discriminate | exact IH].
Qed.

(** A text splits into its longest leading run of separators and the
    rest. *)
Lemma leading_run (p : char -> bool) (s : str) :
  exists run rest,
    s = run ++ rest /\ Spec.all_chars p run = true /\ Spec.starts_with p rest = false.
Proof.
  induction s as [|a s (run & rest & -> & Hrun & Hrest)].
  - now exists EmptyString, EmptyString.
  - destruct (p a) eqn:E.
    + exists (String a run), rest. cbn. now rewrite E.
    + exists EmptyString, (String a (run ++ rest)). now cbn.
Qed.

Lemma match_separators_run (a : char) (run rest : str) :
  Spec.separator a = true ->
  Spec.all_chars Spec.separator run = true ->
  Spec.starts_with Spec.separator rest = false ->
  Re.match_ false VideoDownloader.separators (String a (run ++ rest)) = Some rest.
Proof.
  intros Ha Hrun Hrest. unfold Re.match_, VideoDownloader.separators.
  cbn [Re.rests]. rewrite separator_mem, Ha. apply star_rests_longest.
  - now rewrite (all_chars_ext _ Spec.separator run separator_mem).
  - destruct rest as [|b rest]; [reflexivity |].
    cbn [Spec.starts_with] in Hrest |- *. now rewrite separator_mem.
Qed.

Lemma match_separators_none (a : char) (s : str) :
  Spec.separator a = false ->
  Re.match_ false VideoDownloader.separators (String a s) = None.
Proof.
  intros Ha. unfold Re.match_, VideoDownloader.separators.
  cbn [Re.rests]. now rewrite separator_mem, Ha.
Qed.

Lemma sub_separators_collapsed (s : str) :
  Spec.collapsed s (Re.sub false VideoDownloader.separators "_" s).
Proof.
  unfold Re.sub.
  assert (G : forall n s, (Str.length s <= n)%nat ->
            Spec.collapsed s (Re.sub_from false VideoDownloader.separators "_" 0 s)).
  { clear s. induction n as [|n IH]; intros s Hn.
    - destruct s; [| cbn in Hn; lia]. cbn. constructor.
    - destruct s as [|a s]; [cbn; constructor |].
      destruct (Spec.separator a) eqn:E.
      + destruct (leading_run Spec.separator s) as (run & rest & -> & Hrun & Hrest).
        cbn [Re.sub_from]. rewrite (match_separators_run a run rest E Hrun Hrest).
        replace (Str.length (String a (run ++ rest)) - Str.length rest)%nat
          with (S (Str.length run))
          by (cbn [Str.length]; rewrite str_length_app; lia).
        rewrite sub_from_skip. cbn [append].
        apply (Spec.collapsed_run (String a run) rest).
        * discriminate.
        * cbn. now rewrite E.
        * exact Hrest.
        * apply IH. cbn in Hn. rewrite str_length_app in Hn. lia.
      + cbn [Re.sub_from]. rewrite (match_separators_none a s E).
        constructor; [exact E |]. apply IH. cbn in Hn. lia. }
  now apply (G (Str.length s)).
Qed.

Lemma lstrip_spec (s : str) :
  exists l, s = l ++ Py.lstrip s /\ Spec.all_chars Py.is_space l = true /\
            Spec.starts_with Py.is_space (Py.lstrip s) = false.
Proof.
  induction s as [|a s (l & E & Hl & Hs)].
  - now exists EmptyString.
  - cbn [Py.lstrip]. destruct (Py.is_space a) eqn:Ea.
    + exists (String a l). cbn [append Spec.all_chars]. rewrite Ea, Hl, <- E.
      now repeat split.
    + exists EmptyString. cbn [append Spec.all_chars Spec.starts_with].
      now repeat split.
Qed.

Lemma rstrip_spec (s : str) :
  exists r, s = Py.rstrip s ++ r /\ Spec.all_chars Py.is_space r = true /\
            Spec.ends_with Py.is_space (Py.rstrip s) = false.
Proof.
  induction s as [|a s (r & E & Hr & Hs)].
  - now exists EmptyString.
  - cbn [Py.rstrip]. destruct (Py.rstrip s) as [|b t] eqn:Et.
    + destruct (Py.is_space a) eqn:Ea.
      * exists (String a r). cbn [append Spec.all_chars Spec.ends_with] in E |- *.
        rewrite Ea, Hr, <- E. now repeat split.
      * exists r. cbn [append Spec.all_chars Spec.ends_with] in E |- *.
        subst r. rewrite Ea. now repeat split.
    + exists r. cbn [append] in E |- *. rewrite <- E. now repeat split.
Qed.

Lemma rstrip_starts_with (p : char -> bool) (s : str) :
  Spec.starts_with p s = false -> Spec.starts_with p (Py.rstrip s) = false.
Proof.
  destruct s as [|a s]; [reflexivity |]. cbn [Py.rstrip Spec.starts_with]. intros H.
  destruct (Py.rstrip s); [destruct (Py.is_space a) |]; cbn [Spec.starts_with]; auto.
Qed.

Lemma strip_stripped (s : str) : Spec.stripped s (Py.strip s).
Proof.
  unfold Py.strip. destruct (lstrip_spec s) as (l & El & Hl & Hs).
  destruct (rstrip_spec (Py.lstrip s)) as (r & Er & Hr & He).
  exists l, r. split; [now rewrite <- Er |]. repeat split; auto.
  now apply rstrip_starts_with.
Qed.

Lemma take_length (n : nat) (s : str) : (Str.length (Py.take n s) <= n)%nat.
Proof.
  revert s. induction n as [|n IH]; intros [|a s]; cbn; try lia.
  specialize (IH s). lia.
Qed.

(** C6: the safe file name of a title is obtained by keeping only the word
    characters, spaces and hyphens, removing the leading and trailing
    spaces, replacing every maximal run of spaces and hyphens by one
    underscore and keeping at most the first 50 characters; the title
    [Amazing Video!! (2024)] gives [Amazing_Video_2024]. *)
Theorem safe_title_spec (title : str) :
  (exists t u,
     Spec.stripped (Spec.keep_chars Spec.safe_char title) t /\
     Spec.collapsed t u /\
     VideoDownloader.safe_title title = Py.take 50 u) /\
  (Str.length (VideoDownloader.safe_title title) <= 50)%nat /\
  VideoDownloader.safe_title "Amazing Video!! (2024)" = "Amazing_Video_2024".
Proof.
  split; [| split; [apply take_length | vm_compute; reflexivity]].
  unfold VideoDownloader.safe_title. rewrite sub_unsafe_char.
  exists (Py.strip (Spec.keep_chars Spec.safe_char title)).
  exists (Re.sub false VideoDownloader.separators "_"
            (Py.strip (Spec.keep_chars Spec.safe_char title))).
  split; [apply strip_stripped |]. split; [apply sub_separators_collapsed | reflexivity].
Qed.

End FileName.

(** ** The dictionary *)

Lemma dict_get_in k d e : VideoDownloader.dict_get k d = Some e -> In (k, e) d.
Proof.
  induction d as [|[k0 v] d IH]; simpl; [discriminate |].
  destruct (str_eqb_spec k0 k) as [-> | _].
  - intros [= ->]. now left.
  - intros H. right. now apply IH.
Qed.

Lemma dict_get_none k d : VideoDownloader.dict_get k d = None <-> ~ In k (map fst d).
Proof.
  induction d as [|[k0 v] d IH]; simpl.
  - split; auto.
  - destruct (str_eqb_spec k0 k) as [-> | N].
    + split; [discriminate | intros H; exfalso; apply H; now left].
    + rewrite IH. split.
      * intros H [E | H']; [now apply N | now apply H].
      * intros H H'. apply H. now right.
Qed.

Lemma dict_get_of_in k e d :
  NoDup (map fst d) -> In (k, e) d -> VideoDownloader.dict_get k d = Some e.
Proof.
  induction d as [|[k0 v] d IH]; simpl; [intros _ [] |].
  intros Hnd [E | H]; inversion Hnd as [|? ? Hk Hd]; subst.
  - injection E as -> ->. now rewrite str_eqb_refl.
  - destruct (str_eqb_spec k0 k) as [-> | _].
    + exfalso. apply Hk. apply (in_map fst) in H. exact H.
    + now apply IH.
Qed.

Lemma dict_set_absent k v d :
  VideoDownloader.dict_get k d = None ->
  VideoDownloader.dict_set k v d = (d ++ [(k, v)])%list.
Proof.
  induction d as [|[k0 w] d IH]; simpl; [reflexivity |].
  destruct (str_eqb_spec k0 k) as [-> | _]; [discriminate |].
  intros H. now rewrite IH.
Qed.

Lemma dict_set_keys k v d e :
  VideoDownloader.dict_get k d = Some e ->
  map fst (VideoDownloader.dict_set k v d) = map fst d.
Proof.
  induction d as [|[k0 w] d IH]; simpl; [discriminate |].
  destruct (str_eqb_spec k0 k) as [-> | _]; [reflexivity |].
  intros H. simpl. now rewrite IH.
Qed.

Lemma dict_set_in k v d k' e' :
  NoDup (map fst d) ->
  In (k', e') (VideoDownloader.dict_set k v d) <->
  (k' = k /\ e' = v) \/ (k' <> k /\ In (k', e') d).
Proof.
  induction d as [|[k0 w] d IH]; simpl; intros Hnd.
  - split.
    + intros [[= -> ->] | []]. now left.
    + intros [[-> ->] | [_ []]]. now left.
  - inversion Hnd as [|? ? Hk Hd]; subst.
    destruct (str_eqb_spec k0 k) as [-> | N]; simpl.
    + split.
      * intros [[= -> ->] | H]; [now left | right].
        split; [| now right]. intros ->. apply Hk.
        apply (in_map fst) in H. exact H.
      * intros [[-> ->] | [N [[= E1 E2] | H]]]; [now left | now subst | now right].
    + rewrite (IH Hd). split.
      * intros [[= -> ->] | [H | H]].
        -- right. split; [assumption | now left].
        -- now left.
        -- right. split; [tauto | right; tauto].
      * intros [H | [N' [[= -> ->] | H]]].
        -- right. now left.
        -- now left.
        -- right. right. now split.
Qed.

Lemma first_seen_in k l : In k (Spec.first_seen l) <-> In k l.
Proof.
  induction l as [|x l IH]; simpl; [tauto |].
  rewrite filter_In, IH. destruct (str_eqb_spec k x) as [-> | N]; simpl.
  - split; auto.
  - split.
    + intros [H | [H _]]; auto.
    + intros [H | H]; [now left | right; now split].
Qed.

Lemma first_seen_snoc k l :
  Spec.first_seen (l ++ [k]) =
  if in_dec str_dec k l then Spec.first_seen l else (Spec.first_seen l ++ [k])%list.
Proof.
  induction l as [|x l IH]; [reflexivity |].
  cbn [app Spec.first_seen]. rewrite IH.
  destruct (in_dec str_dec k l) as [Hin | Hout];
    destruct (in_dec str_dec k (x :: l)) as [Hin' | Hout'].
  - reflexivity.
  - exfalso. apply Hout'. now right.
  - destruct Hin' as [-> | Hin']; [| contradiction].
    rewrite filter_app. cbn [filter]. rewrite str_eqb_refl. cbn [negb].
    now rewrite app_nil_r.
  - rewrite filter_app. cbn [filter].
    destruct (str_eqb_spec k x) as [-> | N]; [exfalso; apply Hout'; now left |].
    reflexivity.
Qed.

Section Dedup.

Context {U : Py.Unicode} {F : Py.Floats}.

Lemma accepted_keys_snoc l c :
  Spec.accepted_keys (l ++ [c]) =
  (Spec.accepted_keys l ++ match Spec.key_of c with Some k => [k] | None => [] end)%list.
Proof.
  unfold Spec.accepted_keys. rewrite flat_map_app. cbn [flat_map].
  now rewrite app_nil_r.
Qed.

(** ** The deduplication loop *)

Lemma Qltb_true x y : VideoDownloader.Qltb x y = true <-> (x < y)%Q.
Proof.
  unfold VideoDownloader.Qltb. rewrite negb_true_iff. split.
  - intros H. apply Qnot_le_lt. intros L. apply Qle_bool_iff in L. congruence.
  - intros H. destruct (Qle_bool y x) eqn:E; [| reflexivity].
    apply Qle_bool_iff in E. exfalso. now apply (Qlt_not_le x y).
Qed.

Lemma Qltb_false x y : VideoDownloader.Qltb x y = false <-> (y <= x)%Q.
Proof.
  unfold VideoDownloader.Qltb. rewrite negb_false_iff. apply Qle_bool_iff.
Qed.

Lemma tbr_score_stored c s :
  VideoDownloader.stored_tbr_score
    (VideoDownloader.make_entry c VideoDownloader.Video EmptyString) = Some s ->
  (s == VideoDownloader.tbr_score c)%Q.
Proof.
  unfold VideoDownloader.stored_tbr_score, VideoDownloader.tbr_score. cbn.
  destruct (VideoDownloader.tbr c) as [t|]; [| discriminate]. intros [= <-].
  unfold Py.truthy_number, Py.truthy_Q.
  destruct (Qeq_bool (Py.value_of t) 0) eqn:E; cbn; [| reflexivity].
  apply Qeq_bool_iff in E. destruct t as [n | x]; cbn in *.
  - unfold Qeq in E. cbn in E. assert (n = 0) by lia. now subst.
  - now apply Py.float_times_1000_zero.
Qed.

Lemma stored_score_make_entry c t q s :
  VideoDownloader.stored_score (VideoDownloader.make_entry c t q) = Some s ->
  (s == VideoDownloader.current_score c)%Q.
Proof.
  unfold VideoDownloader.stored_score, VideoDownloader.current_score.
  cbn [VideoDownloader.make_entry VideoDownloader.p_filesize].
  assert (T : forall s, VideoDownloader.stored_tbr_score (VideoDownloader.make_entry c t q)
                        = Some s -> (s == VideoDownloader.tbr_score c)%Q).
  { intros s'. apply tbr_score_stored. }
  destruct (VideoDownloader.effective_filesize c) as [n|]; [| apply T].
  destruct (Py.truthy_int n); [| apply T]. intros [= <-]. reflexivity.
Qed.

Lemma keyed_stored_score c k e s :
  Spec.keyed c = Some (k, e) -> VideoDownloader.stored_score e = Some s ->
  (s == VideoDownloader.current_score c)%Q.
Proof.
  unfold Spec.keyed. destruct (VideoDownloader.classify c) as [[t q]|]; [| discriminate].
  intros [= <- <-]. apply stored_score_make_entry.
Qed.

Lemma keyed_key_of c k e : Spec.keyed c = Some (k, e) -> Spec.key_of c = Some k.
Proof. unfold Spec.key_of. now intros ->. Qed.

Lemma dedup_step_keyed d c :
  VideoDownloader.dedup_step d c =
  match Spec.keyed c with
  | None => Some d
  | Some (k, e) =>
      match VideoDownloader.dict_get k d with
      | None => Some (VideoDownloader.dict_set k e d)
      | Some e0 =>
          match VideoDownloader.stored_score e0 with
          | None => None
          | Some s =>
              if VideoDownloader.Qltb s (VideoDownloader.current_score c)
              then Some (VideoDownloader.dict_set k e d) else Some d
          end
      end
  end.
Proof.
  unfold VideoDownloader.dedup_step, Spec.keyed.
  destruct (VideoDownloader.classify c) as [[t q]|]; [| reflexivity].
  destruct (VideoDownloader.dict_get _ d) as [e0|]; [| reflexivity].
  now destruct (VideoDownloader.stored_score e0).
Qed.

Lemma origin_snoc l c k e :
  Spec.origin l k e ->
  (Spec.key_of c = Some k ->
   forall c0, Spec.keyed c0 = Some (k, e) ->
     (VideoDownloader.current_score c <= VideoDownloader.current_score c0)%Q) ->
  Spec.origin (l ++ [c]) k e.
Proof.
  intros (l1 & c0 & l2 & -> & Hk & Hb & Ha) Hc.
  exists l1, c0, (l2 ++ [c])%list. split; [now rewrite <- app_assoc |].
  split; [assumption |]. split; [assumption |].
  intros c' Hin Hk'. apply in_app_iff in Hin as [Hin | [<- | []]].
  - now apply Ha.
  - now apply Hc.
Qed.

Lemma origin_new l c k e :
  Spec.keyed c = Some (k, e) ->
  (forall c', In c' l -> Spec.key_of c' = Some k ->
     (VideoDownloader.current_score c' < VideoDownloader.current_score c)%Q) ->
  Spec.origin (l ++ [c]) k e.
Proof.
  intros Hk Hb. exists l, c, []. repeat split; try assumption. intros c' [].
Qed.

Lemma origin_bound l k e c' s :
  Spec.origin l k e -> In c' l -> Spec.key_of c' = Some k ->
  VideoDownloader.stored_score e = Some s ->
  (VideoDownloader.current_score c' <= s)%Q.
Proof.
  intros (l1 & c0 & l2 & -> & Hk & Hb & Ha) Hin Hk' Hs.
  rewrite (keyed_stored_score c0 k e s Hk Hs).
  apply in_app_iff in Hin as [Hin | [<- | Hin]].
  - apply Qlt_le_weak. now apply Hb.
  - apply Qle_refl.
  - now apply Ha.
Qed.

Lemma inv_empty : Spec.dedup_inv [] [].
Proof.
  constructor; simpl.
  - constructor.
  - intros k e [].
  - intros c k [].
  - reflexivity.
Qed.

Lemma inv_step l d c d' :
  Spec.dedup_inv l d -> VideoDownloader.dedup_step d c = Some d' ->
  Spec.dedup_inv (l ++ [c]) d'.
Proof.
  intros [Hnd Hor Hco Hod]. rewrite dedup_step_keyed.
  destruct (Spec.keyed c) as [[k e]|] eqn:Ek.
  - pose proof (keyed_key_of c k e Ek) as Ekey.
    destruct (VideoDownloader.dict_get k d) as [e0|] eqn:Eg.
    + (* the key is present *)
      destruct (VideoDownloader.stored_score e0) as [s|] eqn:Es; [| discriminate].
      pose proof (dict_get_in k d e0 Eg) as Hin0.
      assert (Hk_acc : In k (Spec.accepted_keys l)).
      { apply first_seen_in. rewrite <- Hod. apply (in_map fst) in Hin0. exact Hin0. }
      assert (Hod' : map fst d = Spec.first_seen (Spec.accepted_keys (l ++ [c]))).
      { rewrite accepted_keys_snoc, Ekey, first_seen_snoc.
        destruct (in_dec str_dec k (Spec.accepted_keys l)); [exact Hod | contradiction]. }
      destruct (VideoDownloader.Qltb s (VideoDownloader.current_score c)) eqn:Elt;
        intros [= <-].
      * (* the candidate replaces the stored entry *)
        apply Qltb_true in Elt.
        constructor.
        -- now rewrite (dict_set_keys k e d e0 Eg).
        -- intros k' e' Hin. apply (dict_set_in k e d k' e' Hnd) in Hin
             as [[-> ->] | [Hne Hin]].
           ++ apply origin_new; [exact Ek |]. intros c' Hc' Hk'.
              apply Qle_lt_trans with s; [| exact Elt].
              now apply (origin_bound l k e0 c' s (Hor k e0 Hin0)).
           ++ apply origin_snoc; [now apply Hor |]. intros Hk'. congruence.
        -- intros c' k' Hc' Hk'. rewrite (dict_set_keys k e d e0 Eg).
           apply in_app_iff in Hc' as [Hc' | [<- | []]].
           ++ now apply (Hco c').
           ++ assert (k' = k) by congruence. subst. apply (in_map fst) in Hin0. exact Hin0.
        -- now rewrite (dict_set_keys k e d e0 Eg).
      * (* the stored entry stays *)
        apply Qltb_false in Elt.
        constructor.
        -- exact Hnd.
        -- intros k' e' Hin. apply origin_snoc; [now apply Hor |].
           intros Hk' c0 Hc0. assert (k' = k) by congruence. subst k'.
           assert (e' = e0).
           { pose proof (dict_get_of_in k e' d Hnd Hin). congruence. }
           subst e'. now rewrite <- (keyed_stored_score c0 k e0 s Hc0 Es).
        -- intros c' k' Hc' Hk'.
           apply in_app_iff in Hc' as [Hc' | [<- | []]].
           ++ now apply (Hco c').
           ++ assert (k' = k) by congruence. subst. apply (in_map fst) in Hin0. exact Hin0.
        -- exact Hod'.
    + (* a new key *)
      intros [= <-].
      rewrite (dict_set_absent k e d Eg).
      pose proof (proj1 (dict_get_none k d) Eg) as Hout.
      assert (Hk_acc : ~ In k (Spec.accepted_keys l)).
      { intros H. apply Hout. rewrite Hod. now apply first_seen_in. }
      constructor.
      * rewrite map_app. cbn [map fst]. apply NoDup_app; [exact Hnd | | ].
        -- constructor; [intros [] | constructor].
        -- intros x Hx [<- | []]. contradiction.
      * intros k' e' Hin. apply in_app_iff in Hin as [Hin | [[= <- <-] | []]].
        -- apply origin_snoc; [now apply Hor |]. intros Hk' c0 Hc0.
           exfalso. apply Hout. assert (k' = k) by congruence. subst.
           apply (in_map fst) in Hin. exact Hin.
        -- apply origin_new; [exact Ek |]. intros c' Hc' Hk'.
           exfalso. apply Hout. now apply (Hco c').
      * intros c' k' Hc' Hk'. rewrite map_app, in_app_iff.
        apply in_app_iff in Hc' as [Hc' | [<- | []]].
        -- left. now apply (Hco c').
        -- right. left. cbn. congruence.
      * rewrite map_app, accepted_keys_snoc, Ekey, first_seen_snoc. cbn [map fst].
        destruct (in_dec str_dec k (Spec.accepted_keys l)); [contradiction |].
        now rewrite Hod.
  - (* the candidate is discarded *)
    intros [= <-].
    assert (Ekey : Spec.key_of c = None) by (unfold Spec.key_of; now rewrite Ek).
    constructor.
    + exact Hnd.
    + intros k' e' Hin. apply origin_snoc; [now apply Hor |]. intros Hk'. congruence.
    + intros c' k' Hc' Hk'. apply in_app_iff in Hc' as [Hc' | [<- | []]].
      * now apply (Hco c').
      * congruence.
    + rewrite accepted_keys_snoc, Ekey, app_nil_r. exact Hod.
Qed.

Lemma dedup_snoc l c :
  VideoDownloader.dedup (l ++ [c])
  = VideoDownloader.dedup_loop (VideoDownloader.dedup l) c.
Proof. unfold VideoDownloader.dedup. now rewrite fold_left_app. Qed.

Lemma dedup_invariant l d : VideoDownloader.dedup l = Some d -> Spec.dedup_inv l d.
Proof.
  revert d. induction l as [|c l IH] using rev_ind; intros d.
  - intros [= <-]. apply inv_empty.
  - rewrite dedup_snoc. destruct (VideoDownloader.dedup l) as [d0|]; [| discriminate].
    cbn [VideoDownloader.dedup_loop]. intros H. now apply (inv_step l d0 c d (IH d0 eq_refl)).
Qed.

End Dedup.

(** ** The stable sort by decreasing key *)

Lemma key_ltb_asym a b :
  VideoDownloader.key_ltb a b = true -> VideoDownloader.key_ltb b a = false.
Proof.
  destruct a as [[|] x], b as [[|] y]; cbn; try discriminate; try reflexivity;
    intros H; apply Z.ltb_lt in H; apply Z.ltb_ge; lia.
Qed.

Lemma key_geb_trans a b c :
  VideoDownloader.key_ltb a b = false -> VideoDownloader.key_ltb b c = false ->
  VideoDownloader.key_ltb a c = false.
Proof.
  destruct a as [[|] x], b as [[|] y], c as [[|] z]; cbn;
    try discriminate; try reflexivity;
    intros H1 H2; apply Z.ltb_ge in H1, H2; apply Z.ltb_ge; lia.
Qed.

Lemma key_ltb_neq a b :
  VideoDownloader.key_ltb a b = true -> Spec.key_eqb a b = false.
Proof.
  destruct a as [[|] x], b as [[|] y]; cbn; try discriminate; try reflexivity;
    intros H; apply Z.ltb_lt in H; apply Z.eqb_neq; lia.
Qed.

Lemma key_eqb_eq a b : Spec.key_eqb a b = true <-> a = b.
Proof.
  destruct a as [u x], b as [v y]. unfold Spec.key_eqb. cbn [fst snd].
  rewrite andb_true_iff, Bool.eqb_true_iff, Z.eqb_eq. split.
  - now intros [-> ->].
  - now intros [= -> ->].
Qed.

Section Sorting.

Context {A : Type}.

Lemma insert_desc_perm (x : (bool * Z) * A) (l : list ((bool * Z) * A)) : Permutation (VideoDownloader.insert_desc x l) (x :: l).
Proof.
  induction l as [|y l IH]; cbn; [reflexivity |].
  destruct (VideoDownloader.key_ltb (fst x) (fst y)); [| reflexivity].
  rewrite IH. apply perm_swap.
Qed.

Lemma sort_desc_perm (l : list ((bool * Z) * A)) : Permutation (VideoDownloader.sort_desc l) l.
Proof.
  induction l as [|x l IH]; cbn; [reflexivity |].
  rewrite insert_desc_perm. now constructor.
Qed.

Lemma insert_desc_sorted (x : (bool * Z) * A) (l : list ((bool * Z) * A)) :
  StronglySorted Spec.geq l -> StronglySorted Spec.geq (VideoDownloader.insert_desc x l).
Proof.
  induction 1 as [|y l Hs IH Hy]; cbn.
  - repeat constructor.
  - destruct (VideoDownloader.key_ltb (fst x) (fst y)) eqn:E.
    + constructor; [exact IH |].
      apply (Permutation_Forall (Permutation_sym (insert_desc_perm x l))).
      constructor; [now apply key_ltb_asym | exact Hy].
    + constructor; [now constructor |]. constructor; [exact E |].
      eapply Forall_impl; [| exact Hy]. intros z Hz. unfold Spec.geq in *.
      now apply key_geb_trans with (fst y).
Qed.

Lemma sort_desc_sorted (l : list ((bool * Z) * A)) : StronglySorted Spec.geq (VideoDownloader.sort_desc l).
Proof.
  induction l as [|x l IH]; cbn; [constructor | now apply insert_desc_sorted].
Qed.

Lemma insert_desc_filter k (x : (bool * Z) * A) (l : list ((bool * Z) * A)) :
  filter (fun p => Spec.key_eqb (fst p) k) (VideoDownloader.insert_desc x l)
  = filter (fun p => Spec.key_eqb (fst p) k) (x :: l).
Proof.
  induction l as [|y l IH]; [reflexivity |].
  cbn [VideoDownloader.insert_desc].
  destruct (VideoDownloader.key_ltb (fst x) (fst y)) eqn:E; [| reflexivity].
  cbn [filter] in IH |- *. rewrite IH.
  destruct (Spec.key_eqb (fst x) k) eqn:Ex; [| reflexivity].
  destruct (Spec.key_eqb (fst y) k) eqn:Ey; [| reflexivity].
  apply key_eqb_eq in Ex, Ey. apply key_ltb_neq in E.
  rewrite Ex, Ey in E. assert (Spec.key_eqb k k = true) by now apply key_eqb_eq.
  congruence.
Qed.

Lemma sort_desc_filter k (l : list ((bool * Z) * A)) :
  filter (fun p => Spec.key_eqb (fst p) k) (VideoDownloader.sort_desc l)
  = filter (fun p => Spec.key_eqb (fst p) k) l.
Proof.
  induction l as [|x l IH]; [reflexivity |].
  cbn [VideoDownloader.sort_desc fold_right].
  fold (VideoDownloader.sort_desc l). rewrite insert_desc_filter.
  cbn [filter]. now rewrite IH.
Qed.

Variable f : A -> bool * Z.

Lemma keyed_by_map (xs : list A) : Spec.keyed_by f (map (fun x => (f x, x)) xs).
Proof. apply Forall_forall. intros p Hp. apply in_map_iff in Hp as (x & <- & _). reflexivity. Qed.

Lemma keyed_by_filter k (l : list ((bool * Z) * A)) :
  Spec.keyed_by f l ->
  filter (fun a => Spec.key_eqb (f a) k) (map snd l)
  = map snd (filter (fun p => Spec.key_eqb (fst p) k) l).
Proof.
  induction 1 as [|p l Hp Hl IH]; [reflexivity |].
  cbn [map filter]. rewrite <- Hp, IH. now destruct (Spec.key_eqb (fst p) k).
Qed.

Lemma keyed_by_sorted (l : list ((bool * Z) * A)) :
  Spec.keyed_by f l -> StronglySorted Spec.geq l ->
  StronglySorted (fun a b => VideoDownloader.key_ltb (f a) (f b) = false) (map snd l).
Proof.
  intros Hk Hs. induction Hs as [|p l Hs IH Hp]; cbn; [constructor |].
  inversion Hk as [|? ? Hp' Hl']; subst. constructor; [now apply IH |].
  apply Forall_map. apply Forall_forall. intros q Hq.
  rewrite Forall_forall in Hp, Hl'. specialize (Hp q Hq). unfold Spec.geq in Hp.
  now rewrite <- Hp', <- (Hl' q Hq).
Qed.

Lemma decorate_total (key : A -> option (bool * Z)) (xs : list A) :
  (forall x, In x xs -> key x = Some (f x)) ->
  VideoDownloader.decorate key xs = Some (map (fun x => (f x, x)) xs).
Proof.
  induction xs as [|x xs IH]; intros H; [reflexivity |].
  cbn [VideoDownloader.decorate map]. rewrite (H x) by now left.
  rewrite IH; [reflexivity |]. intros y Hy. apply H. now right.
Qed.

(** What [sort(key=..., reverse=True)] returns when every key is defined:
    a permutation, by decreasing key, in which the elements of equal key
    keep their order. *)
Lemma sort_by_key_reverse_spec (key : A -> option (bool * Z)) (xs : list A) :
  (forall x, In x xs -> key x = Some (f x)) ->
  exists ys,
    VideoDownloader.sort_by_key_reverse key xs = Some ys /\
    Permutation ys xs /\
    StronglySorted (fun a b => VideoDownloader.key_ltb (f a) (f b) = false) ys /\
    (forall k, filter (fun a => Spec.key_eqb (f a) k) ys
               = filter (fun a => Spec.key_eqb (f a) k) xs).
Proof.
  intros H. unfold VideoDownloader.sort_by_key_reverse.
  rewrite (decorate_total key xs H). cbn [option_map].
  set (kl := map (fun x => (f x, x)) xs).
  assert (Hkl : Spec.keyed_by f kl) by apply keyed_by_map.
  assert (Hsl : Spec.keyed_by f (VideoDownloader.sort_desc kl)).
  { exact (Permutation_Forall (Permutation_sym (sort_desc_perm kl)) Hkl). }
  assert (Hxs : map snd kl = xs).
  { unfold kl. rewrite map_map. cbn. apply map_id. }
  exists (map snd (VideoDownloader.sort_desc kl)). split; [reflexivity |].
  split; [| split].
  - transitivity (map snd kl); [apply Permutation_map, sort_desc_perm | now rewrite Hxs].
  - apply keyed_by_sorted; [exact Hsl | apply sort_desc_sorted].
  - intros k. rewrite (keyed_by_filter k _ Hsl), sort_desc_filter.
    rewrite <- (keyed_by_filter k _ Hkl). now rewrite Hxs.
Qed.

End Sorting.

(** ** Decimal numerals *)

Lemma all_chars_impl (p q : char -> bool) (s : str) :
  (forall a, p a = true -> q a = true) ->
  Spec.all_chars p s = true -> Spec.all_chars q s = true.
Proof.
  intros I. induction s as [|a s IH]; cbn [Spec.all_chars]; [reflexivity |].
  rewrite !andb_true_iff. intros [H1 H2]. split; [now apply I | now apply IH].
Qed.

Lemma str_to_of_string (t : Strings.String.string) :
  Str.to_string (Str.of_string t) = Some t.
Proof.
  induction t as [|a t IH]; [reflexivity |].
  cbn [Str.of_string Str.to_string]. rewrite IH.
  pose proof (Ascii.N_ascii_bounded a) as B. apply N.ltb_lt in B. rewrite B.
  cbn [option_map]. now rewrite Ascii.ascii_N_embedding.
Qed.

Lemma string_of_uint_digits (u : Decimal.uint) :
  Spec.all_chars Py.is_digit (Str.of_string (NilEmpty.string_of_uint u)) = true.
Proof.
  induction u; cbn [NilEmpty.string_of_uint Str.of_string Spec.all_chars];
    try rewrite IHu; reflexivity.
Qed.

Lemma nilzero_string_of_uint_digits (u : Decimal.uint) :
  Spec.all_chars Py.is_digit (Str.of_string (NilZero.string_of_uint u)) = true.
Proof. destruct u; try reflexivity; apply string_of_uint_digits. Qed.

Lemma str_of_int_numeral (n : Z) :
  Spec.all_chars Spec.numeral_char (Py.str_of_int n) = true.
Proof.
  unfold Py.str_of_int, NilZero.string_of_int.
  assert (I : forall a, Py.is_digit a = true -> Spec.numeral_char a = true).
  { intros a H. unfold Spec.numeral_char. now rewrite H. }
  destruct (Z.to_int n) as [u | u].
  - apply (all_chars_impl _ _ _ I), nilzero_string_of_uint_digits.
  - cbn [Str.of_string Spec.all_chars].
    now rewrite (all_chars_impl _ _ _ I (nilzero_string_of_uint_digits u)).
Qed.

Lemma int_of_str_of_int (n : Z) : Py.int_of_str (Py.str_of_int n) = Some n.
Proof.
  unfold Py.int_of_str, Py.str_of_int. rewrite str_to_of_string, NilZero.isi.
  - cbn [option_map]. now rewrite DecimalZ.of_to.
  - destruct n; cbn; try discriminate. intros [= E].
    now apply DecimalPos.Unsigned.to_uint_nonnil in E.
  - destruct n; cbn; try discriminate. intros [= E].
    now apply DecimalPos.Unsigned.to_uint_nonnil in E.
Qed.

Lemma numeral_split (a b : str) (c1 c2 : char) (r1 r2 : str) :
  Spec.all_chars Spec.numeral_char a = true ->
  Spec.all_chars Spec.numeral_char b = true ->
  Spec.numeral_char c1 = false -> Spec.numeral_char c2 = false ->
  a ++ String c1 r1 = b ++ String c2 r2 -> a = b /\ c1 = c2 /\ r1 = r2.
Proof.
  revert b. induction a as [|x a IH]; intros [|y b] Ha Hb H1 H2 E;
    cbn [append Spec.all_chars] in *.
  - now injection E as -> ->.
  - injection E as -> _. apply andb_true_iff in Hb as [Hy _]. congruence.
  - injection E as -> _. apply andb_true_iff in Ha as [Hx _]. congruence.
  - injection E as -> E. apply andb_true_iff in Ha as [_ Ha], Hb as [_ Hb].
    destruct (IH b Ha Hb H1 H2 E) as (-> & -> & ->). now repeat split.
Qed.

Lemma prefix_app (s t : str) : Str.prefix s (s ++ t) = true.
Proof.
  induction s as [|a s IH]; cbn; [now destruct t |].
  now rewrite chr_eqb_refl.
Qed.

Lemma contains_at (sub a t : str) : Py.contains sub (a ++ sub ++ t) = true.
Proof.
  induction a as [|x a IH]; cbn [append].
  - destruct (sub ++ t) eqn:E; cbn [Py.contains]; rewrite <- E, prefix_app; reflexivity.
  - cbn [Py.contains]. rewrite IH. apply orb_true_r.
Qed.

Lemma split_head_app (c : char) (a t : str) :
  Spec.all_chars (fun x => negb (Chr.eqb x c)) a = true ->
  Py.split_head c (a ++ String c t) = a.
Proof.
  induction a as [|x a IH]; cbn [append Py.split_head Spec.all_chars].
  - now rewrite chr_eqb_refl.
  - intros H. apply andb_true_iff in H as [Hx Ha]. apply negb_true_iff in Hx.
    now rewrite Hx, IH.
Qed.

Lemma numeral_no_char (c : char) (a : str) :
  Spec.numeral_char c = false ->
  Spec.all_chars Spec.numeral_char a = true ->
  Spec.all_chars (fun x => negb (Chr.eqb x c)) a = true.
Proof.
  intros Hc. apply all_chars_impl. intros x Hx.
  destruct (chr_eqb_spec x c) as [-> | _]; [congruence | reflexivity].
Qed.

(** ** The classification *)

Section Classification.

Context {U : Py.Unicode}.

Lemma classify_cases c t q :
  VideoDownloader.classify c = Some (t, q) ->
  VideoDownloader.format_id c <> EmptyString /\
  ((t = VideoDownloader.Video /\
    exists h, VideoDownloader.height c = Some h /\ 144 <= h /\
    exists tail, (tail = " (with audio)" \/ tail = EmptyString) /\
                 q = Py.str_of_int h ++ "p" ++ tail) \/
   (t = VideoDownloader.Audio /\
    ((exists n, q = "Audio " ++ Py.str_of_int n ++ "kbps") \/
     q = "Audio (" ++ Py.upper (VideoDownloader.ext c) ++ ")"))).
Proof.
  unfold VideoDownloader.classify, VideoDownloader.height_ok,
    VideoDownloader.audio_quality.
  destruct (negb (Py.truthy_str (VideoDownloader.format_id c))
            || Py.startswith (VideoDownloader.format_id c) "sb") eqn:E1; [discriminate |].
  apply orb_false_iff in E1 as [E1 _]. apply negb_false_iff in E1.
  unfold Py.truthy_str in E1. apply negb_true_iff in E1.
  apply str_eqb_neq in E1.
  assert (A : VideoDownloader.Audio = t ->
              match VideoDownloader.abr c with
              | Some a =>
                  if Py.truthy_number a
                  then "Audio " ++ Py.str_of_int (Py.int_of_number a) ++ "kbps"
                  else "Audio (" ++ Py.upper (VideoDownloader.ext c) ++ ")"
              | None => "Audio (" ++ Py.upper (VideoDownloader.ext c) ++ ")"
              end = q ->
              VideoDownloader.format_id c <> EmptyString /\
              ((t = VideoDownloader.Video /\
                exists h, VideoDownloader.height c = Some h /\ 144 <= h /\
                exists tail, (tail = " (with audio)" \/ tail = EmptyString) /\
                             q = Py.str_of_int h ++ "p" ++ tail) \/
               (t = VideoDownloader.Audio /\
                ((exists n, q = "Audio " ++ Py.str_of_int n ++ "kbps") \/
                 q = "Audio (" ++ Py.upper (VideoDownloader.ext c) ++ ")")))).
  { intros <- <-. split; [exact E1 |]. right. split; [reflexivity |].
    destruct (VideoDownloader.abr c) as [a|]; [| now right].
    destruct (Py.truthy_number a); [left; now eexists | now right]. }
  destruct (VideoDownloader.height c) as [h|];
    [ destruct (Py.truthy_int h) eqn:Et; destruct (h >=? 144) eqn:Eh | ];
    destruct (VideoDownloader.vcodec c =? "none")%str eqn:Ev;
    destruct (VideoDownloader.acodec c =? "none")%str eqn:Ea;
    cbn [negb andb Py.str_of_opt_int]; try discriminate;
    intros [= Ht Hq]; try (now apply A);
    subst t q; (split; [exact E1 |]); left; (split; [reflexivity |]);
    exists h; (split; [reflexivity |]); (split; [now apply Z.geb_le |]);
    first [ exists " (with audio)"; split; [now left | reflexivity]
          | exists EmptyString; split; [now right | reflexivity] ].
Qed.

End Classification.

(** ** The key str determines the deduplication key *)

Lemma str_app_inv_head (a b c : str) : a ++ b = a ++ c -> b = c.
Proof. induction a as [|x a IH]; cbn [append]; [auto |]. intros [= E]. now apply IH. Qed.

Lemma dedup_key_inv t1 q1 e1 t2 q2 e2 :
  VideoDownloader.dedup_key t1 q1 e1 = VideoDownloader.dedup_key t2 q2 e2 ->
  t1 = t2 /\ q1 ++ String "_" e1 = q2 ++ String "_" e2.
Proof.
  unfold VideoDownloader.dedup_key.
  destruct t1, t2; cbn [VideoDownloader.type_name]; intros E.
  - split; [reflexivity |]. now apply (str_app_inv_head "video_") in E.
  - discriminate E.
  - discriminate E.
  - split; [reflexivity |]. now apply (str_app_inv_head "audio_") in E.
Qed.

(** Of two texts with a common end, the shorter end is the end of the
    longer. *)
Lemma str_app_suffix (a b c d : str) :
  a ++ b = c ++ d -> (Str.length b <= Str.length d)%nat ->
  exists x, d = x ++ b /\ a = c ++ x.
Proof.
  revert a. induction c as [|y c IH]; intros a E L; cbn [append] in E.
  - exists a. now split.
  - destruct a as [|z a]; cbn [append] in E.
    + subst b. cbn [Str.length] in L. rewrite str_length_app in L. lia.
    + injection E as -> E. destruct (IH a E L) as (x & -> & ->). now exists x.
Qed.

Section Keys.

Context {U : Py.Unicode}.

Lemma upper_app (a b : str) : Py.upper (a ++ b) = Py.upper a ++ Py.upper b.
Proof.
  induction a as [|x a IH]; cbn [append Py.upper]; [reflexivity |].
  now rewrite IH, str_app_assoc.
Qed.

Lemma audio_ext_suffix (e x : str) :
  Py.upper e ++ String ")" (String "_" EmptyString)
  = (Py.upper (x ++ e) ++ String ")" (String "_" EmptyString)) ++ x ->
  x = EmptyString.
Proof.
  intros E. apply (f_equal Str.length) in E.
  rewrite upper_app, !str_length_app in E. cbn [Str.length] in E.
  apply str_length_zero. lia.
Qed.

Lemma video_label_inj h1 tail1 e1 h2 tail2 e2 :
  (tail1 = " (with audio)" \/ tail1 = EmptyString) ->
  (tail2 = " (with audio)" \/ tail2 = EmptyString) ->
  (Py.str_of_int h1 ++ "p" ++ tail1) ++ String "_" e1
  = (Py.str_of_int h2 ++ "p" ++ tail2) ++ String "_" e2 ->
  Py.str_of_int h1 ++ "p" ++ tail1 = Py.str_of_int h2 ++ "p" ++ tail2 /\ e1 = e2.
Proof.
  intros H1 H2 E. rewrite !str_app_assoc in E. cbn [append] in E.
  apply numeral_split in E as (-> & _ & E);
    try apply str_of_int_numeral; try reflexivity.
  destruct H1 as [-> | ->], H2 as [-> | ->]; cbn [append] in E;
    try discriminate E; injection E as ->; now split.
Qed.

Lemma audio_rate_inj n1 e1 n2 e2 :
  ("Audio " ++ Py.str_of_int n1 ++ "kbps") ++ String "_" e1
  = ("Audio " ++ Py.str_of_int n2 ++ "kbps") ++ String "_" e2 ->
  Py.str_of_int n1 = Py.str_of_int n2 /\ e1 = e2.
Proof.
  intros E. rewrite !str_app_assoc in E. apply str_app_inv_head in E.
  cbn [append] in E.
  apply numeral_split in E as (-> & _ & E);
    try apply str_of_int_numeral; try reflexivity.
  injection E as ->. now split.
Qed.

Lemma audio_rate_ext_distinct n e1 u e2 :
  ("Audio " ++ Py.str_of_int n ++ "kbps") ++ String "_" e1
  <> ("Audio (" ++ u ++ ")") ++ String "_" e2.
Proof.
  intros E. rewrite !str_app_assoc in E.
  change ("Audio (" ++ u ++ ")" ++ String "_" e2)
    with ("Audio " ++ String "(" (u ++ ")" ++ String "_" e2)) in E.
  apply str_app_inv_head in E.
  pose proof (str_of_int_numeral n) as Hn.
  destruct (Py.str_of_int n) as [|x s]; cbn [append Spec.all_chars] in E, Hn.
  - discriminate E.
  - injection E as -> _. discriminate Hn.
Qed.

Lemma audio_ext_inj e1 e2 :
  ("Audio (" ++ Py.upper e1 ++ ")") ++ String "_" e1
  = ("Audio (" ++ Py.upper e2 ++ ")") ++ String "_" e2 ->
  e1 = e2.
Proof.
  intros E. rewrite !str_app_assoc in E. apply str_app_inv_head in E.
  cbn [append] in E.
  change (Py.upper e1 ++ String ")" (String "_" e1))
    with (Py.upper e1 ++ String ")" (String "_" EmptyString) ++ e1) in E.
  change (Py.upper e2 ++ String ")" (String "_" e2))
    with (Py.upper e2 ++ String ")" (String "_" EmptyString) ++ e2) in E.
  rewrite <- !str_app_assoc in E.
  destruct (Nat.le_ge_cases (Str.length e1) (Str.length e2)) as [L | L].
  - destruct (str_app_suffix _ _ _ _ E L) as (x & -> & E').
    apply audio_ext_suffix in E'. now subst x.
  - symmetry in E. destruct (str_app_suffix _ _ _ _ E L) as (x & -> & E').
    apply audio_ext_suffix in E'. now subst x.
Qed.

Lemma key_of_group c1 c2 k :
  Spec.key_of c1 = Some k -> Spec.key_of c2 = Some k -> Spec.group c1 = Spec.group c2.
Proof.
  unfold Spec.key_of, Spec.keyed, Spec.group.
  destruct (VideoDownloader.classify c1) as [[t1 q1]|] eqn:C1; [| discriminate].
  destruct (VideoDownloader.classify c2) as [[t2 q2]|] eqn:C2; [| discriminate].
  cbn [option_map fst]. intros [= <-] [= E].
  apply dedup_key_inv in E as [-> E].
  destruct (classify_cases _ _ _ C1)
    as [_ [(-> & h1 & _ & _ & tail1 & Ht1 & ->) | (-> & Hq1)]];
    destruct (classify_cases _ _ _ C2)
      as [_ [(T & h2 & _ & _ & tail2 & Ht2 & ->) | (T & Hq2)]];
    try discriminate T.
  - apply video_label_inj in E as [-> ->]; auto.
  - destruct Hq1 as [(n1 & ->) | ->], Hq2 as [(n2 & ->) | ->].
    + apply audio_rate_inj in E as [-> ->]. reflexivity.
    + symmetry in E. now apply audio_rate_ext_distinct in E.
    + now apply audio_rate_ext_distinct in E.
    + apply audio_ext_inj in E. now rewrite E.
Qed.

Lemma group_key_of c1 c2 :
  Spec.group c1 = Spec.group c2 -> Spec.key_of c1 = Spec.key_of c2.
Proof.
  unfold Spec.key_of, Spec.keyed, Spec.group.
  destruct (VideoDownloader.classify c1) as [[t1 q1]|];
    destruct (VideoDownloader.classify c2) as [[t2 q2]|]; try discriminate; [| reflexivity].
  now intros [= -> -> ->].
Qed.

Lemma keyed_entry_group c k e :
  Spec.keyed c = Some (k, e) ->
  Spec.group c = Some (Spec.entry_group e) /\ k = Spec.entry_key e /\
  VideoDownloader.p_format_id e = VideoDownloader.format_id c /\
  exists t q, VideoDownloader.classify c = Some (t, q) /\
              e = VideoDownloader.make_entry c t q.
Proof.
  unfold Spec.keyed, Spec.group.
  destruct (VideoDownloader.classify c) as [[t q]|]; [| discriminate].
  intros [= <- <-]. repeat split. now exists t, q.
Qed.

(** The label of a video entry parses back to its height. *)
Lemma format_priority_video c k e :
  Spec.keyed c = Some (k, e) -> VideoDownloader.is_video e = true ->
  exists h, VideoDownloader.p_height e = Some h /\
            VideoDownloader.format_priority e = Some (Spec.with_audio e, h).
Proof.
  unfold Spec.keyed.
  destruct (VideoDownloader.classify c) as [[t q]|] eqn:C; [| discriminate].
  intros [= <- <-] Hv.
  destruct (classify_cases _ _ _ C)
    as [_ [(-> & h & Hh & _ & tail & _ & ->) | (-> & _)]]; [| discriminate Hv].
  exists h. split; [exact Hh |].
  unfold VideoDownloader.format_priority, Spec.with_audio.
  cbn [VideoDownloader.make_entry VideoDownloader.p_quality].
  rewrite (contains_at "p" (Py.str_of_int h) tail).
  change (Py.str_of_int h ++ "p" ++ tail) with (Py.str_of_int h ++ String "p" tail).
  rewrite split_head_app, int_of_str_of_int; [reflexivity |].
  apply numeral_no_char; [reflexivity | apply str_of_int_numeral].
Qed.

Lemma format_priority_video_priority c k e :
  Spec.keyed c = Some (k, e) -> VideoDownloader.is_video e = true ->
  VideoDownloader.format_priority e = Some (Spec.priority e).
Proof.
  intros Hk Hv. destruct (format_priority_video c k e Hk Hv) as (h & Hh & ->).
  unfold Spec.priority, Spec.height_of. now rewrite Hh.
Qed.

End Keys.

(** ** [get_video_info]: the processed format list *)

Lemma in_dict_values d e :
  In e (VideoDownloader.dict_values d) <-> exists k, In (k, e) d.
Proof.
  unfold VideoDownloader.dict_values. rewrite in_map_iff. split.
  - intros ([k e'] & <- & H). now exists k.
  - intros (k & H). now exists (k, e).
Qed.

Lemma filter_partition_perm {A : Type} (p : A -> bool) (l : list A) :
  Permutation (filter p l ++ filter (fun x => negb (p x)) l) l.
Proof.
  induction l as [|x l IH]; cbn [filter]; [constructor |].
  destruct (p x); cbn [negb app].
  - now constructor.
  - symmetry. apply Permutation_cons_app. now symmetry.
Qed.

Lemma sorted_pairs {A : Type} (R R' : A -> A -> Prop) (l : list A) :
  (forall a b, R a b -> R' a b) -> StronglySorted R l -> ForallOrdPairs R' l.
Proof.
  intros I. induction 1 as [|a l Hs IH Ha]; constructor; [| exact IH].
  eapply Forall_impl; [| exact Ha]. apply I.
Qed.

Section ProcessedFormats.

Context {U : Py.Unicode} {F : Py.Floats}.

Lemma dedup_origin formats d e :
  VideoDownloader.dedup formats = Some d ->
  In e (VideoDownloader.dict_values d) ->
  exists k, In (k, e) d /\ Spec.origin formats k e.
Proof.
  intros Hd H. apply in_dict_values in H as (k & H). exists k. split; [exact H |].
  now apply (Spec.inv_origin _ _ (dedup_invariant formats d Hd)).
Qed.

Lemma dedup_values_priority formats d e :
  VideoDownloader.dedup formats = Some d ->
  In e (filter VideoDownloader.is_video (VideoDownloader.dict_values d)) ->
  VideoDownloader.format_priority e = Some (Spec.priority e).
Proof.
  intros Hd H. apply filter_In in H as [H Hv].
  apply (dedup_origin formats d e Hd) in H as (k & _ & (l1 & c & l2 & _ & Hk & _)).
  now apply (format_priority_video_priority c k e).
Qed.

(** The result of the sort stage on the dictionary of the loop: its video
    entries under the stable sort, then its audio entries in dictionary
    order. *)
Lemma sort_formats_spec formats d :
  VideoDownloader.dedup formats = Some d ->
  exists vid,
    VideoDownloader.sort_formats d =
      Some (vid ++ filter (fun e => negb (VideoDownloader.is_video e))
                     (VideoDownloader.dict_values d))%list /\
    Permutation vid (filter VideoDownloader.is_video (VideoDownloader.dict_values d)) /\
    StronglySorted
      (fun a b => VideoDownloader.key_ltb (Spec.priority a) (Spec.priority b) = false) vid /\
    (forall k,
       filter (fun e => Spec.key_eqb (Spec.priority e) k) vid
       = filter (fun e => Spec.key_eqb (Spec.priority e) k)
           (filter VideoDownloader.is_video (VideoDownloader.dict_values d))).
Proof.
  intros Hd.
  destruct (sort_by_key_reverse_spec Spec.priority VideoDownloader.format_priority
              (filter VideoDownloader.is_video (VideoDownloader.dict_values d))
              (fun e => dedup_values_priority formats d e Hd))
    as (vid & Hs & Hp & Hsorted & Hstable).
  exists vid. unfold VideoDownloader.sort_formats. rewrite Hs. auto.
Qed.

Lemma get_video_info_formats_some formats out :
  VideoDownloader.get_video_info_formats formats = Some out ->
  exists d, VideoDownloader.dedup formats = Some d /\
            VideoDownloader.sort_formats d = Some out.
Proof.
  unfold VideoDownloader.get_video_info_formats.
  destruct (VideoDownloader.dedup formats) as [d|]; [| discriminate].
  intros H. now exists d.
Qed.

Lemma sort_formats_in formats d out e :
  VideoDownloader.dedup formats = Some d ->
  VideoDownloader.sort_formats d = Some out ->
  (In e out <-> In e (VideoDownloader.dict_values d)).
Proof.
  intros Hd. destruct (sort_formats_spec formats d Hd) as (vid & -> & Hp & _).
  intros [= <-].
  rewrite in_app_iff, (Permutation_in' (eq_refl e) Hp), !filter_In.
  destruct (VideoDownloader.is_video e); cbn [negb]; intuition discriminate.
Qed.

Lemma dedup_groups_nodup formats d :
  VideoDownloader.dedup formats = Some d ->
  NoDup (map Spec.entry_group (VideoDownloader.dict_values d)).
Proof.
  intros Hd. pose proof (dedup_invariant formats d Hd) as [Hnd Hor _ _].
  assert (E : map fst d =
              map (fun g : VideoDownloader.format_type * str * str =>
                     VideoDownloader.dedup_key (fst (fst g)) (snd (fst g)) (snd g))
                (map Spec.entry_group (VideoDownloader.dict_values d))).
  { unfold VideoDownloader.dict_values. rewrite !map_map. apply map_ext_in.
    intros [k e] Hin. cbn [fst snd].
    destruct (Hor k e Hin) as (l1 & c & l2 & _ & Hk & _).
    now destruct (keyed_entry_group c k e Hk) as (_ & -> & _). }
  rewrite E in Hnd. now apply NoDup_map_inv in Hnd.
Qed.

(** The loop completes when the score of every candidate can be read back
    from its stored entry. *)
Lemma stored_score_readable c k e :
  Spec.keyed c = Some (k, e) -> Spec.score_readable c ->
  VideoDownloader.stored_score e <> None.
Proof.
  unfold Spec.keyed. destruct (VideoDownloader.classify c) as [[t q]|]; [| discriminate].
  intros [= <- <-] H.
  unfold VideoDownloader.stored_score, VideoDownloader.stored_tbr_score.
  cbn [VideoDownloader.make_entry VideoDownloader.p_filesize VideoDownloader.p_tbr].
  destruct H as [H | (n & -> & Hn)].
  - destruct (VideoDownloader.tbr c) as [rate|]; [| contradiction].
    destruct (VideoDownloader.effective_filesize c) as [n|]; [| discriminate].
    destruct (Py.truthy_int n); discriminate.
  - unfold Py.truthy_int. destruct (Z.eqb_spec n 0); [contradiction | discriminate].
Qed.

Lemma dedup_completes formats :
  (forall c, In c formats -> Spec.score_readable c) ->
  exists d, VideoDownloader.dedup formats = Some d.
Proof.
  induction formats as [|c l IH] using rev_ind; intros H.
  - now exists [].
  - destruct IH as (d & Hd); [intros c' Hc'; apply H, in_app_iff; now left |].
    rewrite dedup_snoc, Hd. cbn [VideoDownloader.dedup_loop].
    rewrite dedup_step_keyed.
    destruct (Spec.keyed c) as [[k e]|]; [| now eexists].
    destruct (VideoDownloader.dict_get k d) as [e0|] eqn:Eg; [| now eexists].
    apply dict_get_in in Eg.
    destruct (Spec.inv_origin _ _ (dedup_invariant l d Hd) k e0 Eg)
      as (l1 & c0 & l2 & -> & Hk0 & _).
    assert (Hr : Spec.score_readable c0).
    { apply H. rewrite in_app_iff. left. apply in_elt. }
    pose proof (stored_score_readable c0 k e0 Hk0 Hr) as Hs.
    destruct (VideoDownloader.stored_score e0); [| contradiction].
    destruct (VideoDownloader.Qltb _ _); now eexists.
Qed.

End ProcessedFormats.

Section FormatList.

Context {U : Py.Unicode} {F : Py.Floats}.

(** C9: an empty raw format list gives an empty processed list, and no
    exception is raised. *)
Theorem get_video_info_formats_empty :
  VideoDownloader.get_video_info_formats [] = Some [].
Proof. reflexivity. Qed.

(** Every classified candidate of a completed run has the entry of its
    key. *)
Lemma classified_has_entry formats out c :
  VideoDownloader.get_video_info_formats formats = Some out ->
  In c formats -> Spec.group c <> None ->
  exists e, In e out /\ Spec.group c = Some (Spec.entry_group e).
Proof.
  intros Hout Hc Hg. apply get_video_info_formats_some in Hout as (d & Hd & Hout).
  pose proof (fun e => sort_formats_in formats d out e Hd Hout) as Hin.
  destruct (Spec.key_of c) as [k|] eqn:Hkey.
  - pose proof (Spec.inv_complete _ _ (dedup_invariant formats d Hd) c k Hc Hkey) as Hk.
    apply in_map_iff in Hk as ([k' e] & Ek & He). cbn in Ek. subst k'.
    exists e. split; [apply Hin, in_dict_values; now exists k |].
    destruct (Spec.inv_origin _ _ (dedup_invariant formats d Hd) k e He)
      as (l1 & c0 & l2 & _ & Hk0 & _).
    destruct (keyed_entry_group c0 k e Hk0) as (Hg0 & _).
    rewrite <- Hg0. apply (key_of_group c c0 k Hkey). now apply (keyed_key_of c0 k e).
  - exfalso. apply Hg. unfold Spec.key_of, Spec.keyed, Spec.group in *.
    now destruct (VideoDownloader.classify c) as [[t q]|].
Qed.


(** X6: whenever the loop completes, the processed list holds at most one
    entry per deduplication key (type, quality label, ext); the entry kept
    for a key comes from the candidate of that key with the highest score,
    the first one among equal scores; and every key of a classified
    candidate has its entry. *)
Lemma dedup_keeps_highest_score formats out :
  VideoDownloader.get_video_info_formats formats = Some out ->
  NoDup (map Spec.entry_group out) /\
  (forall e, In e out ->
     exists before c after,
       formats = (before ++ c :: after)%list /\
       Spec.group c = Some (Spec.entry_group e) /\
       (exists t q, VideoDownloader.classify c = Some (t, q) /\
                    e = VideoDownloader.make_entry c t q) /\
       (forall c', In c' before -> Spec.group c' = Spec.group c ->
          (VideoDownloader.current_score c' < VideoDownloader.current_score c)%Q) /\
       (forall c', In c' after -> Spec.group c' = Spec.group c ->
          (VideoDownloader.current_score c' <= VideoDownloader.current_score c)%Q)) /\
  (forall c, In c formats -> Spec.group c <> None ->
     exists e, In e out /\ Spec.group c = Some (Spec.entry_group e)).
Proof.
  intros Hout. apply get_video_info_formats_some in Hout as (d & Hd & Hout).
  destruct (sort_formats_spec formats d Hd) as (vid & Hvid & Hperm & _).
  pose proof (fun e => sort_formats_in formats d out e Hd Hout) as Hin.
  rewrite Hvid in Hout. injection Hout as <-.
  split; [| split].
  - apply (Permutation_NoDup (l := map Spec.entry_group (VideoDownloader.dict_values d)));
      [| now apply (dedup_groups_nodup formats)].
    apply Permutation_map. symmetry.
    rewrite Hperm. apply filter_partition_perm.
  - intros e He. apply Hin in He. apply (dedup_origin formats d e Hd) in He
      as (k & _ & (l1 & c & l2 & -> & Hk & Hb & Ha)).
    destruct (keyed_entry_group c k e Hk) as (Hg & _ & _ & Hc).
    pose proof (keyed_key_of c k e Hk) as Hkey.
    exists l1, c, l2. split; [reflexivity |]. split; [exact Hg |]. split; [exact Hc |].
    split; intros c' Hc' Hg'; [apply Hb | apply Ha]; try assumption;
      rewrite <- Hkey; now apply group_key_of.
  - intros c Hc Hg. apply (classified_has_entry formats _ c); try assumption.
    unfold VideoDownloader.get_video_info_formats. now rewrite Hd.
Qed.

End FormatList.

Lemma dedup_keeps_highest_score_witness :
  VideoDownloader.get_video_info_formats (U := Props.sample_unicode)
    (F := Props.exact_floats) Props.sample_sizes
  = Some [ {| VideoDownloader.p_format_id := "59";
              VideoDownloader.p_quality := "720p (with audio)";
              VideoDownloader.p_ext := "mp4";
              VideoDownloader.p_type := VideoDownloader.Video;
              VideoDownloader.p_filesize := Some 250;
              VideoDownloader.p_tbr := None;
              VideoDownloader.p_height := Some 720;
              VideoDownloader.p_width := None |} ] /\
  exists before c after,
    Props.sample_sizes = (before ++ c :: after)%list /\
    VideoDownloader.format_id c = "59" /\
    (forall c', In c' before ->
       (VideoDownloader.current_score (F := Props.exact_floats) c'
        < VideoDownloader.current_score (F := Props.exact_floats) c)%Q) /\
    (forall c', In c' after ->
       (VideoDownloader.current_score (F := Props.exact_floats) c'
        <= VideoDownloader.current_score (F := Props.exact_floats) c)%Q).
Proof.
  split; [vm_compute; reflexivity |].
  destruct (dedup_keeps_highest_score (U := Props.sample_unicode)
              (F := Props.exact_floats) Props.sample_sizes _ eq_refl)
    as (_ & H & _).
  destruct (H _ (or_introl eq_refl))
    as (before & c & after & E & Hg & (t & q & _ & He) & Hb & Ha).
  exists before, c, after. split; [exact E |].
  split; [now apply (f_equal VideoDownloader.p_format_id) in He |].
  assert (G : forall c', In c' Props.sample_sizes ->
            Spec.group (U := Props.sample_unicode) c'
            = Some (VideoDownloader.Video, "720p (with audio)", "mp4")).
  { intros c' Hc'. repeat destruct Hc' as [<- | Hc']; try reflexivity.
    destruct Hc'. }
  assert (Gc : Spec.group (U := Props.sample_unicode) c
               = Some (VideoDownloader.Video, "720p (with audio)", "mp4")).
  { apply G. rewrite E. apply in_elt. }
  split; intros c' Hc'; [apply Hb | apply Ha]; try assumption;
    rewrite Gc; apply G; rewrite E, in_app_iff;
    [now left | right; now right].
Defined.

Section FormatOrder.

Context {U : Py.Unicode} {F : Py.Floats}.

(** C1 fails on the program for two candidates of one key whose file size
    is unknown and whose bitrate is [None]: both have the score 0, so the
    first should be kept; the program, reading the score of the stored entry
    back, multiplies [None] by 1000, and the exception leaves no format
    list.  With the key [tbr] absent instead, the same two candidates give
    the list with the first one. *)
Theorem dedup_unknown_bitrate_raises :
  Spec.group Spec.sample_unknown_first = Some (VideoDownloader.Audio, "Audio (M4A)", "m4a") /\
  Spec.group Spec.sample_unknown_second = Some (VideoDownloader.Audio, "Audio (M4A)", "m4a") /\
  VideoDownloader.current_score Spec.sample_unknown_first = 0%Q /\
  VideoDownloader.current_score Spec.sample_unknown_second = 0%Q /\
  VideoDownloader.stored_score
    (VideoDownloader.make_entry Spec.sample_unknown_first VideoDownloader.Audio "Audio (M4A)")
  = None /\
  VideoDownloader.get_video_info_formats
    [Spec.sample_unknown_first; Spec.sample_unknown_second] = None /\
  VideoDownloader.get_video_info_formats
    [Spec.sample_absent_first; Spec.sample_absent_second]
  = Some [VideoDownloader.make_entry Spec.sample_absent_first VideoDownloader.Audio
            "Audio (M4A)"].
Proof. repeat split; vm_compute; reflexivity. Qed.

(** When the loop has built the dictionary, the final list is the video
    group followed by the audio group; the audio group is the audio entries
    in insertion order, the order in which their keys first occur in the
    input; the video group is the video entries sorted by decreasing (label
    contains the with-audio mark, height parsed from the label), so that
    every with-audio entry precedes every video-only entry and, within each
    of the two, a higher resolution comes first; entries of equal sort key
    keep their insertion order. *)
Lemma formats_order (formats : list VideoDownloader.raw_format)
  (d : VideoDownloader.dict) :
  VideoDownloader.dedup formats = Some d ->
  let ins := VideoDownloader.dict_values d in
  exists vid aud,
    VideoDownloader.get_video_info_formats formats = Some (vid ++ aud)%list /\
    map Spec.entry_key ins = Spec.first_seen (Spec.accepted_keys formats) /\
    aud = filter (fun e => negb (VideoDownloader.is_video e)) ins /\
    Permutation vid (filter VideoDownloader.is_video ins) /\
    Forall (fun e => exists h,
              VideoDownloader.p_height e = Some h /\
              VideoDownloader.format_priority e = Some (Spec.with_audio e, h)) vid /\
    StronglySorted
      (fun a b => VideoDownloader.key_ltb
                    (Spec.with_audio a, Spec.height_of a)
                    (Spec.with_audio b, Spec.height_of b) = false) vid /\
    ForallOrdPairs (fun a b => Spec.with_audio b = true -> Spec.with_audio a = true) vid /\
    ForallOrdPairs
      (fun a b => Spec.with_audio a = Spec.with_audio b ->
                  Spec.height_of b <= Spec.height_of a) vid /\
    (forall k,
       filter (fun e => Spec.key_eqb (Spec.with_audio e, Spec.height_of e) k) vid
       = filter (fun e => Spec.key_eqb (Spec.with_audio e, Spec.height_of e) k)
           (filter VideoDownloader.is_video ins)) /\
    option_map (map VideoDownloader.p_quality)
      (VideoDownloader.get_video_info_formats
         [Spec.sample_1080p_video_only; Spec.sample_720p_with_audio])
    = Some ["720p (with audio)"; "1080p"].
Proof.
  intros Hd ins.
  destruct (sort_formats_spec formats d Hd) as (vid & Hout & Hperm & Hsorted & Hstable).
  fold ins in Hout, Hperm, Hstable.
  exists vid, (filter (fun e => negb (VideoDownloader.is_video e)) ins).
  split.
  { unfold VideoDownloader.get_video_info_formats. now rewrite Hd. }
  split.
  { pose proof (dedup_invariant formats d Hd) as [_ Hor _ Hod]. rewrite <- Hod.
    unfold ins, VideoDownloader.dict_values. rewrite map_map. apply map_ext_in.
    intros [k e] Hin. cbn [fst snd].
    destruct (Hor k e Hin) as (l1 & c & l2 & _ & Hk & _).
    now destruct (keyed_entry_group c k e Hk) as (_ & -> & _). }
  split; [reflexivity |]. split; [exact Hperm |]. split.
  { apply Forall_forall. intros e He. apply (Permutation_in _ Hperm) in He.
    apply filter_In in He as [He Hv].
    apply (dedup_origin formats d e Hd) in He as (k & _ & (l1 & c & l2 & _ & Hk & _)).
    now apply (format_priority_video c k e). }
  split; [exact Hsorted |].
  split; [| split; [| split; [exact Hstable | vm_compute; reflexivity]]].
  - apply (sorted_pairs _ _ vid) with (2 := Hsorted). intros a b.
    unfold Spec.priority, VideoDownloader.key_ltb. cbn [fst snd].
    destruct (Spec.with_audio a), (Spec.with_audio b); congruence.
  - apply (sorted_pairs _ _ vid) with (2 := Hsorted). intros a b.
    unfold Spec.priority, VideoDownloader.key_ltb. cbn [fst snd].
    destruct (Spec.with_audio a), (Spec.with_audio b); try discriminate;
      intros H _; now apply Z.ltb_ge in H.
Qed.

(** C2 fails on the program for the two candidates of C1, which share the
    audio key [(audio, Audio (M4A), m4a)] and whose bitrate is [None]: the
    claimed sequence is the audio entry of the first; the program, reading
    the score of the stored entry back in the loop before the sort,
    multiplies [None] by 1000, and the exception leaves no sequence.  With
    the key [tbr] absent instead, the same two candidates give the claimed
    sequence.  Whenever the loop completes, the sequence is as claimed: the
    video group, sorted by decreasing (with-audio mark, height parsed from
    the label) under a stable sort, followed by the audio group in insertion
    order; in the example the 720p entry with audio precedes the 1080p
    entry. *)
Theorem formats_order_unknown_bitrate_raises :
  VideoDownloader.get_video_info_formats
    [Spec.sample_unknown_first; Spec.sample_unknown_second] = None /\
  VideoDownloader.get_video_info_formats
    [Spec.sample_absent_first; Spec.sample_absent_second]
  = Some [VideoDownloader.make_entry Spec.sample_absent_first VideoDownloader.Audio
            "Audio (M4A)"] /\
  (forall (formats : list VideoDownloader.raw_format) (d : VideoDownloader.dict),
     VideoDownloader.dedup formats = Some d ->
     let ins := VideoDownloader.dict_values d in
     exists vid aud,
       VideoDownloader.get_video_info_formats formats = Some (vid ++ aud)%list /\
       map Spec.entry_key ins = Spec.first_seen (Spec.accepted_keys formats) /\
       aud = filter (fun e => negb (VideoDownloader.is_video e)) ins /\
       Permutation vid (filter VideoDownloader.is_video ins) /\
       Forall (fun e => exists h,
                 VideoDownloader.p_height e = Some h /\
                 VideoDownloader.format_priority e = Some (Spec.with_audio e, h)) vid /\
       StronglySorted
         (fun a b => VideoDownloader.key_ltb
                       (Spec.with_audio a, Spec.height_of a)
                       (Spec.with_audio b, Spec.height_of b) = false) vid /\
       ForallOrdPairs
         (fun a b => Spec.with_audio b = true -> Spec.with_audio a = true) vid /\
       ForallOrdPairs
         (fun a b => Spec.with_audio a = Spec.with_audio b ->
                     Spec.height_of b <= Spec.height_of a) vid /\
       (forall k,
          filter (fun e => Spec.key_eqb (Spec.with_audio e, Spec.height_of e) k) vid
          = filter (fun e => Spec.key_eqb (Spec.with_audio e, Spec.height_of e) k)
              (filter VideoDownloader.is_video ins))) /\
  option_map (map VideoDownloader.p_quality)
    (VideoDownloader.get_video_info_formats
       [Spec.sample_1080p_video_only; Spec.sample_720p_with_audio])
  = Some ["720p (with audio)"; "1080p"].
Proof.
  split; [vm_compute; reflexivity |]. split; [vm_compute; reflexivity |].
  split; [| vm_compute; reflexivity].
  intros formats d Hd ins.
  destruct (formats_order formats d Hd)
    as (vid & aud & H1 & H2 & H3 & H4 & H5 & H6 & H7 & H8 & H9 & _).
  exists vid, aud. repeat (split; [assumption |]). assumption.
Qed.



End FormatOrder.

(** ** The routes *)

Section Routes.

Context {U : Py.Unicode}.

(** C8 fails on [/server_download]: for the body
    [{"url": 5, "format_id": "18", "download_type": "video"}] the call
    [url.strip()] raises, and the 500 response carries the text of the
    exception after [Server error: ], not a fixed message; whatever text the
    downloader raises with reaches the response the same way.  The sibling
    route [/download] answers the same body with its fixed message. *)
Theorem server_download_leaks_exception :
  (forall dl,
     App.server_download dl Spec.body_with_numeric_url
     = (Py.Ok {| App.body :=
                   App.ErrorPayload "Server error: 'int' object has no attribute 'strip'";
                 App.status := 500 |},
        ["Error in server download: 'int' object has no attribute 'strip'"])) /\
  (forall msg,
     App.server_download (fun _ _ _ => Py.raise msg)
       (Py.VDict [("url", Py.VStr "https://youtu.be/abc"); ("format_id", Py.VStr "18")])
     = (Py.Ok {| App.body := App.ErrorPayload ("Server error: " ++ msg);
                 App.status := 500 |},
        ["Error in server download: " ++ msg])) /\
  (forall extract,
     App.download_video extract Spec.body_with_numeric_url
     = (Py.Ok {| App.body :=
                   App.ErrorPayload
                     "An error occurred while preparing the download. Please try again.";
                 App.status := 500 |},
        ["Error getting download URL: 'int' object has no attribute 'strip'"])).
Proof. split; [| split]; reflexivity. Qed.

Lemma get_direct_download_url_video extract url format_id :
  VideoDownloader.get_direct_download_url extract url format_id (Py.VStr "video")
  = Py.ret (VideoDownloader.Failure
      "Direct download not supported for videos with audio. Using server download.").
Proof. reflexivity. Qed.

Lemma download_video_route_video_mode extract d :
  Spec.video_mode d ->
  exists err log,
    (App.download_video extract (Py.VDict d)
     = (Py.Ok {| App.body := App.ErrorPayload err; App.status := 400 |}, log) /\
     Spec.url_is_text d) \/
    (App.download_video extract (Py.VDict d)
     = (Py.Ok {| App.body := App.ErrorPayload err; App.status := 500 |}, log) /\
     ~ Spec.url_is_text d).
Proof.
  intros Hmode. unfold App.download_video, Py.get, Spec.url_is_text.
  assert (Hdt : match Py.lookup "download_type" d with
                | Some x => Py.ret x
                | None => Py.ret (Py.VStr "video")
                end = Py.ret (Py.VStr "video")).
  { destruct Hmode as [-> | ->]; reflexivity. }
  rewrite Hdt. clear Hdt.
  destruct (Py.lookup "url" d) as [v|].
  - destruct v as [| b | n | u | l | dd];
      try (do 2 eexists; right; split; [reflexivity |];
           intros [H | (u & H)]; discriminate H).
    cbn [Py.strip_value Py.bind Py.ret app].
    destruct (Py.lookup "format_id" d) as [f|]; cbn [Py.bind Py.ret app].
    + destruct (negb (Py.truthy_str (Py.strip u)) || negb (Py.truthy f)).
      * do 2 eexists. left. split; [reflexivity | right; now exists u].
      * destruct (negb (VideoDownloader.is_valid_youtube_url (Py.strip u))).
        -- do 2 eexists. left. split; [reflexivity | right; now exists u].
        -- do 2 eexists. left. split; [reflexivity | right; now exists u].
    + destruct (negb (Py.truthy_str (Py.strip u)) || negb (Py.truthy (Py.VStr EmptyString))).
      * do 2 eexists. left. split; [reflexivity | right; now exists u].
      * destruct (negb (VideoDownloader.is_valid_youtube_url (Py.strip u))).
        -- do 2 eexists. left. split; [reflexivity | right; now exists u].
        -- do 2 eexists. left. split; [reflexivity | right; now exists u].
  - destruct (Py.lookup "format_id" d);
      do 2 eexists; left; (split; [reflexivity | now left]).
Qed.

Lemma download_video_route_success extract data resp log :
  App.download_video extract data = (Py.Ok resp, log) ->
  App.status resp = 200 ->
  exists d, data = Py.VDict d /\ ~ Spec.video_mode d.
Proof.
  intros H Hs.
  destruct data as [| b | n | s | l | d];
    try (cbn in H; injection H as <- _; discriminate Hs).
  exists d. split; [reflexivity |]. intros Hvm.
  destruct (download_video_route_video_mode extract d Hvm)
    as (err & log' & [[E _] | [E _]]);
    rewrite E in H; injection H as <- _; discriminate Hs.
Qed.

(** C10, as amended: with download type ['video'],
    [get_direct_download_url] returns the fixed failure whatever the
    extractor would do, without calling it; the route [/download] answers a
    video-mode body with an error and never with a direct URL - status 400
    when the [url] of the body is a text or is absent, status 500 when
    reading it raises; a success on that route comes from a body whose
    download type is not ['video'], and an audio body can succeed. *)
Theorem direct_download_video_mode :
  (forall extract url format_id,
     VideoDownloader.get_direct_download_url extract url format_id (Py.VStr "video")
     = Py.ret (VideoDownloader.Failure
         "Direct download not supported for videos with audio. Using server download.")) /\
  (forall extract d,
     Spec.video_mode d ->
     exists err log,
       (App.download_video extract (Py.VDict d)
        = (Py.Ok {| App.body := App.ErrorPayload err; App.status := 400 |}, log) /\
        Spec.url_is_text d) \/
       (App.download_video extract (Py.VDict d)
        = (Py.Ok {| App.body := App.ErrorPayload err; App.status := 500 |}, log) /\
        ~ Spec.url_is_text d)) /\
  (forall extract data resp log,
     App.download_video extract data = (Py.Ok resp, log) ->
     App.status resp = 200 ->
     exists d, data = Py.VDict d /\ ~ Spec.video_mode d) /\
  App.download_video Spec.extract_one_audio Spec.audio_body
  = (Py.Ok {| App.body :=
                App.DirectPayload "https://cdn.example/a.m4a" "Amazing_Video_2024.mp3"
                  (Some 4096) "medium";
              App.status := 200 |}, []).
Proof.
  split; [exact get_direct_download_url_video |].
  split; [exact download_video_route_video_mode |].
  split; [exact download_video_route_success | reflexivity].
Qed.

End Routes.

(** C10, as stated, fails: the body
    [{"url": 5, "format_id": "18", "download_type": "video"}] is a video-mode
    request and the route [/download] answers it with status 500, not
    400, whatever the Unicode data. *)
Lemma download_route_video_mode_500 :
  (exists d, Spec.body_with_numeric_url = Py.VDict d /\ Spec.video_mode d) /\
  (forall U : Py.Unicode,
   exists err log,
     App.download_video (U := U) Spec.extract_nothing Spec.body_with_numeric_url
     = (Py.Ok {| App.body := App.ErrorPayload err; App.status := 500 |}, log)).
Proof.
  split.
  - eexists. split; [reflexivity |]. now left.
  - intros U. do 2 eexists. reflexivity.
Qed.

(** ** More on [is_valid_youtube_url] *)

Section UrlMore.

Context {U : Py.Unicode}.

(** X1: the match is anchored at the start only: a text that is accepted
    stays accepted with anything appended to it. *)
Theorem is_valid_youtube_url_trailing (url rest : str) :
  VideoDownloader.is_valid_youtube_url url = true ->
  VideoDownloader.is_valid_youtube_url (url ++ rest) = true.
Proof.
  intros H. apply is_valid_iff_recognized in H. apply is_valid_iff_recognized.
  assert (G : forall b site, Spec.url_shape b site url -> Spec.url_shape b site (url ++ rest)).
  { intros b site (sch & w & body & ident & r & -> & Hs & Hw & Hb & Hi).
    exists sch, w, body, ident, (r ++ rest). rewrite !str_app_assoc. now repeat split. }
  unfold Spec.recognized in *. destruct H as [H | [H | [H | H]]]; auto.
Qed.

End UrlMore.

Lemma is_valid_youtube_url_trailing_witness :
  VideoDownloader.is_valid_youtube_url (U := Props.sample_unicode) "youtu.be/abc" = true /\
  VideoDownloader.is_valid_youtube_url (U := Props.sample_unicode)
    ("youtu.be/abc" ++ " and more <text>") = true.
Proof.
  split; [reflexivity |].
  apply (is_valid_youtube_url_trailing (U := Props.sample_unicode)
           "youtu.be/abc" " and more <text>").
  reflexivity.
Defined.

Section Letters.

Context {U : Py.Unicode}.

Lemma letter_ascii (a : char) : Props.is_letter a = true -> Chr.is_ascii a = true.
Proof. unfold Props.is_letter. chr_compare. Qed.

Lemma letter_word (a : char) : Props.is_letter a = true -> Py.is_word a = true.
Proof.
  intros H. unfold Py.is_word. rewrite (letter_ascii a H).
  unfold Props.is_letter in H. apply orb_true_iff in H as [-> | ->]; [reflexivity |].
  now rewrite orb_true_r.
Qed.

Lemma letter_not_space (a : char) : Props.is_letter a = true -> Py.is_space a = false.
Proof.
  intros H. unfold Py.is_space. rewrite (letter_ascii a H).
  unfold Props.is_letter in H. chr_compare.
Qed.

Lemma letter_not_hyphen (a : char) : Props.is_letter a = true -> Chr.eqb a "-" = false.
Proof. unfold Props.is_letter. chr_compare. Qed.

Lemma letter_cased (a : char) : Props.is_letter a = true -> Py.is_cased a = true.
Proof. intros H. unfold Py.is_cased. now rewrite (letter_ascii a H). Qed.

Lemma uncased_not_letter (c : char) : Py.is_cased c = false -> Props.is_letter c = false.
Proof.
  intros H. destruct (Props.is_letter c) eqn:E; [| reflexivity].
  apply letter_cased in E. congruence.
Qed.

End Letters.

Section CaseMapping.

Context {U : Py.Unicode}.

(** A mapping of characters that changes at most the case of a letter A to
    Z or a to z. *)
Variable f : char -> char.
Hypothesis f_lower : forall a, Py.lower_char (f a) = Py.lower_char a.
Hypothesis f_letter :
  forall a, f a = a \/ (Props.is_letter a = true /\ Props.is_letter (f a) = true).

Lemma ci_match_case a c : Py.ci_match (f a) c = Py.ci_match a c.
Proof.
  unfold Py.ci_match. rewrite f_lower. destruct (Py.is_cased c) eqn:E; [reflexivity |].
  destruct (f_letter a) as [-> | [H1 H2]]; [reflexivity |].
  apply uncased_not_letter in E.
  destruct (chr_eqb_spec (f a) c) as [<- | _]; [congruence |].
  destruct (chr_eqb_spec a c) as [<- | _]; [congruence | reflexivity].
Qed.

Lemma charset_mem_case cs a : Re.charset_mem cs (f a) = Re.charset_mem cs a.
Proof.
  unfold Re.charset_mem. f_equal. induction (Re.items cs) as [|i l IH]; [reflexivity |].
  cbn [existsb]. rewrite IH. f_equal.
  destruct (f_letter a) as [-> | [H1 H2]]; [reflexivity |].
  destruct i; cbn [Re.item_mem].
  - now rewrite !letter_word.
  - now rewrite !letter_not_space.
  - now rewrite !letter_not_hyphen.
Qed.

Lemma star_rests_case cs s :
  Re.star_rests cs (Props.map_str f s)
  = map (Props.map_str f) (Re.star_rests cs s).
Proof.
  induction s as [|a s IH]; [reflexivity |].
  cbn [Props.map_str Re.star_rests]. rewrite charset_mem_case.
  destruct (Re.charset_mem cs a); [| reflexivity].
  now rewrite IH, map_app.
Qed.

Lemma rests_case r s :
  Re.rests true r (Props.map_str f s) = map (Props.map_str f) (Re.rests true r s).
Proof.
  revert s. induction r as [|c|cs|r1 IH1 r2 IH2|r IH|cs]; intros s; cbn [Re.rests].
  - reflexivity.
  - destruct s as [|a s]; [reflexivity |]. cbn [Props.map_str].
    unfold Re.char_eq. rewrite ci_match_case. now destruct (Py.ci_match a c).
  - destruct s as [|a s]; [reflexivity |]. cbn [Props.map_str].
    rewrite charset_mem_case. now destruct (Re.charset_mem cs a).
  - rewrite IH1. induction (Re.rests true r1 s) as [|x l IHl]; [reflexivity |].
    cbn [map flat_map]. now rewrite IHl, IH2, map_app.
  - now rewrite IH, map_app.
  - destruct s as [|a s]; [reflexivity |]. cbn [Props.map_str].
    rewrite charset_mem_case. destruct (Re.charset_mem cs a); [| reflexivity].
    apply star_rests_case.
Qed.

Lemma is_valid_case url :
  VideoDownloader.is_valid_youtube_url (Props.map_str f url)
  = VideoDownloader.is_valid_youtube_url url.
Proof.
  unfold VideoDownloader.is_valid_youtube_url.
  induction VideoDownloader.youtube_patterns as [|p l IH]; [reflexivity |].
  cbn [existsb]. rewrite IH. f_equal. unfold Re.match_. rewrite rests_case.
  now destruct (Re.rests true p url).
Qed.

End CaseMapping.

Section IgnoreCase.

Context {U : Py.Unicode}.

Lemma lower_letter_lower (a : char) :
  Py.lower_char (Props.lower_letter a) = Py.lower_char a.
Proof.
  unfold Props.lower_letter. destruct (Py.is_upper a) eqn:E; [| reflexivity].
  unfold Py.lower_char. chr_compare.
Qed.

Lemma lower_letter_letter (a : char) :
  Props.lower_letter a = a \/
  (Props.is_letter a = true /\ Props.is_letter (Props.lower_letter a) = true).
Proof.
  unfold Props.lower_letter, Props.is_letter.
  destruct (Py.is_upper a) eqn:E; [right | now left].
  split; [reflexivity |]. chr_compare.
Qed.

Lemma upper_letter_lower (a : char) :
  Py.lower_char (Props.upper_letter a) = Py.lower_char a.
Proof.
  unfold Props.upper_letter. destruct (Py.is_lower a) eqn:E; [| reflexivity].
  unfold Py.lower_char. chr_compare.
Qed.

Lemma upper_letter_letter (a : char) :
  Props.upper_letter a = a \/
  (Props.is_letter a = true /\ Props.is_letter (Props.upper_letter a) = true).
Proof.
  unfold Props.upper_letter, Props.is_letter.
  destruct (Py.is_lower a) eqn:E; [right | now left].
  split; [now rewrite orb_true_r |]. chr_compare.
Qed.

(** X2: the validation ignores the case of the letters A to Z everywhere,
    in the site text and in the identifier alike: a text, the text with
    these letters in lower case and the text with them in upper case are
    accepted or rejected together, and so are any two texts that differ
    only in the case of these letters. *)
Theorem is_valid_youtube_url_ignores_case (url : str) :
  VideoDownloader.is_valid_youtube_url (Props.lower_letters url)
    = VideoDownloader.is_valid_youtube_url url /\
  VideoDownloader.is_valid_youtube_url (Props.upper_letters url)
    = VideoDownloader.is_valid_youtube_url url /\
  (forall other, Props.lower_letters url = Props.lower_letters other ->
     VideoDownloader.is_valid_youtube_url url
     = VideoDownloader.is_valid_youtube_url other).
Proof.
  assert (L : forall u, VideoDownloader.is_valid_youtube_url (Props.lower_letters u)
                        = VideoDownloader.is_valid_youtube_url u).
  { intros u. apply (is_valid_case Props.lower_letter lower_letter_lower lower_letter_letter). }
  split; [apply L |]. split.
  - apply (is_valid_case Props.upper_letter upper_letter_lower upper_letter_letter).
  - intros other H. now rewrite <- (L url), H, L.
Qed.

End IgnoreCase.

(** Beyond ASCII, with the Unicode data of the examples: an accented letter
    (U+00E9) is an identifier character, the long s (U+017F) is taken for
    the s of [https], and the no-break space (U+00A0) is no identifier
    character. *)
Lemma is_valid_youtube_url_beyond_ascii :
  VideoDownloader.is_valid_youtube_url (U := Props.sample_unicode)
    ("youtu.be/" ++ String 233%N EmptyString) = true /\
  VideoDownloader.is_valid_youtube_url (U := Props.sample_unicode)
    ("http" ++ String 383%N "://youtu.be/a") = true /\
  VideoDownloader.is_valid_youtube_url (U := Props.sample_unicode)
    ("youtu.be/" ++ String 160%N EmptyString) = false.
Proof. repeat split; vm_compute; reflexivity. Qed.

(** ** More on the safe file name *)

Section FileNameMore.

Context {U : Py.Unicode}.

Lemma keep_chars_all (p : char -> bool) (s : str) :
  Spec.all_chars p (Spec.keep_chars p s) = true.
Proof.
  induction s as [|a s IH]; [reflexivity |]. cbn [Spec.keep_chars].
  destruct (p a) eqn:E; [| exact IH]. cbn [Spec.all_chars]. now rewrite E.
Qed.

Lemma keep_chars_id (p : char -> bool) (s : str) :
  Spec.all_chars p s = true -> Spec.keep_chars p s = s.
Proof.
  induction s as [|a s IH]; [reflexivity |]. cbn [Spec.all_chars Spec.keep_chars].
  intros H. apply andb_true_iff in H as [Ha Hs]. now rewrite Ha, IH.
Qed.

Lemma kept_char_is_word (a : char) :
  Spec.safe_char a = true -> Spec.separator a = false -> Py.is_word a = true.
Proof.
  unfold Spec.safe_char, Spec.separator.
  destruct (Py.is_word a), (Py.is_space a), (Chr.eqb a "-"); cbn; congruence.
Qed.

(** No character is both a word character and a space. *)
Lemma word_not_space (a : char) : Py.is_word a = true -> Py.is_space a = false.
Proof.
  unfold Py.is_word, Py.is_space. destruct (Chr.is_ascii a) eqn:E.
  - chr_compare.
  - now destruct (Py.uni_class a).
Qed.

Lemma word_not_hyphen (a : char) : Py.is_word a = true -> Chr.eqb a "-" = false.
Proof.
  unfold Py.is_word. destruct (Chr.is_ascii a) eqn:E.
  - chr_compare.
  - intros _. chr_compare.
Qed.

Lemma hyphen_not_space (a : char) : Chr.eqb a "-" = true -> Py.is_space a = false.
Proof.
  intros H. apply chr_eqb_eq in H. subst a. reflexivity.
Qed.

Lemma word_char_facts (a : char) :
  Py.is_word a = true ->
  Spec.safe_char a = true /\ Spec.separator a = false /\ Py.is_space a = false.
Proof.
  intros H. unfold Spec.safe_char, Spec.separator.
  now rewrite H, (word_not_space a H), (word_not_hyphen a H).
Qed.

Lemma stripped_all_chars (p : char -> bool) (s t : str) :
  Spec.stripped s t -> Spec.all_chars p s = true -> Spec.all_chars p t = true.
Proof.
  intros (l & r & -> & _) H. rewrite !all_chars_app in H.
  apply andb_true_iff in H as [_ H]. now apply andb_true_iff in H as [H _].
Qed.

Lemma collapsed_all_word (s u : str) :
  Spec.collapsed s u -> Spec.all_chars Spec.safe_char s = true ->
  Spec.all_chars Py.is_word u = true.
Proof.
  induction 1 as [|a s t Ha Hc IH|run s t Hn Hr Hs Hc IH]; intros H.
  - reflexivity.
  - cbn [Spec.all_chars] in H |- *. apply andb_true_iff in H as [H1 H2].
    now rewrite (kept_char_is_word a H1 Ha), IH.
  - rewrite all_chars_app in H. apply andb_true_iff in H as [_ H].
    cbn [Spec.all_chars]. now rewrite IH.
Qed.

Lemma take_all_chars (p : char -> bool) (n : nat) (s : str) :
  Spec.all_chars p s = true -> Spec.all_chars p (Py.take n s) = true.
Proof.
  revert s. induction n as [|n IH]; intros [|a s]; cbn [Py.take Spec.all_chars]; auto.
  intros H. apply andb_true_iff in H as [H1 H2]. now rewrite H1, IH.
Qed.

Lemma safe_title_word_chars (title : str) :
  Spec.all_chars Py.is_word (VideoDownloader.safe_title title) = true.
Proof.
  unfold VideoDownloader.safe_title. rewrite sub_unsafe_char.
  apply take_all_chars.
  apply (collapsed_all_word _ _ (sub_separators_collapsed _)).
  apply (stripped_all_chars _ _ _ (strip_stripped _)), keep_chars_all.
Qed.

(** X3: the safe file name holds only letters, digits and underscores: no
    slash or backslash, no dot, no percent sign, no space and no hyphen. *)
Theorem safe_title_only_word_chars (title : str) :
  Spec.all_chars Py.is_word (VideoDownloader.safe_title title) = true /\
  (forall c, In c (Props.chars (VideoDownloader.safe_title title)) ->
     c <> "/"%chr /\ c <> "\"%chr /\ c <> "."%chr /\ c <> "%"%chr /\
     c <> " "%chr /\ c <> "-"%chr).
Proof.
  split; [apply safe_title_word_chars |].
  intros c Hc.
  assert (W : Py.is_word c = true).
  { pose proof (safe_title_word_chars title) as H.
    induction (VideoDownloader.safe_title title) as [|a s IH]; [destruct Hc |].
    cbn [Spec.all_chars] in H. apply andb_true_iff in H as [H1 H2].
    destruct Hc as [<- | Hc]; auto. }
  repeat split; intros ->; discriminate W.
Qed.

Lemma lstrip_id (s : str) :
  Spec.starts_with Py.is_space s = false -> Py.lstrip s = s.
Proof. destruct s as [|a s]; [reflexivity |]. cbn [Spec.starts_with Py.lstrip]. now intros ->. Qed.

Lemma rstrip_id (s : str) :
  Spec.all_chars (fun c => negb (Py.is_space c)) s = true -> Py.rstrip s = s.
Proof.
  induction s as [|a s IH]; [reflexivity |]. cbn [Spec.all_chars Py.rstrip].
  intros H. apply andb_true_iff in H as [Ha Hs]. apply negb_true_iff in Ha.
  rewrite (IH Hs). destruct s; [now rewrite Ha | reflexivity].
Qed.

Lemma sub_separators_id (s : str) :
  Spec.all_chars (fun c => negb (Spec.separator c)) s = true ->
  Re.sub false VideoDownloader.separators "_" s = s.
Proof.
  unfold Re.sub. induction s as [|a s IH]; [reflexivity |].
  cbn [Spec.all_chars]. intros H. apply andb_true_iff in H as [Ha Hs].
  apply negb_true_iff in Ha. cbn [Re.sub_from].
  now rewrite (match_separators_none a s Ha), (IH Hs).
Qed.

Lemma take_id (n : nat) (s : str) : (Str.length s <= n)%nat -> Py.take n s = s.
Proof.
  revert s. induction n as [|n IH]; intros [|a s]; cbn [Py.take Str.length]; auto; [lia |].
  intros H. rewrite IH; [reflexivity | lia].
Qed.

Lemma safe_title_fixed (s : str) :
  Spec.all_chars Py.is_word s = true -> (Str.length s <= 50)%nat ->
  VideoDownloader.safe_title s = s.
Proof.
  intros Hw Hl. unfold VideoDownloader.safe_title. rewrite sub_unsafe_char.
  rewrite keep_chars_id
    by (apply (all_chars_impl Py.is_word); [intros a H; now apply word_char_facts | exact Hw]).
  assert (Hsp : Spec.all_chars (fun c => negb (Py.is_space c)) s = true).
  { apply (all_chars_impl Py.is_word); [| exact Hw].
    intros a H. apply word_char_facts in H as (_ & _ & ->). reflexivity. }
  unfold Py.strip. rewrite lstrip_id.
  - rewrite (rstrip_id s Hsp). rewrite sub_separators_id; [now apply take_id |].
    apply (all_chars_impl Py.is_word); [| exact Hw].
    intros a H. apply word_char_facts in H as (_ & -> & _). reflexivity.
  - destruct s as [|a s]; [reflexivity |]. cbn [Spec.all_chars Spec.starts_with] in *.
    apply andb_true_iff in Hsp as [Ha _]. now apply negb_true_iff in Ha.
Qed.

(** X4: deriving the safe file name is idempotent: a safe file name is its
    own safe file name, so a title that is already made of at most 50
    letters, digits and underscores is kept unchanged. *)
Theorem safe_title_idempotent (title : str) :
  VideoDownloader.safe_title (VideoDownloader.safe_title title)
    = VideoDownloader.safe_title title /\
  (forall s, Spec.all_chars Py.is_word s = true -> (Str.length s <= 50)%nat ->
     VideoDownloader.safe_title s = s).
Proof.
  split; [| exact safe_title_fixed].
  apply safe_title_fixed; [apply safe_title_word_chars |].
  unfold VideoDownloader.safe_title. apply take_length.
Qed.

Lemma lstrip_all_space (s : str) :
  Spec.all_chars Py.is_space s = true -> Py.lstrip s = EmptyString.
Proof.
  induction s as [|a s IH]; [reflexivity |]. cbn [Spec.all_chars Py.lstrip].
  intros H. apply andb_true_iff in H as [Ha Hs]. now rewrite Ha, IH.
Qed.

Lemma strip_empty_iff (s : str) :
  Py.strip s = EmptyString <-> Spec.all_chars Py.is_space s = true.
Proof.
  split.
  - intros H. destruct (strip_stripped s) as (l & r & E & Hl & Hr & _).
    rewrite H in E. cbn [append] in E. rewrite E, all_chars_app, Hl, Hr. reflexivity.
  - intros H. unfold Py.strip. now rewrite (lstrip_all_space s H).
Qed.

Lemma collapsed_empty_iff (s u : str) :
  Spec.collapsed s u -> (u = EmptyString <-> s = EmptyString).
Proof.
  intros H. destruct H as [|a s t Ha Hc|run s t Hn Hr Hs Hc].
  - tauto.
  - split; discriminate.
  - split; [discriminate |]. intros E. destruct run; [contradiction | discriminate].
Qed.

Lemma kept_all_space_iff (t : str) :
  Spec.all_chars Py.is_space (Spec.keep_chars Spec.safe_char t) = true <->
  Spec.all_chars (fun c => negb (Py.is_word c || Chr.eqb c "-")) t = true.
Proof.
  assert (C : forall a,
             (if Spec.safe_char a then Py.is_space a else true)
             = negb (Py.is_word a || Chr.eqb a "-")).
  { intros a. unfold Spec.safe_char.
    destruct (Py.is_word a) eqn:W; [now rewrite (word_not_space a W) |].
    destruct (Chr.eqb a "-") eqn:H; [now rewrite (hyphen_not_space a H) |].
    now destruct (Py.is_space a). }
  induction t as [|a t IH]; [tauto |].
  cbn [Spec.keep_chars Spec.all_chars]. rewrite <- C.
  destruct (Spec.safe_char a); cbn [Spec.all_chars].
  - rewrite !andb_true_iff, IH. tauto.
  - rewrite IH. cbn [andb]. tauto.
Qed.

(** X5: the safe file name is empty exactly when the title has no letter,
    digit, underscore or hyphen; the file is then written under a name that
    is the extension alone. *)
Theorem safe_title_empty_iff (title : str) :
  VideoDownloader.safe_title title = EmptyString <->
  Spec.all_chars (fun c => negb (Py.is_word c || Chr.eqb c "-")) title = true.
Proof.
  rewrite <- kept_all_space_iff, <- strip_empty_iff.
  unfold VideoDownloader.safe_title. rewrite sub_unsafe_char.
  set (s := Py.strip (Spec.keep_chars Spec.safe_char title)).
  rewrite <- (collapsed_empty_iff s _ (sub_separators_collapsed s)).
  destruct (Re.sub false VideoDownloader.separators "_" s); cbn [Py.take]; split;
    try reflexivity; discriminate.
Qed.

End FileNameMore.

(** Beyond ASCII, with the Unicode data of the examples: the accented
    letters of [Caf(U+00E9) d(U+00E9)j(U+00E0) vu] are kept, the no-break
    spaces (U+00A0) around a title are stripped, and the ideographs of
    (U+65E5)(U+672C)(U+8A9E) are word characters. *)
Lemma safe_title_beyond_ascii :
  VideoDownloader.safe_title (U := Props.sample_unicode)
    ("Caf" ++ String 233%N (" d" ++ String 233%N ("j" ++ String 224%N " vu")))
  = "Caf" ++ String 233%N ("_d" ++ String 233%N ("j" ++ String 224%N "_vu")) /\
  VideoDownloader.safe_title (U := Props.sample_unicode)
    (String 160%N ("a b" ++ String 160%N EmptyString))
  = "a_b" /\
  VideoDownloader.safe_title (U := Props.sample_unicode)
    (String 26085%N (String 26412%N (String 35486%N "!")))
  = String 26085%N (String 26412%N (String 35486%N EmptyString)).
Proof. repeat split; vm_compute; reflexivity. Qed.

(** ** More on the format list and the format selection *)

Section FormatsMore.

Context {U : Py.Unicode} {F : Py.Floats}.

(** X7: [get_video_info] builds its format list without an exception
    whenever the score of every candidate can be read back from a stored
    entry: its bitrate is a number, or its file size is known and not
    zero. *)
Theorem get_video_info_formats_completes (formats : list VideoDownloader.raw_format) :
  (forall c, In c formats -> Spec.score_readable c) ->
  exists out, VideoDownloader.get_video_info_formats formats = Some out.
Proof.
  intros H. destruct (dedup_completes formats H) as (d & Hd).
  destruct (sort_formats_spec formats d Hd) as (vid & Hout & _).
  unfold VideoDownloader.get_video_info_formats. rewrite Hd. eauto.
Qed.

End FormatsMore.

Lemma get_video_info_formats_completes_witness :
  exists out,
    VideoDownloader.get_video_info_formats (U := Props.sample_unicode)
      (F := Props.exact_floats)
      [Spec.sample_absent_first; Spec.sample_absent_second] = Some out.
Proof.
  apply (get_video_info_formats_completes (U := Props.sample_unicode)
           (F := Props.exact_floats)
           [Spec.sample_absent_first; Spec.sample_absent_second]).
  intros c [<- | [<- | []]]; left; discriminate.
Defined.

Lemma split_app (c : char) (a t : str) :
  Py.split c (a ++ t)
  = (removelast (Py.split c a)
       ++ (last (Py.split c a) EmptyString ++ hd EmptyString (Py.split c t))%str
            :: tl (Py.split c t))%list.
Proof.
  induction a as [|x a IH].
  - cbn. destruct (Py.split c t) eqn:E; [now apply split_nonempty in E | reflexivity].
  - cbn [append Py.split]. rewrite IH.
    pose proof (split_nonempty c a) as Hne.
    destruct (Chr.eqb x c).
    + destruct (Py.split c a) as [|w ws]; [contradiction | reflexivity].
    + destruct (Py.split c a) as [|w [|w2 ws]]; [contradiction | reflexivity | reflexivity].
Qed.

(** X8: a chosen format id that holds slashes is itself read as a list of
    alternatives: in video mode the expression starts with the parts of the
    id before its last slash, left as they are, and only the last part is
    merged with the best audio; the three fixed alternatives follow. *)
Theorem format_selector_slashes (format_id download_type : str) :
  format_id <> EmptyString ->
  download_type <> "audio" ->
  Spec.alternatives (VideoDownloader.format_selector format_id download_type)
  = (removelast (Spec.alternatives format_id)
       ++ Spec.four_alternatives (last (Spec.alternatives format_id) EmptyString))%list.
Proof.
  intros Hne Hdt. unfold VideoDownloader.format_selector.
  destruct (str_eqb_spec download_type "audio") as [E | _]; [contradiction |].
  unfold Py.truthy_str. destruct (str_eqb_spec format_id EmptyString) as [E | _];
    [contradiction |].
  cbn [negb]. unfold Spec.alternatives. rewrite split_app. reflexivity.
Qed.

Lemma format_selector_slashes_witness :
  Spec.alternatives (VideoDownloader.format_selector "137/18" "video")
  = ["137"; "18+bestaudio"; "best" ++ VideoDownloader.both_codecs;
     "best[height<=?1080]" ++ VideoDownloader.both_codecs; "best"].
Proof.
  apply (format_selector_slashes "137/18" "video"); discriminate.
Defined.

(** ** More on the direct download *)

Lemma bind_ret_l {A B : Type} (a : A) (k : A -> Py.M B) : Py.bind (Py.ret a) k = k a.
Proof. unfold Py.bind, Py.ret. now destruct (k a). Qed.

Lemma best_audio_cons r f l :
  VideoDownloader.best_audio r (f :: l)
  = if Props.audio_only f then
      match r with
      | None => VideoDownloader.best_audio (Some f) l
      | Some r0 =>
          Py.bind (VideoDownloader.gt (VideoDownloader.abr f) (VideoDownloader.abr r0))
            (fun better => VideoDownloader.best_audio (if better then Some f else r) l)
      end
    else VideoDownloader.best_audio r l.
Proof.
  cbn [VideoDownloader.best_audio]. unfold VideoDownloader.best_audio_step, Props.audio_only.
  destruct (negb _ && _);
    [| exact (bind_ret_l r (fun r' => VideoDownloader.best_audio r' l))].
  destruct r as [r0|];
    [| exact (bind_ret_l (Some f) (fun r' => VideoDownloader.best_audio r' l))].
  destruct (VideoDownloader.gt _ _) as [[b|e] lg]; [| reflexivity].
  unfold Py.bind, Py.ret. destruct (VideoDownloader.best_audio _ l) as [o lg'].
  now rewrite app_nil_r.
Qed.

Lemma gt_known (a b : Py.number) :
  VideoDownloader.gt (Some a) (Some b)
  = Py.ret (VideoDownloader.Qltb (Py.value_of b) (Py.value_of a)).
Proof. reflexivity. Qed.

Lemma best_audio_from pre r post l a :
  Props.audio_only r = true -> VideoDownloader.abr r = Some a ->
  (forall g c, In g pre -> Props.audio_only g = true ->
     VideoDownloader.abr g = Some c -> (Py.value_of c < Py.value_of a)%Q) ->
  (forall g c, In g post -> Props.audio_only g = true ->
     VideoDownloader.abr g = Some c -> (Py.value_of c <= Py.value_of a)%Q) ->
  (forall f, In f l -> Props.audio_only f = true -> VideoDownloader.abr f <> None) ->
  exists l1 best l2 b,
    (pre ++ r :: post ++ l = l1 ++ best :: l2)%list /\
    VideoDownloader.best_audio (Some r) l = Py.ret (Some best) /\
    Props.audio_only best = true /\ VideoDownloader.abr best = Some b /\
    (forall g c, In g l1 -> Props.audio_only g = true ->
       VideoDownloader.abr g = Some c -> (Py.value_of c < Py.value_of b)%Q) /\
    (forall g c, In g l2 -> Props.audio_only g = true ->
       VideoDownloader.abr g = Some c -> (Py.value_of c <= Py.value_of b)%Q).
Proof.
  revert pre r post a. induction l as [|f l IH]; intros pre r post a Hr Ha Hpre Hpost Hl.
  - exists pre, r, post, a. rewrite app_nil_r. repeat split; assumption.
  - rewrite best_audio_cons.
    assert (Hl' : forall f0, In f0 l -> Props.audio_only f0 = true ->
                             VideoDownloader.abr f0 <> None).
    { intros f0 H0. apply Hl. now right. }
    destruct (Props.audio_only f) eqn:Ef.
    + destruct (VideoDownloader.abr f) as [c|] eqn:Ec;
        [| exfalso; now apply (Hl f (or_introl eq_refl) Ef)].
      rewrite Ha, gt_known, bind_ret_l.
      destruct (VideoDownloader.Qltb (Py.value_of a) (Py.value_of c)) eqn:E.
      * apply Qltb_true in E.
        destruct (IH (pre ++ r :: post)%list f [] c Ef Ec) as (l1 & best & l2 & b & H);
          [| intros g c0 [] | exact Hl' |].
        -- intros g c0 Hg Hag Hc0. apply in_app_iff in Hg as [Hg | [<- | Hg]].
           ++ apply Qlt_trans with (Py.value_of a); [now apply (Hpre g) | exact E].
           ++ rewrite Ha in Hc0. now injection Hc0 as <-.
           ++ apply Qle_lt_trans with (Py.value_of a); [now apply (Hpost g) | exact E].
        -- exists l1, best, l2, b. destruct H as (H1 & H2).
           split; [| exact H2]. rewrite <- H1. cbn [app]. now rewrite <- app_assoc.
      * apply Qltb_false in E.
        destruct (IH pre r (post ++ [f])%list a Hr Ha Hpre) as (l1 & best & l2 & b & H);
          [| exact Hl' |].
        -- intros g c0 Hg Hag Hc0. apply in_app_iff in Hg as [Hg | [<- | []]].
           ++ now apply (Hpost g).
           ++ rewrite Ec in Hc0. now injection Hc0 as <-.
        -- exists l1, best, l2, b. destruct H as (H1 & H2).
           split; [| exact H2]. rewrite <- H1. now rewrite <- app_assoc.
    + destruct (IH pre r (post ++ [f])%list a Hr Ha Hpre) as (l1 & best & l2 & b & H);
        [| exact Hl' |].
      * intros g c0 Hg Hag Hc0. apply in_app_iff in Hg as [Hg | [<- | []]].
        -- now apply (Hpost g).
        -- rewrite Ef in Hag. discriminate.
      * exists l1, best, l2, b. destruct H as (H1 & H2).
        split; [| exact H2]. rewrite <- H1. now rewrite <- app_assoc.
Qed.

Lemma best_audio_start pre l :
  (forall g, In g pre -> Props.audio_only g = false) ->
  (forall f, In f l -> Props.audio_only f = true -> VideoDownloader.abr f <> None) ->
  (Props.audio_formats l = [] /\ VideoDownloader.best_audio None l = Py.ret None) \/
  exists l1 best l2 b,
    (pre ++ l = l1 ++ best :: l2)%list /\
    VideoDownloader.best_audio None l = Py.ret (Some best) /\
    Props.audio_only best = true /\ VideoDownloader.abr best = Some b /\
    (forall g c, In g l1 -> Props.audio_only g = true ->
       VideoDownloader.abr g = Some c -> (Py.value_of c < Py.value_of b)%Q) /\
    (forall g c, In g l2 -> Props.audio_only g = true ->
       VideoDownloader.abr g = Some c -> (Py.value_of c <= Py.value_of b)%Q).
Proof.
  revert pre. induction l as [|f l IH]; intros pre Hpre Hl.
  - left. split; reflexivity.
  - rewrite best_audio_cons. unfold Props.audio_formats. cbn [filter].
    assert (Hl' : forall f0, In f0 l -> Props.audio_only f0 = true ->
                             VideoDownloader.abr f0 <> None).
    { intros f0 H0. apply Hl. now right. }
    destruct (Props.audio_only f) eqn:Ef.
    + right. destruct (VideoDownloader.abr f) as [c|] eqn:Ec;
        [| exfalso; now apply (Hl f (or_introl eq_refl) Ef)].
      destruct (best_audio_from pre f [] l c Ef Ec) as (l1 & best & l2 & b & H);
        [| intros g c0 [] | exact Hl' | now exists l1, best, l2, b].
      intros g c0 Hg Hag. apply Hpre in Hg. rewrite Hg in Hag. discriminate.
    + destruct (IH (pre ++ [f])%list) as [H | (l1 & best & l2 & b & H1 & H2)];
        [| exact Hl' | now left |].
      * intros g Hg. apply in_app_iff in Hg as [Hg | [<- | []]]; [now apply Hpre | exact Ef].
      * right. exists l1, best, l2, b. split; [| exact H2].
        rewrite <- H1. now rewrite <- app_assoc.
Qed.

(** X9: when the audio bitrate of every audio-only format is a number, the
    search for the best audio format ends without an exception; it finds
    nothing exactly when no format is audio-only, and else it finds the
    audio-only format of the highest audio bitrate, the first one among
    equal bitrates. *)
Theorem best_audio_first_highest (formats : list VideoDownloader.raw_format) :
  (forall f, In f formats -> Props.audio_only f = true -> VideoDownloader.abr f <> None) ->
  (Props.audio_formats formats = [] /\
   VideoDownloader.best_audio None formats = Py.ret None) \/
  exists before best after b,
    formats = (before ++ best :: after)%list /\
    VideoDownloader.best_audio None formats = Py.ret (Some best) /\
    Props.audio_only best = true /\ VideoDownloader.abr best = Some b /\
    (forall g c, In g before -> Props.audio_only g = true ->
       VideoDownloader.abr g = Some c -> (Py.value_of c < Py.value_of b)%Q) /\
    (forall g c, In g after -> Props.audio_only g = true ->
       VideoDownloader.abr g = Some c -> (Py.value_of c <= Py.value_of b)%Q).
Proof. intros H. apply (best_audio_start [] formats); [intros g [] | exact H]. Qed.

Lemma best_audio_first_highest_witness :
  VideoDownloader.best_audio None Props.sample_audio_list
    = Py.ret (Some (Props.sample_audio "140" (Some (Py.Float 160)))) /\
  ((Props.audio_formats Props.sample_audio_list = [] /\
    VideoDownloader.best_audio None Props.sample_audio_list = Py.ret None) \/
   exists before best after b,
     Props.sample_audio_list = (before ++ best :: after)%list /\
     VideoDownloader.best_audio None Props.sample_audio_list = Py.ret (Some best) /\
     Props.audio_only best = true /\ VideoDownloader.abr best = Some b /\
     (forall g c, In g before -> Props.audio_only g = true ->
        VideoDownloader.abr g = Some c -> (Py.value_of c < Py.value_of b)%Q) /\
     (forall g c, In g after -> Props.audio_only g = true ->
        VideoDownloader.abr g = Some c -> (Py.value_of c <= Py.value_of b)%Q)).
Proof.
  split; [reflexivity |].
  apply (best_audio_first_highest Props.sample_audio_list).
  intros f [<- | [<- | [<- | [<- | []]]]] Ha; discriminate.
Defined.

Lemma raises_ret {A : Type} (a : A) : ~ Props.raises (Py.ret a).
Proof. intros (msg & H). discriminate H. Qed.

Lemma raises_bind_raise {A B : Type} (msg : str) (k : A -> Py.M B) :
  Props.raises (Py.bind (Py.raise msg) k).
Proof. now exists msg. Qed.

Lemma best_audio_from_raises r l :
  Props.raises (VideoDownloader.best_audio (Some r) l) <->
  Props.audio_formats l <> [] /\
  (VideoDownloader.abr r = None \/
   exists f, In f (Props.audio_formats l) /\ VideoDownloader.abr f = None).
Proof.
  revert r. induction l as [|f l IH]; intros r.
  - split; [intros H; now apply raises_ret in H | intros [H _]; now contradiction H].
  - rewrite best_audio_cons. unfold Props.audio_formats in *. cbn [filter].
    destruct (Props.audio_only f) eqn:Ef; [| apply IH].
    destruct (VideoDownloader.abr f) as [c|] eqn:Ec,
             (VideoDownloader.abr r) as [a|] eqn:Ea.
    + rewrite gt_known, bind_ret_l.
      assert (IH' : Props.raises (VideoDownloader.best_audio
                       (if VideoDownloader.Qltb (Py.value_of a) (Py.value_of c)
                        then Some f else Some r) l) <->
                    exists g, In g (filter Props.audio_only l) /\
                              VideoDownloader.abr g = None).
      { destruct (VideoDownloader.Qltb (Py.value_of a) (Py.value_of c));
          rewrite IH; [rewrite Ec | rewrite Ea].
        all: split; [intros [_ [H | H]]; [discriminate | exact H] |].
        all: intros (g & Hg & Hn); split; [| right; now exists g].
        all: intros E; rewrite E in Hg; destruct Hg. }
      rewrite IH'. split.
      * intros (g & Hg & Hn). split; [discriminate |]. right. exists g. split; [now right | exact Hn].
      * intros [_ [H | (g & [<- | Hg] & Hn)]]; [discriminate | congruence | now exists g].
    + split; [intros _ | intros _; apply raises_bind_raise].
      split; [discriminate | now left].
    + split; [intros _ | intros _; apply raises_bind_raise].
      split; [discriminate |]. right. exists f. split; [now left | exact Ec].
    + split; [intros _ | intros _; apply raises_bind_raise].
      split; [discriminate | now left].
Qed.

(** X10: the search for the best audio format raises an exception exactly
    when at least two formats are audio-only and the audio bitrate of one
    of the audio-only formats is [None]; the comparison of line 330 is then
    made with [None]. *)
Theorem best_audio_raises_iff (formats : list VideoDownloader.raw_format) :
  Props.raises (VideoDownloader.best_audio None formats) <->
  (2 <= List.length (Props.audio_formats formats))%nat /\
  exists f, In f (Props.audio_formats formats) /\ VideoDownloader.abr f = None.
Proof.
  induction formats as [|f l IH].
  - split; [intros H; now apply raises_ret in H | cbn; lia].
  - rewrite best_audio_cons. unfold Props.audio_formats in *. cbn [filter].
    destruct (Props.audio_only f) eqn:Ef; [| exact IH].
    rewrite best_audio_from_raises. unfold Props.audio_formats. cbn [List.length].
    split.
    + intros [Hne H]. split.
      * destruct (filter Props.audio_only l); [contradiction | cbn; lia].
      * destruct H as [H | (g & Hg & Hn)]; [exists f | exists g]; split; auto;
          [now left | now right].
    + intros [Hlen (g & Hg & Hn)]. split.
      * destruct (filter Props.audio_only l); [cbn in Hlen; lia | discriminate].
      * destruct Hg as [<- | Hg]; [now left | right; now exists g].
Qed.

Lemma bind_ok_inv {A B : Type} (m : Py.M A) (k : A -> Py.M B) (b : B) (lg : list str) :
  Py.bind m k = (Py.Ok b, lg) ->
  exists a l1 l2, m = (Py.Ok a, l1) /\ k a = (Py.Ok b, l2) /\ lg = (l1 ++ l2)%list.
Proof.
  destruct m as [[a|e] l1]; cbn; [| discriminate].
  destruct (k a) as [r l2] eqn:E. intros [= -> <-]. now exists a, l1, l2.
Qed.

Lemma bind_raise_inv {A B : Type} (m : Py.M A) (k : A -> Py.M B) :
  Props.raises (Py.bind m k) ->
  Props.raises m \/ exists a l1, m = (Py.Ok a, l1) /\ Props.raises (k a).
Proof.
  destruct m as [[a|e] l1]; cbn.
  - intros (msg & H). right. exists a, l1. split; [reflexivity |].
    exists msg. now destruct (k a).
  - intros _. left. now exists e.
Qed.

Lemma best_audio_in l r b lg :
  VideoDownloader.best_audio r l = (Py.Ok (Some b), lg) ->
  r = Some b \/ (In b l /\ Props.audio_only b = true).
Proof.
  revert r lg. induction l as [|f l IH]; intros r lg.
  - cbn. intros [= -> _]. now left.
  - rewrite best_audio_cons. destruct (Props.audio_only f) eqn:Ef.
    + destruct r as [r0|].
      * intros H. apply bind_ok_inv in H as (better & l1 & l2 & _ & H & _).
        apply IH in H as [H | [H1 H2]]; [| right; split; [now right | exact H2]].
        destruct better; [| now left]. injection H as <-. right. split; [now left | exact Ef].
      * intros H. apply IH in H as [H | [H1 H2]]; [| right; split; [now right | exact H2]].
        injection H as <-. right. split; [now left | exact Ef].
    + intros H. apply IH in H as [H | [H1 H2]]; [now left | right; split; [now right | exact H2]].
Qed.

Lemma try_except_returns {A : Type} (m : Py.M A) (h : str -> Py.M A) :
  (forall e, exists r lg, h e = (Py.Ok r, lg)) ->
  exists r lg, Py.try_except m h = (Py.Ok r, lg).
Proof.
  intros Hh. destruct m as [[a|e] l]; cbn; [now eauto |].
  destruct (Hh e) as (r & lg & ->). eauto.
Qed.

Section DirectUrl.

Context {U : Py.Unicode}.

Lemma get_direct_download_url_returns extract url format_id download_type :
  exists r lg,
    VideoDownloader.get_direct_download_url extract url format_id download_type
    = (Py.Ok r, lg).
Proof.
  unfold VideoDownloader.get_direct_download_url.
  destruct (Py.eq_str download_type "video"); [do 2 eexists; reflexivity |].
  apply try_except_returns. intros e. do 2 eexists. reflexivity.
Qed.

(** X11: [get_direct_download_url] never raises: whatever the extractor
    does, a result comes back.  An exception of the extractor comes back as
    a failure whose text is the text of the exception after
    [Failed to get download URL: ], and is logged; the same holds for the
    exception of the search for the best audio format. *)
Theorem get_direct_download_url_never_raises :
  (forall extract url format_id download_type,
     exists r lg,
       VideoDownloader.get_direct_download_url extract url format_id download_type
       = (Py.Ok r, lg)) /\
  (forall extract url format_id download_type msg lg,
     Py.eq_str download_type "video" = false ->
     extract url = (Py.Raise msg, lg) ->
     VideoDownloader.get_direct_download_url extract url format_id download_type
     = (Py.Ok (VideoDownloader.Failure ("Failed to get download URL: " ++ msg)),
        (lg ++ [("Error getting direct download URL: " ++ msg)%str])%list)) /\
  (forall extract url format_id download_type info v lg,
     Py.eq_str download_type "video" = false ->
     extract url = (Py.Ok (Some info), lg) ->
     Props.first_video info = Some v ->
     Props.raises (VideoDownloader.best_audio None (VideoDownloader.formats v)) ->
     exists msg lg',
       VideoDownloader.get_direct_download_url extract url format_id download_type
       = (Py.Ok (VideoDownloader.Failure ("Failed to get download URL: " ++ msg)),
          (lg' ++ [("Error getting direct download URL: " ++ msg)%str])%list)).
Proof.
  split; [exact get_direct_download_url_returns |]. split.
  - intros extract url fid dt msg lg Hdt He.
    unfold VideoDownloader.get_direct_download_url. now rewrite Hdt, He.
  - intros extract url fid dt info v lg Hdt He Hv (msg & Hr).
    unfold VideoDownloader.get_direct_download_url. rewrite Hdt, He.
    assert (E : match info with
                | VideoDownloader.Single v0 => Some v0
                | VideoDownloader.Playlist [] => None
                | VideoDownloader.Playlist (first :: _) => first
                end = Some v) by exact Hv.
    cbn [Py.bind]. rewrite E.
    destruct (VideoDownloader.best_audio None (VideoDownloader.formats v))
      as [[r|e] l1] eqn:Eb; [discriminate Hr |].
    cbn in Hr. injection Hr as ->. cbn. exists msg. eexists. reflexivity.
Qed.

Lemma safe_title_length (t : str) :
  (Str.length (VideoDownloader.safe_title t) <= 50)%nat.
Proof. unfold VideoDownloader.safe_title. apply take_length. Qed.

(** X12: a success of [get_direct_download_url] comes from a request whose
    download type is not ['video'] and from an audio-only format of the
    extracted video, of the first entry for a playlist: the URL handed out
    is the non-empty URL of that format, the size and the quality note are
    its own, and the file name is the safe title, at most 50 letters,
    digits and underscores, followed by [.mp3]. *)
Theorem get_direct_download_url_success extract url format_id download_type
  download_url filename filesize quality lg :
  VideoDownloader.get_direct_download_url extract url format_id download_type
  = (Py.Ok (VideoDownloader.Success download_url filename filesize quality), lg) ->
  Py.eq_str download_type "video" = false /\
  download_url <> EmptyString /\
  exists info v fmt stem,
    fst (extract url) = Py.Ok (Some info) /\
    Props.first_video info = Some v /\
    In fmt (VideoDownloader.formats v) /\
    Props.audio_only fmt = true /\
    VideoDownloader.url fmt = Some download_url /\
    filesize = VideoDownloader.filesize fmt /\
    quality = VideoDownloader.format_note fmt /\
    stem = VideoDownloader.safe_title (VideoDownloader.title v) /\
    filename = stem ++ ".mp3" /\
    Spec.all_chars Py.is_word stem = true /\
    (Str.length stem <= 50)%nat.
Proof.
  unfold VideoDownloader.get_direct_download_url.
  destruct (Py.eq_str download_type "video"); [discriminate |].
  intros H. split; [reflexivity |].
  match type of H with Py.try_except ?m _ = _ => destruct m as [[r|e] l0] eqn:Em end;
    [| discriminate H].
  cbn in H. injection H as -> ->.
  apply bind_ok_inv in Em as (info & l1 & l2 & He & Hk & _).
  destruct info as [info|]; [| discriminate Hk].
  destruct (Props.first_video info) as [v|] eqn:Ev.
  - assert (E : match info with
                | VideoDownloader.Single v0 => Some v0
                | VideoDownloader.Playlist [] => None
                | VideoDownloader.Playlist (first :: _) => first
                end = Some v) by exact Ev.
    rewrite E in Hk.
    apply bind_ok_inv in Hk as (rf & l3 & l4 & Hb & Hk & _).
    destruct rf as [fmt|]; [| discriminate Hk].
    destruct (VideoDownloader.url fmt) as [u|] eqn:Eu; [| discriminate Hk].
    unfold Py.truthy_str in Hk.
    destruct (str_eqb_spec u EmptyString) as [Eq | Hne]; [discriminate Hk |].
    cbn in Hk. injection Hk as <- <- <- <-.
    split; [exact Hne |].
    apply best_audio_in in Hb as [Hb | [Hin Ha]]; [discriminate Hb |].
    exists info, v, fmt, (VideoDownloader.safe_title (VideoDownloader.title v)).
    rewrite He. repeat split; try assumption; try reflexivity.
    + apply safe_title_word_chars.
    + apply safe_title_length.
  - assert (E : match info with
                | VideoDownloader.Single v0 => Some v0
                | VideoDownloader.Playlist [] => None
                | VideoDownloader.Playlist (first :: _) => first
                end = None) by exact Ev.
    rewrite E in Hk. discriminate Hk.
Qed.

End DirectUrl.

Lemma get_direct_download_url_success_witness :
  Py.eq_str (Py.VStr "audio") "video" = false /\
  "https://cdn.example/a.m4a" <> EmptyString /\
  exists info v fmt stem,
    fst (Spec.extract_one_audio "https://youtu.be/abc") = Py.Ok (Some info) /\
    Props.first_video info = Some v /\
    In fmt (VideoDownloader.formats v) /\
    Props.audio_only fmt = true /\
    VideoDownloader.url fmt = Some "https://cdn.example/a.m4a" /\
    Some 4096 = VideoDownloader.filesize fmt /\
    "medium" = VideoDownloader.format_note fmt /\
    stem = VideoDownloader.safe_title (U := Props.sample_unicode)
             (VideoDownloader.title v) /\
    "Amazing_Video_2024.mp3" = stem ++ ".mp3" /\
    Spec.all_chars (Py.is_word (U := Props.sample_unicode)) stem = true /\
    (Str.length stem <= 50)%nat.
Proof.
  apply (get_direct_download_url_success (U := Props.sample_unicode)
           Spec.extract_one_audio "https://youtu.be/abc"
           (Py.VStr "140") (Py.VStr "audio") _ _ _ _ []).
  reflexivity.
Defined.

Section DownloadRoute.

Context {U : Py.Unicode}.

(** X13: the route [/download] always answers, with status 200, 400 or
    500, and it answers 500 exactly when the body is not a dictionary or
    its [url] is not a text: nothing that the extractor does leads to a
    500 on this route. *)
Theorem download_route_status extract data :
  exists resp lg,
    App.download_video extract data = (Py.Ok resp, lg) /\
    (App.status resp = 200 \/ App.status resp = 400 \/ App.status resp = 500) /\
    (App.status resp = 500 <->
     ~ exists d, data = Py.VDict d /\ Spec.url_is_text d).
Proof.
  assert (Hno : forall d, data = Py.VDict d -> ~ Spec.url_is_text d ->
                ~ exists d', data = Py.VDict d' /\ Spec.url_is_text d').
  { intros d -> Hn (d' & [= <-] & H). now apply Hn. }
  destruct data as [| b | n | s | l | d];
    try (do 2 eexists; split; [reflexivity |]; split; [now auto |];
         split; [intros _ (d & Hd & _); discriminate Hd | reflexivity]).
  unfold App.download_video, Py.get.
  assert (Hok : forall resp : App.response, Spec.url_is_text d ->
                App.status resp <> 500 ->
                (App.status resp = 500 <->
                 ~ exists d', Py.VDict d = Py.VDict d' /\ Spec.url_is_text d')).
  { intros resp Hu Hs. split; [contradiction |]. intros Hn. exfalso. apply Hn. now exists d. }
  destruct (Py.lookup "url" d) as [v|] eqn:Eu.
  - destruct v as [| b | n | u | l | dd];
      try (do 2 eexists; split; [reflexivity |]; split; [now auto |];
           split; [intros _; apply (Hno d eq_refl); unfold Spec.url_is_text;
                   rewrite Eu; intros [H | (u0 & H)]; discriminate H
                  | reflexivity]).
    assert (Hu : Spec.url_is_text d)
      by (unfold Spec.url_is_text; rewrite Eu; right; now exists u).
    cbn [Py.strip_value Py.bind Py.ret app].
    assert (Hf : exists f, match Py.lookup "format_id" d with
                           | Some x => Py.ret x
                           | None => Py.ret (Py.VStr EmptyString)
                           end = Py.ret f).
    { destruct (Py.lookup "format_id" d); now eauto. }
    destruct Hf as (f & ->).
    assert (Ht : exists t, match Py.lookup "download_type" d with
                           | Some x => Py.ret x
                           | None => Py.ret (Py.VStr "video")
                           end = Py.ret t).
    { destruct (Py.lookup "download_type" d); now eauto. }
    destruct Ht as (t & ->).
    cbn [Py.bind Py.ret app].
    destruct (negb (Py.truthy_str (Py.strip u)) || negb (Py.truthy f)).
    { do 2 eexists. split; [reflexivity |]. split; [now auto |].
      apply Hok; [exact Hu | discriminate]. }
    destruct (negb (VideoDownloader.is_valid_youtube_url (Py.strip u))).
    { do 2 eexists. split; [reflexivity |]. split; [now auto |].
      apply Hok; [exact Hu | discriminate]. }
    destruct (get_direct_download_url_returns extract (Py.strip u) f t) as (r & lg & ->).
    destruct r as [err | du fn sz q]; cbn.
    + do 2 eexists. split; [reflexivity |]. split; [now auto |].
      apply Hok; [exact Hu | discriminate].
    + do 2 eexists. split; [reflexivity |]. split; [now auto |].
      apply Hok; [exact Hu | discriminate].
  - assert (Hu : Spec.url_is_text d) by (unfold Spec.url_is_text; rewrite Eu; now left).
    cbn [Py.strip_value Py.bind Py.ret app].
    destruct (Py.lookup "format_id" d); destruct (Py.lookup "download_type" d);
      cbn; do 2 eexists; (split; [reflexivity |]); (split; [now auto |]);
      (apply Hok; [exact Hu | discriminate]).
Qed.

End DownloadRoute.

(** ** [download_video]: the progress hook *)

Lemma min_99_le (p : Q) : (Downloader.min_99 p <= 99)%Q.
Proof.
  unfold Downloader.min_99. destruct (VideoDownloader.Qltb 99 p) eqn:E.
  - apply Qle_refl.
  - now apply Qltb_false in E.
Qed.

(** X14: the progress hook passes at most one percentage to the callback,
    and never more than 99, so that the 100 sent after the download is the
    only one; it passes nothing without a callback or for a report whose
    status is not ['downloading']; and once the whole size is downloaded the
    percentage passed is 99. *)
Theorem progress_hook_reports (progress_callback : bool) (d : Downloader.progress)
  (reported : list Q) :
  Downloader.progress_hook progress_callback d = Some reported ->
  (List.length reported <= 1)%nat /\
  (forall p, In p reported -> (p <= 99)%Q) /\
  (reported <> [] ->
   progress_callback = true /\ Downloader.status d = "downloading") /\
  (forall total downloaded,
     progress_callback = true -> Downloader.status d = "downloading" ->
     Downloader.total_bytes d = Some total -> (0 < total)%Q ->
     Downloader.downloaded_bytes d = Some downloaded -> (total <= downloaded)%Q ->
     reported = [99%Q]).
Proof.
  unfold Downloader.progress_hook. intros H.
  destruct progress_callback; cbn [andb] in H.
  2:{ injection H as <-. repeat split; cbn; try lia; try contradiction; discriminate. }
  destruct (str_eqb_spec (Downloader.status d) "downloading") as [Es | Es].
  2:{ injection H as <-. repeat split; cbn; try lia; contradiction. }
  split; [| split; [| split]].
  - destruct (if Downloader.truthy_opt_Q _ then _ else _) as [t|]; [| discriminate H].
    destruct (VideoDownloader.Qltb 0 t); [| injection H as <-; cbn; lia].
    destruct (Downloader.downloaded_bytes d); [| discriminate H].
    injection H as <-. cbn. lia.
  - destruct (if Downloader.truthy_opt_Q _ then _ else _) as [t|]; [| discriminate H].
    destruct (VideoDownloader.Qltb 0 t); [| injection H as <-; intros p []].
    destruct (Downloader.downloaded_bytes d); [| discriminate H].
    injection H as <-. intros p [<- | []]. apply min_99_le.
  - intros _. now split.
  - intros total downloaded _ _ Et Hpos Ed Hge. rewrite Et, Ed in H.
    assert (Etr : Downloader.truthy_opt_Q (Some total) = true).
    { unfold Downloader.truthy_opt_Q, Py.truthy_Q.
      destruct (Qeq_bool total 0) eqn:E; [| reflexivity].
      apply Qeq_bool_iff in E. rewrite E in Hpos. now apply Qlt_irrefl in Hpos. }
    rewrite Etr in H. apply Qltb_true in Hpos as Hb. rewrite Hb in H.
    injection H as <-. unfold Downloader.min_99.
    assert (Hlt : (99 < downloaded / total * 100)%Q).
    { apply Qlt_le_trans with (1 * 100)%Q; [reflexivity |].
      apply Qmult_le_compat_r; [| discriminate].
      apply Qle_shift_div_l; [exact Hpos | now rewrite Qmult_1_l]. }
    apply Qltb_true in Hlt. now rewrite Hlt.
Qed.

Lemma progress_hook_reports_witness :
  Downloader.progress_hook true Props.sample_progress = Some [99%Q] /\
  (List.length [99%Q] <= 1)%nat /\
  (forall p, In p [99%Q] -> (p <= 99)%Q).
Proof.
  split; [reflexivity |].
  destruct (progress_hook_reports true Props.sample_progress [99%Q] eq_refl)
    as (H1 & H2 & _).
  split; assumption.
Defined.

(** X15: without a callback the progress hook does nothing and never
    raises, whatever the report holds; with a callback, a report in status
    ['downloading'] for which the library knows no total size - [total_bytes]
    is [None] or zero and [total_bytes_estimate] is [None] - makes the hook
    raise. *)
Theorem progress_hook_unknown_total :
  (forall d, Downloader.progress_hook false d = Some []) /\
  (forall d,
     Downloader.status d = "downloading" ->
     Downloader.truthy_opt_Q (Downloader.total_bytes d) = false ->
     Downloader.total_bytes_estimate d = None ->
     Downloader.progress_hook true d = None) /\
  Downloader.progress_hook true Props.sample_progress_unknown = None.
Proof.
  split; [reflexivity |]. split; [| reflexivity].
  intros d Hs Ht He. unfold Downloader.progress_hook.
  rewrite Hs, Ht, He. reflexivity.
Qed.

(** ** [download_video]: the search for the downloaded file *)

Lemma insert_desc_in (x y : Q * str) (l : list (Q * str)) :
  In y (Downloader.insert_desc x l) <-> y = x \/ In y l.
Proof.
  induction l as [|z l IH]; cbn.
  - intuition congruence.
  - destruct (VideoDownloader.Qltb _ _); cbn; [rewrite IH |]; intuition congruence.
Qed.

Lemma sort_reverse_in (y : Q * str) (l : list (Q * str)) :
  In y (Downloader.sort_reverse l) <-> In y l.
Proof.
  induction l as [|x l IH]; cbn; [tauto |].
  rewrite insert_desc_in, IH. intuition congruence.
Qed.

Lemma insert_desc_hd (d x : Q * str) (l : list (Q * str)) :
  let h := hd d (Downloader.insert_desc x l) in
  (h = x \/ (l <> [] /\ h = hd d l)) /\
  (fst x <= fst h)%Q /\
  (l <> [] -> (fst (hd d l) <= fst h)%Q).
Proof.
  destruct l as [|y l]; cbn.
  - split; [now left |]. split; [apply Qle_refl | intros H; now contradiction H].
  - destruct (VideoDownloader.Qltb (fst x) (fst y)) eqn:E; cbn.
    + apply Qltb_true in E. split; [right; split; [discriminate | reflexivity] |].
      split; [now apply Qlt_le_weak | intros _; apply Qle_refl].
    + apply Qltb_false in E. split; [now left |].
      split; [apply Qle_refl | intros _; exact E].
Qed.

Lemma sort_reverse_nonempty (l : list (Q * str)) :
  l <> [] -> Downloader.sort_reverse l <> [].
Proof.
  destruct l as [|a l]; [intros H; now contradiction H |]. intros _ E.
  pose proof (proj2 (sort_reverse_in a (a :: l)) (or_introl eq_refl)) as H.
  rewrite E in H. destruct H.
Qed.

(** The head of the sorted list is an element of the list, of the greatest
    key. *)
Lemma sort_reverse_hd (d : Q * str) (l : list (Q * str)) :
  l <> [] ->
  In (hd d (Downloader.sort_reverse l)) l /\
  forall x, In x l -> (fst x <= fst (hd d (Downloader.sort_reverse l)))%Q.
Proof.
  induction l as [|a l IH]; [intros H; now contradiction H |]. intros _.
  cbn [Downloader.sort_reverse fold_right].
  fold (Downloader.sort_reverse l).
  destruct (insert_desc_hd d a (Downloader.sort_reverse l)) as (Hh & Ha & Hs).
  cbv zeta in Hh, Ha, Hs.
  destruct l as [|b l].
  - cbn. split; [now left |]. intros x [<- | []]. apply Qle_refl.
  - destruct (IH ltac:(discriminate)) as (IH1 & IH2).
    assert (Hne : Downloader.sort_reverse (b :: l) <> [])
      by (apply sort_reverse_nonempty; discriminate).
    split.
    + destruct Hh as [-> | [_ ->]]; [now left | now right].
    + intros x [<- | Hx]; [exact Ha |].
      apply Qle_trans with (2 := Hs Hne). now apply IH2.
Qed.

Lemma max_by_spec (best : Q * str) (rest : list (Q * str)) :
  In (Downloader.max_by best rest) (best :: rest) /\
  forall x, In x (best :: rest) -> (fst x <= fst (Downloader.max_by best rest))%Q.
Proof.
  revert best. induction rest as [|y rest IH]; intros best.
  - cbn. split; [now left |]. intros x [<- | []]. apply Qle_refl.
  - cbn [Downloader.max_by].
    destruct (VideoDownloader.Qltb (fst best) (fst y)) eqn:E.
    + apply Qltb_true in E. destruct (IH y) as (H1 & H2). split.
      * right. exact H1.
      * intros x [<- | Hx]; [| now apply H2].
        apply Qle_trans with (fst y); [now apply Qlt_le_weak | apply H2; now left].
    + apply Qltb_false in E. destruct (IH best) as (H1 & H2). split.
      * destruct H1 as [H1 | H1]; [now left | right; now right].
      * intros x [<- | [<- | Hx]]; [apply H2; now left | | apply H2; now right].
        apply Qle_trans with (fst best); [exact E | apply H2; now left].
Qed.

Lemma not_gitkeep (f : str) :
  negb (f =? ".gitkeep")%str = true <-> f <> ".gitkeep".
Proof.
  rewrite negb_true_iff. destruct (str_eqb_spec f ".gitkeep"); split; congruence.
Qed.

Lemma filter_nil_iff {A : Type} (p : A -> bool) (l : list A) :
  filter p l = [] <-> forall x, In x l -> p x = false.
Proof.
  induction l as [|a l IH]; cbn; [tauto |].
  destruct (p a) eqn:E.
  - split; [discriminate |]. intros H. specialize (H a (or_introl eq_refl)). congruence.
  - rewrite IH. split; [intros H x [<- | Hx]; auto | intros H x Hx; apply H; now right].
Qed.

Lemma bind_raise_msg_inv {A B : Type} (m : Py.M A) (k : A -> Py.M B) msg lg :
  Py.bind m k = (Py.Raise msg, lg) ->
  m = (Py.Raise msg, lg) \/
  exists a l1 l2, m = (Py.Ok a, l1) /\ k a = (Py.Raise msg, l2).
Proof.
  destruct m as [[a|e] l1]; cbn.
  - destruct (k a) as [r l2] eqn:E. intros [= -> <-]. right. now exists a, l1, l2.
  - intros [= -> ->]. now left.
Qed.

Lemma bind_ok {A B : Type} (m : Py.M A) (k : A -> Py.M B) a l1 :
  m = (Py.Ok a, l1) -> Py.bind m k = (fst (k a), (l1 ++ snd (k a))%list).
Proof. intros ->. cbn. now destruct (k a). Qed.

Lemma bind_raise {A B : Type} (m : Py.M A) (k : A -> Py.M B) msg l1 :
  m = (Py.Raise msg, l1) -> Py.bind m k = (Py.Raise msg, l1).
Proof. now intros ->. Qed.

Section Directory.

Variable listdir : list str.
Variable isfile : str -> bool.
Variable getctime : str -> Py.M Q.
Variable current_time : Q.

#[local] Abbreviation recent := (Props.recent_file isfile getctime current_time).
#[local] Abbreviation ctime := (Props.ctime getctime).

Lemma ctime_of_ok x t lg :
  Downloader.ctime_of getctime x = (Py.Ok t, lg) -> ctime x = Some t.
Proof. unfold Props.ctime, Downloader.ctime_of. now intros ->. Qed.

Lemma ctime_of_raise x msg lg :
  Downloader.ctime_of getctime x = (Py.Raise msg, lg) ->
  fst (getctime (Os.path_join Downloader.downloads_dir x)) = Py.Raise msg /\
  ctime x = None.
Proof. unfold Props.ctime, Downloader.ctime_of. now intros ->. Qed.

Lemma ctime_some x t :
  ctime x = Some t -> exists lg, Downloader.ctime_of getctime x = (Py.Ok t, lg).
Proof.
  unfold Props.ctime, Downloader.ctime_of.
  destruct (getctime _) as [[t'|e] lg]; cbn; [| discriminate].
  intros [= ->]. now exists lg.
Qed.

Lemma ctime_none x :
  ctime x = None -> exists msg lg, Downloader.ctime_of getctime x = (Py.Raise msg, lg).
Proof.
  unfold Props.ctime, Downloader.ctime_of.
  destruct (getctime _) as [[t'|e] lg]; cbn; [discriminate |].
  intros _. now exists e, lg.
Qed.

(** One turn of the loop over the directory. *)
Lemma recent_files_cons file rest :
  Downloader.recent_files isfile getctime current_time (file :: rest)
  = if negb (file =? ".gitkeep")%str
       && isfile (Os.path_join Downloader.downloads_dir file)
    then
      Py.bind (Downloader.ctime_of getctime file) (fun t =>
        Py.bind (Downloader.recent_files isfile getctime current_time rest)
          (fun files =>
             Py.ret (if VideoDownloader.Qltb (current_time - t) 120
                     then file :: files else files)))
    else Downloader.recent_files isfile getctime current_time rest.
Proof.
  cbn [Downloader.recent_files]. destruct (file =? ".gitkeep")%str; [reflexivity |].
  now destruct (isfile _).
Qed.

Lemma recent_skipped file :
  negb (file =? ".gitkeep")%str
    && isfile (Os.path_join Downloader.downloads_dir file) = false ->
  recent file = false.
Proof. unfold Props.recent_file. now intros ->. Qed.

Lemma recent_examined file t :
  negb (file =? ".gitkeep")%str
    && isfile (Os.path_join Downloader.downloads_dir file) = true ->
  ctime file = Some t ->
  recent file = VideoDownloader.Qltb (current_time - t) 120.
Proof.
  unfold Props.recent_file. intros -> E. now rewrite E.
Qed.

(** When the loop ends, it has kept the recent files, and the creation time
    of every regular file was read. *)
Lemma recent_files_ok l files lg :
  Downloader.recent_files isfile getctime current_time l = (Py.Ok files, lg) ->
  files = filter recent l /\
  forall g, In g l -> g <> ".gitkeep" ->
    isfile (Os.path_join Downloader.downloads_dir g) = true -> ctime g <> None.
Proof.
  revert files lg. induction l as [|file rest IH]; intros files lg.
  - cbn. intros [= <- _]. split; [reflexivity | intros g []].
  - rewrite recent_files_cons.
    destruct (negb (file =? ".gitkeep")%str && isfile _) eqn:E.
    + intros H. apply bind_ok_inv in H as (t & l1 & l2 & Ht & H & _).
      apply bind_ok_inv in H as (fs & l3 & l4 & Hfs & H & _).
      injection H as <- _. apply ctime_of_ok in Ht.
      destruct (IH fs l3 Hfs) as (-> & Hall). split.
      * cbn [filter]. rewrite (recent_examined file t E Ht).
        now destruct (VideoDownloader.Qltb _ _).
      * intros g [<- | Hg] Hn Hf; [congruence | now apply Hall].
    + intros H. destruct (IH files lg H) as (-> & Hall). split.
      * cbn [filter]. now rewrite (recent_skipped file E).
      * intros g [<- | Hg] Hn Hf; [| now apply Hall].
        apply not_gitkeep in Hn. rewrite Hn, Hf in E. discriminate.
Qed.

(** When the loop raises, [os.path.getctime] raised on a regular file. *)
Lemma recent_files_raise l msg lg :
  Downloader.recent_files isfile getctime current_time l = (Py.Raise msg, lg) ->
  exists g, In g l /\ g <> ".gitkeep" /\
    isfile (Os.path_join Downloader.downloads_dir g) = true /\
    fst (getctime (Os.path_join Downloader.downloads_dir g)) = Py.Raise msg.
Proof.
  revert lg. induction l as [|file rest IH]; intros lg.
  - discriminate.
  - rewrite recent_files_cons.
    destruct (negb (file =? ".gitkeep")%str && isfile _) eqn:E.
    + apply andb_true_iff in E as [En Ef]. apply not_gitkeep in En.
      intros H. apply bind_raise_msg_inv in H as [H | (t & l1 & l2 & _ & H)].
      * apply ctime_of_raise in H as [H _]. exists file. split; [now left | auto].
      * apply bind_raise_msg_inv in H as [H | (fs & l3 & l4 & _ & H)];
          [| discriminate H].
        destruct (IH _ H) as (g & Hg & Hrest). exists g. split; [now right | exact Hrest].
    + intros H. destruct (IH _ H) as (g & Hg & Hrest).
      exists g. split; [now right | exact Hrest].
Qed.

(** The loop ends when the creation time of every regular file can be
    read, and raises otherwise. *)
Lemma recent_files_total (l : list str) :
  (forall g, In g l -> g <> ".gitkeep" ->
     isfile (Os.path_join Downloader.downloads_dir g) = true -> ctime g <> None) ->
  exists files lg,
    Downloader.recent_files isfile getctime current_time l = (Py.Ok files, lg).
Proof.
  induction l as [|file rest IH]; intros H.
  - now exists [], [].
  - destruct IH as (fs & l3 & Hfs); [intros g Hg; apply H; now right |].
    rewrite recent_files_cons.
    destruct (negb (file =? ".gitkeep")%str && isfile _) eqn:E; [| now exists fs, l3].
    apply andb_true_iff in E as [En Ef]. apply not_gitkeep in En.
    destruct (ctime file) as [t|] eqn:Et;
      [| now contradiction (H file (or_introl eq_refl) En Ef)].
    destruct (ctime_some file t Et) as (l1 & Hc).
    rewrite (bind_ok _ _ t l1 Hc), (bind_ok _ _ fs l3 Hfs). cbn. eauto.
Qed.

Lemma recent_files_raises (l : list str) (g : str) :
  In g l -> g <> ".gitkeep" ->
  isfile (Os.path_join Downloader.downloads_dir g) = true -> ctime g = None ->
  exists msg lg,
    Downloader.recent_files isfile getctime current_time l = (Py.Raise msg, lg).
Proof.
  intros Hg Hn Hf Hc. induction l as [|file rest IH]; [destruct Hg |].
  rewrite recent_files_cons.
  destruct (negb (file =? ".gitkeep")%str && isfile _) eqn:E.
  - destruct (ctime file) as [t|] eqn:Et.
    + destruct Hg as [-> | Hg]; [congruence |].
      destruct (IH Hg) as (msg & lg & Hr).
      destruct (ctime_some file t Et) as (l1 & Ht).
      rewrite (bind_ok _ _ t l1 Ht), (bind_raise _ _ msg lg Hr). cbn. eauto.
    + destruct (ctime_none file Et) as (msg & lg & Hr).
      rewrite (bind_raise _ _ msg lg Hr). eauto.
  - destruct Hg as [-> | Hg]; [| now apply IH].
    apply not_gitkeep in Hn. rewrite Hn, Hf in E. discriminate.
Qed.

(** The names with their keys: the creation time of each. *)
Lemma with_ctime_ok l keyed lg :
  Downloader.with_ctime getctime l = (Py.Ok keyed, lg) ->
  map snd keyed = l /\ forall p, In p keyed -> ctime (snd p) = Some (fst p).
Proof.
  revert keyed lg. induction l as [|x rest IH]; intros keyed lg; cbn [Downloader.with_ctime].
  - intros [= <- _]. split; [reflexivity | intros p []].
  - intros H. apply bind_ok_inv in H as (t & l1 & l2 & Ht & H & _).
    apply bind_ok_inv in H as (kl & l3 & l4 & Hkl & H & _).
    injection H as <- _. apply ctime_of_ok in Ht.
    destruct (IH kl l3 Hkl) as (E & Hall). split; [cbn; now rewrite E |].
    intros p [<- | Hp]; [exact Ht | now apply Hall].
Qed.

Lemma with_ctime_raise l msg lg :
  Downloader.with_ctime getctime l = (Py.Raise msg, lg) ->
  exists g, In g l /\
    fst (getctime (Os.path_join Downloader.downloads_dir g)) = Py.Raise msg.
Proof.
  revert lg. induction l as [|x rest IH]; intros lg; cbn [Downloader.with_ctime].
  - discriminate.
  - intros H. apply bind_raise_msg_inv in H as [H | (t & l1 & l2 & _ & H)].
    + apply ctime_of_raise in H as [H _]. exists x. split; [now left | exact H].
    + apply bind_raise_msg_inv in H as [H | (kl & l3 & l4 & _ & H)]; [| discriminate H].
      destruct (IH _ H) as (g & Hg & Hr). exists g. split; [now right | exact Hr].
Qed.

Lemma with_ctime_total (l : list str) :
  (forall g, In g l -> ctime g <> None) ->
  exists keyed lg, Downloader.with_ctime getctime l = (Py.Ok keyed, lg).
Proof.
  induction l as [|x rest IH]; intros H; cbn [Downloader.with_ctime].
  - now exists [], [].
  - destruct IH as (kl & l3 & Hkl); [intros g Hg; apply H; now right |].
    destruct (ctime x) as [t|] eqn:Et; [| now contradiction (H x (or_introl eq_refl))].
    destruct (ctime_some x t Et) as (l1 & Hc).
    rewrite (bind_ok _ _ t l1 Hc), (bind_ok _ _ kl l3 Hkl). cbn. eauto.
Qed.

Lemma recent_has_ctime g : recent g = true -> ctime g <> None.
Proof.
  unfold Props.recent_file.
  destruct (ctime g); [discriminate |]. now rewrite andb_false_r.
Qed.

(** The three ways in which the search ends. *)
Lemma find_downloaded_file_cases :
  let find := Downloader.find_downloaded_file listdir isfile getctime current_time in
  let all_files := filter (fun f => negb (f =? ".gitkeep")%str) listdir in
  (exists msg lg g,
     find = (Py.Raise msg, lg) /\ In g listdir /\ g <> ".gitkeep" /\
     fst (getctime (Os.path_join Downloader.downloads_dir g)) = Py.Raise msg) \/
  (exists lg, find = (Py.Ok (App.NotDownloaded "No downloaded file found in directory"), lg) /\
     all_files = []) \/
  (exists lg keyed top,
     find = (Py.Ok (App.Downloaded (snd top)
                      (Os.path_join Downloader.downloads_dir (snd top))), lg) /\
     In top keyed /\
     (forall p, In p keyed -> ctime (snd p) = Some (fst p) /\ (fst p <= fst top)%Q) /\
     (forall g, In g listdir -> g <> ".gitkeep" ->
        isfile (Os.path_join Downloader.downloads_dir g) = true -> ctime g <> None) /\
     ((map snd keyed = filter recent listdir /\ filter recent listdir <> []) \/
      (map snd keyed = all_files /\ filter recent listdir = []))).
Proof.
  intros find all_files. subst find. unfold Downloader.find_downloaded_file.
  fold all_files.
  destruct (Downloader.recent_files isfile getctime current_time listdir)
    as [[files|msg] l0] eqn:Er.
  2:{ left. destruct (recent_files_raise _ _ _ Er) as (g & Hg & Hn & _ & Hr).
      exists msg, l0, g. rewrite (bind_raise _ _ msg l0 eq_refl). auto. }
  destruct (recent_files_ok _ _ _ Er) as (Efiles & Hread).
  rewrite (bind_ok _ _ files l0 eq_refl). cbv beta.
  destruct files as [|r0 rs]; cbv beta iota.
  - destruct all_files as [|first rest] eqn:Ea.
    { right. left. eexists. split; [reflexivity | reflexivity]. }
    destruct (Downloader.ctime_of getctime first) as [[t|msg] l1] eqn:Et.
    2:{ left. exists msg. eexists. exists first.
        rewrite (bind_raise _ _ msg l1 eq_refl). cbn [fst snd]. split; [reflexivity |].
        assert (Hin : In first all_files) by (rewrite Ea; now left).
        apply filter_In in Hin as [Hin Hn]. apply not_gitkeep in Hn.
        apply ctime_of_raise in Et as [Et _]. auto. }
    rewrite (bind_ok _ _ t l1 eq_refl). cbv beta.
    destruct (Downloader.with_ctime getctime rest) as [[keyed|msg] l2] eqn:Ek.
    2:{ left. destruct (with_ctime_raise _ _ _ Ek) as (g & Hg & Hr).
        exists msg. eexists. exists g.
        rewrite (bind_raise _ _ msg l2 eq_refl). cbn [fst snd]. split; [reflexivity |].
        assert (Hin : In g all_files) by (rewrite Ea; now right).
        apply filter_In in Hin as [Hin Hn]. apply not_gitkeep in Hn. auto. }
    rewrite (bind_ok _ _ keyed l2 eq_refl). cbn [fst snd Py.ret].
    right. right.
    destruct (with_ctime_ok _ _ _ Ek) as (Em & Hk).
    destruct (max_by_spec (t, first) keyed) as (Hin & Hmax).
    eexists. exists ((t, first) :: keyed), (Downloader.max_by (t, first) keyed).
    split; [reflexivity |]. split; [exact Hin |]. split; [| split; [exact Hread |]].
    + intros p Hp. split; [| now apply Hmax].
      destruct Hp as [<- | Hp]; [now apply (ctime_of_ok first t l1) | now apply Hk].
    + right. split; [cbn [map snd]; now rewrite Em | now symmetry].
  - destruct (with_ctime_total (r0 :: rs)) as (keyed & l2 & Ek).
    { intros g Hg. apply recent_has_ctime. rewrite Efiles in Hg.
      now apply filter_In in Hg as [_ Hg]. }
    rewrite (bind_ok _ _ keyed l2 Ek). cbn [fst snd Py.ret].
    right. right.
    destruct (with_ctime_ok _ _ _ Ek) as (Em & Hk).
    assert (Hne : keyed <> []) by (intros ->; discriminate Em).
    destruct (sort_reverse_hd (0%Q, EmptyString) keyed Hne) as (Hin & Hmax).
    eexists. exists keyed, (hd (0%Q, EmptyString) (Downloader.sort_reverse keyed)).
    split; [reflexivity |]. split; [exact Hin |]. split; [| split; [exact Hread |]].
    + intros p Hp. split; [now apply Hk | now apply Hmax].
    + left. rewrite <- Efiles. split; [exact Em | discriminate].
Qed.

End Directory.

(** X16: the file that the search reports is an entry of the download
    directory other than [.gitkeep], with its path under [downloads]; no
    regular file of the directory other than [.gitkeep] was created after
    it; and when some regular file is less than 120 seconds old the file
    reported is one of those.  Nothing ties it to the title or to the
    request. *)
Theorem find_downloaded_file_latest listdir isfile getctime current_time filename path :
  fst (Downloader.find_downloaded_file listdir isfile getctime current_time)
    = Py.Ok (App.Downloaded filename path) ->
  In filename listdir /\ filename <> ".gitkeep" /\
  path = Os.path_join Downloader.downloads_dir filename /\
  (exists t,
     Props.ctime getctime filename = Some t /\
     forall g, In g listdir -> g <> ".gitkeep" ->
       isfile (Os.path_join Downloader.downloads_dir g) = true ->
       exists tg, Props.ctime getctime g = Some tg /\ (tg <= t)%Q) /\
  ((exists g, In g listdir /\
      Props.recent_file isfile getctime current_time g = true) ->
   Props.recent_file isfile getctime current_time filename = true).
Proof.
  intros H.
  destruct (find_downloaded_file_cases listdir isfile getctime current_time)
    as [(msg & lg & g & E & _) | [(lg & E & _) | (lg & keyed & top & E & Hin & Hk & Hread & Hfrom)]];
    rewrite E in H; try discriminate H.
  cbn [fst] in H. injection H as <- <-.
  destruct (Hk top Hin) as (Ht & _).
  assert (Hkeyed : forall g, In g (map snd keyed) ->
            exists tg, Props.ctime getctime g = Some tg /\ (tg <= fst top)%Q).
  { intros g Hg. apply in_map_iff in Hg as (p & <- & Hp).
    exists (fst p). now apply Hk. }
  apply (in_map snd) in Hin.
  destruct Hfrom as [[Em Hne] | [Em Hnone]].
  - rewrite Em in Hin. apply filter_In in Hin as [Hin Hrec].
    assert (Hf := Hrec). unfold Props.recent_file in Hf. rewrite Ht in Hf.
    apply andb_true_iff in Hf as [Hf Hage]. apply andb_true_iff in Hf as [Hng Hfile].
    split; [exact Hin |]. split; [now apply not_gitkeep |]. split; [reflexivity |].
    split; [| intros _; exact Hrec].
    exists (fst top). split; [exact Ht |]. intros g Hg Hn Hgf.
    destruct (Props.recent_file isfile getctime current_time g) eqn:Eg.
    + apply Hkeyed. rewrite Em. apply filter_In. now split.
    + destruct (Props.ctime getctime g) as [tg|] eqn:Etg;
        [| now contradiction (Hread g Hg Hn Hgf)].
      exists tg. split; [reflexivity |].
      unfold Props.recent_file in Eg. rewrite Etg in Eg.
      apply not_gitkeep in Hn. rewrite Hn, Hgf in Eg. cbn [andb] in Eg.
      apply Qltb_false in Eg. apply Qltb_true in Hage. lra.
  - rewrite Em in Hin. apply filter_In in Hin as [Hin Hng].
    split; [exact Hin |]. split; [now apply not_gitkeep |]. split; [reflexivity |].
    split.
    + exists (fst top). split; [exact Ht |]. intros g Hg Hn _.
      apply Hkeyed. rewrite Em. apply filter_In. split; [exact Hg | now apply not_gitkeep].
    + intros (g & Hg & Hr). exfalso.
      assert (Hf : In g (filter (Props.recent_file isfile getctime current_time) listdir))
        by (apply filter_In; now split).
      rewrite Hnone in Hf. destruct Hf.
Qed.

Lemma find_downloaded_file_latest_witness :
  fst (Downloader.find_downloaded_file Props.sample_listdir Props.sample_isfile
         Props.sample_getctime Props.sample_time)
  = Py.Ok (App.Downloaded "b.mp4" "downloads/b.mp4") /\
  In "b.mp4" Props.sample_listdir /\ "b.mp4" <> ".gitkeep".
Proof.
  split; [reflexivity |].
  destruct (find_downloaded_file_latest Props.sample_listdir Props.sample_isfile
              Props.sample_getctime Props.sample_time "b.mp4" "downloads/b.mp4" eq_refl)
    as (H1 & H2 & _).
  split; assumption.
Defined.

(** X17: after a download, the search reports a failure exactly when the
    download directory holds nothing but [.gitkeep], and the failure has one
    text.  Any other entry, whatever its age and whether or not it is a
    regular file, makes the search report a file or raise: it raises only
    with the exception of [os.path.getctime] on an entry other than
    [.gitkeep], it does raise when the creation time of a regular file
    cannot be read, and it reports a file when that of every entry can.  In
    the sample directory with an entry that cannot be examined, the search
    raises. *)
Theorem find_downloaded_file_fails_iff :
  (forall listdir isfile getctime current_time,
     fst (Downloader.find_downloaded_file listdir isfile getctime current_time)
     = Py.Ok (App.NotDownloaded "No downloaded file found in directory") <->
     forall f, In f listdir -> f = ".gitkeep") /\
  (forall listdir isfile getctime current_time e,
     fst (Downloader.find_downloaded_file listdir isfile getctime current_time)
     = Py.Ok (App.NotDownloaded e) -> e = "No downloaded file found in directory") /\
  (forall listdir isfile getctime current_time msg,
     fst (Downloader.find_downloaded_file listdir isfile getctime current_time)
     = Py.Raise msg ->
     exists g, In g listdir /\ g <> ".gitkeep" /\
       fst (getctime (Os.path_join Downloader.downloads_dir g)) = Py.Raise msg) /\
  (forall listdir isfile getctime current_time g,
     In g listdir -> g <> ".gitkeep" ->
     isfile (Os.path_join Downloader.downloads_dir g) = true ->
     Props.ctime getctime g = None ->
     exists msg,
       fst (Downloader.find_downloaded_file listdir isfile getctime current_time)
       = Py.Raise msg) /\
  (forall listdir isfile getctime current_time,
     (exists f, In f listdir /\ f <> ".gitkeep") ->
     (forall g, In g listdir -> g <> ".gitkeep" -> Props.ctime getctime g <> None) ->
     exists filename path,
       fst (Downloader.find_downloaded_file listdir isfile getctime current_time)
       = Py.Ok (App.Downloaded filename path)) /\
  fst (Downloader.find_downloaded_file Props.sample_listdir Props.sample_isfile
         Props.sample_getctime_broken Props.sample_time)
  = Py.Raise "[Errno 13] Permission denied: 'downloads/old.mp4'".
Proof.
  assert (Hall : forall listdir,
            filter (fun f => negb (f =? ".gitkeep")%str) listdir = [] <->
            forall f, In f listdir -> f = ".gitkeep").
  { intros listdir. rewrite filter_nil_iff. split; intros H f Hf.
    - specialize (H f Hf). apply negb_false_iff in H. now apply str_eqb_eq in H.
    - rewrite (H f Hf). reflexivity. }
  assert (Hin : forall (listdir : list str) p (keyed : list (Q * str)) recent,
            In p keyed ->
            (map snd keyed = filter recent listdir /\ filter recent listdir <> []) \/
            (map snd keyed = filter (fun f => negb (f =? ".gitkeep")%str) listdir /\
             filter recent listdir = []) ->
            In (snd p) listdir).
  { intros listdir p keyed recent Hp H. apply (in_map snd) in Hp.
    destruct H as [[E _] | [E _]]; rewrite E in Hp; now apply filter_In in Hp. }
  split; [| split; [| split; [| split; [| split]]]].
  - intros listdir isfile getctime current_time.
    destruct (find_downloaded_file_cases listdir isfile getctime current_time)
      as [(msg & lg & g & E & Hg & Hn & _)
         | [(lg & E & Ha) | (lg & keyed & top & E & Htop & Hk & _ & Hfrom)]];
      rewrite E; cbn [fst].
    + split; [discriminate |]. intros H. now contradiction Hn; apply H.
    + split; [intros _; now apply Hall | reflexivity].
    + split; [discriminate |]. intros H. exfalso.
      apply (in_map snd) in Htop.
      destruct Hfrom as [[Em _] | [Em _]]; rewrite Em in Htop;
        apply filter_In in Htop as [Hl Hr].
      * unfold Props.recent_file in Hr. rewrite (H _ Hl) in Hr. discriminate Hr.
      * rewrite (H _ Hl) in Hr. discriminate Hr.
  - intros listdir isfile getctime current_time e.
    destruct (find_downloaded_file_cases listdir isfile getctime current_time)
      as [(msg & lg & g & E & _) | [(lg & E & _) | (lg & keyed & top & E & _)]];
      rewrite E; cbn [fst]; try discriminate. now intros [= <-].
  - intros listdir isfile getctime current_time msg.
    destruct (find_downloaded_file_cases listdir isfile getctime current_time)
      as [(msg' & lg & g & E & Hg & Hn & Hr) | [(lg & E & _) | (lg & keyed & top & E & _)]];
      rewrite E; cbn [fst]; try discriminate.
    intros [= <-]. now exists g.
  - intros listdir isfile getctime current_time g Hg Hn Hf Hc.
    destruct (recent_files_raises isfile getctime current_time listdir g Hg Hn Hf Hc)
      as (msg & lg & Hr).
    exists msg. unfold Downloader.find_downloaded_file.
    now rewrite (bind_raise _ _ msg lg Hr).
  - intros listdir isfile getctime current_time (f & Hf & Hn) Hc.
    destruct (find_downloaded_file_cases listdir isfile getctime current_time)
      as [(msg & lg & g & E & Hg & Hgn & Hr)
         | [(lg & E & Ha) | (lg & keyed & top & E & _)]];
      rewrite E; cbn [fst].
    + exfalso. apply (Hc g Hg Hgn). unfold Props.ctime. now rewrite Hr.
    + exfalso. apply Hn. now apply (proj1 (Hall listdir) Ha).
    + now eauto.
  - vm_compute. reflexivity.
Qed.

(** ** [download_video]: the options and the result *)

Section ServerDownload.

Context {U : Py.Unicode}.

Lemma startswith_slash_word (stem rest : str) :
  Spec.all_chars Py.is_word stem = true ->
  Py.startswith rest "/" = false ->
  Py.startswith (stem ++ rest) "/" = false.
Proof.
  destruct stem as [|a stem]; [intros _ H; exact H |].
  cbn [Spec.all_chars append]. intros H _. apply andb_true_iff in H as [Ha _].
  unfold Py.startswith. cbn [Str.prefix].
  destruct (chr_eqb_spec "/" a) as [<- | _]; [discriminate Ha | reflexivity].
Qed.

Lemma path_join_downloads (s : str) :
  Py.startswith s "/" = false ->
  Os.path_join Downloader.downloads_dir s = "downloads/" ++ s.
Proof. intros H. unfold Os.path_join. rewrite H. reflexivity. Qed.

(** X18: the output template handed to the library is
    [downloads/{safe_title}.%(ext)s], where the safe title is ['video'] when
    the extractor finds nothing and else at most 50 letters, digits and
    underscores: no title moves the output out of the download directory or
    adds a field to the template.  The format expression is that of the
    format selection in both modes. *)
Theorem outtmpl_in_downloads (info_title : option str)
  (format_id download_type : str) :
  let safe_title :=
    match info_title with
    | Some title => VideoDownloader.safe_title title
    | None => "video"
    end in
  let opts := Downloader.make_ydl_opts safe_title format_id download_type in
  Downloader.outtmpl opts = "downloads/" ++ safe_title ++ ".%(ext)s" /\
  Spec.all_chars Py.is_word safe_title = true /\
  (Str.length safe_title <= 50)%nat /\
  Downloader.format opts = VideoDownloader.format_selector format_id download_type.
Proof.
  intros safe_title opts.
  assert (Hw : Spec.all_chars Py.is_word safe_title = true).
  { subst safe_title. destruct info_title; [apply safe_title_word_chars | reflexivity]. }
  split; [| split; [exact Hw | split]].
  - assert (E : Downloader.outtmpl opts
                = Os.path_join Downloader.downloads_dir (safe_title ++ ".%(ext)s")).
    { subst opts. unfold Downloader.make_ydl_opts.
      now destruct (download_type =? "audio")%str. }
    rewrite E. apply path_join_downloads. now apply startswith_slash_word.
  - subst safe_title. destruct info_title; [apply safe_title_length | cbn; lia].
  - subst opts. unfold Downloader.make_ydl_opts, VideoDownloader.format_selector.
    now destruct (download_type =? "audio")%str.
Qed.

Lemma download_video_returns extract_title ydl_download listdir isfile getctime
  current_time url format_id download_type progress_callback :
  exists r lg,
    Downloader.download_video extract_title ydl_download listdir isfile getctime
      current_time url format_id download_type progress_callback = (Py.Ok r, lg).
Proof.
  unfold Downloader.download_video. apply try_except_returns.
  intros e. do 2 eexists. reflexivity.
Qed.

(** X19: [download_video] never raises.  An exception of the extractor or of
    the download comes back as a failure whose text is the text of the
    exception after [Download failed: ], and is logged; when both return and
    no callback is given, the result is that of the search of the download
    directory alone, an exception of [os.path.getctime] in that search
    coming back in the same way. *)
Theorem download_video_never_raises extract_title ydl_download listdir isfile getctime
  current_time url format_id download_type :
  (forall progress_callback,
     exists r lg,
       Downloader.download_video extract_title ydl_download listdir isfile getctime
         current_time url format_id download_type progress_callback = (Py.Ok r, lg)) /\
  (forall progress_callback msg lg,
     extract_title url = (Py.Raise msg, lg) ->
     Downloader.download_video extract_title ydl_download listdir isfile getctime
       current_time url format_id download_type progress_callback
     = (Py.Ok (App.NotDownloaded ("Download failed: " ++ msg)),
        (lg ++ [("Download error: " ++ msg)%str])%list)) /\
  (forall progress_callback info_title msg lg lg',
     extract_title url = (Py.Ok info_title, lg) ->
     ydl_download
       (Downloader.make_ydl_opts
          match info_title with
          | Some title => VideoDownloader.safe_title title
          | None => "video"
          end format_id download_type) url = (Py.Raise msg, lg') ->
     Downloader.download_video extract_title ydl_download listdir isfile getctime
       current_time url format_id download_type progress_callback
     = (Py.Ok (App.NotDownloaded ("Download failed: " ++ msg)),
        ((lg ++ lg') ++ [("Download error: " ++ msg)%str])%list)) /\
  (forall info_title lg lg',
     extract_title url = (Py.Ok info_title, lg) ->
     ydl_download
       (Downloader.make_ydl_opts
          match info_title with
          | Some title => VideoDownloader.safe_title title
          | None => "video"
          end format_id download_type) url = (Py.Ok tt, lg') ->
     Downloader.download_video extract_title ydl_download listdir isfile getctime
       current_time url format_id download_type None
     = match Downloader.find_downloaded_file listdir isfile getctime current_time with
       | (Py.Ok r, lg2) => (Py.Ok r, (lg ++ lg' ++ lg2)%list)
       | (Py.Raise msg, lg2) =>
           (Py.Ok (App.NotDownloaded ("Download failed: " ++ msg)),
            ((lg ++ lg' ++ lg2) ++ [("Download error: " ++ msg)%str])%list)
       end).
Proof.
  split; [intros cb; apply download_video_returns |]. split; [| split].
  - intros cb msg lg He. unfold Downloader.download_video. now rewrite He.
  - intros cb info_title msg lg lg' He Hd. unfold Downloader.download_video.
    rewrite He. cbn [Py.bind]. rewrite Hd. reflexivity.
  - intros info_title lg lg' He Hd. unfold Downloader.download_video.
    rewrite He. cbn [Py.bind]. rewrite Hd.
    destruct (Downloader.find_downloaded_file listdir isfile getctime current_time)
      as [[r | msg] lg2]; cbn; now rewrite ?app_nil_r, ?app_assoc.
Qed.

Lemma is_valid_nonempty (url : str) :
  VideoDownloader.is_valid_youtube_url url = true -> Py.truthy_str url = true.
Proof. destruct url; [discriminate | reflexivity]. Qed.

(** X20: composed with [download_video], the route [/server_download]
    answers a body whose [url], [format_id] and [download_type] are texts or
    absent with status 200 or 400, never 500; and for a valid URL with a
    chosen format, the text of an exception of the extractor reaches the
    client in the 400 response, after [Download failed: ]. *)
Theorem server_download_well_formed extract_title ydl_download listdir isfile getctime
  current_time downloader_download_video (d : list (str * Py.value)) :
  (forall u f t,
     downloader_download_video u (Py.VStr f) (Py.VStr t)
     = Downloader.download_video extract_title ydl_download listdir isfile getctime
         current_time u f t None) ->
  Spec.url_is_text d ->
  Props.text_or_absent "format_id" d ->
  Props.text_or_absent "download_type" d ->
  exists resp lg,
    App.server_download downloader_download_video (Py.VDict d) = (Py.Ok resp, lg) /\
    (App.status resp = 200 \/ App.status resp = 400) /\
    (forall u f msg lg0,
       Py.lookup "url" d = Some (Py.VStr u) ->
       VideoDownloader.is_valid_youtube_url (Py.strip u) = true ->
       Py.lookup "format_id" d = Some (Py.VStr f) -> f <> EmptyString ->
       extract_title (Py.strip u) = (Py.Raise msg, lg0) ->
       resp = {| App.body := App.ErrorPayload ("Download failed: " ++ msg);
                 App.status := 400 |}).
Proof.
  intros Hdl Hu Hf Ht. unfold App.server_download, Py.get.
  destruct d as [|kv d0] eqn:Ed.
  { do 2 eexists. split; [reflexivity |]. split; [now right |].
    intros u f msg lg0 H. discriminate H. }
  rewrite <- Ed in *. replace (Py.truthy (Py.VDict d)) with true by now rewrite Ed.
  cbn [negb]. clear Ed kv d0.
  assert (Eu : exists u, match Py.lookup "url" d with
                         | Some x => Py.ret x
                         | None => Py.ret (Py.VStr EmptyString)
                         end = Py.ret (Py.VStr u) /\
                         (forall u', Py.lookup "url" d = Some (Py.VStr u') -> u' = u)).
  { destruct Hu as [-> | (u & ->)]; eexists; (split; [reflexivity |]);
      intros u' H; [discriminate H | now injection H]. }
  destruct Eu as (u & -> & Hu').
  assert (Ef : exists f, match Py.lookup "format_id" d with
                         | Some x => Py.ret x
                         | None => Py.ret (Py.VStr EmptyString)
                         end = Py.ret (Py.VStr f) /\
                         (forall f', Py.lookup "format_id" d = Some (Py.VStr f') -> f' = f)).
  { destruct Hf as [-> | (f & ->)]; eexists; (split; [reflexivity |]);
      intros f' H; [discriminate H | now injection H]. }
  destruct Ef as (f & -> & Hf').
  assert (Et : exists t, match Py.lookup "download_type" d with
                         | Some x => Py.ret x
                         | None => Py.ret (Py.VStr "video")
                         end = Py.ret (Py.VStr t)).
  { destruct Ht as [-> | (t & ->)]; eexists; reflexivity. }
  destruct Et as (t & ->).
  cbn [Py.strip_value Py.bind Py.ret app Py.truthy].
  destruct (Py.truthy_str (Py.strip u)) eqn:Es; cbn [negb orb].
  2:{ do 2 eexists. split; [reflexivity |]. split; [now right |].
      intros u' f' msg lg0 H1 H2 _ _ _. apply Hu' in H1. subst u'.
      apply is_valid_nonempty in H2. congruence. }
  destruct (Py.truthy_str f) eqn:Efs; cbn [negb].
  2:{ do 2 eexists. split; [reflexivity |]. split; [now right |].
      intros u' f' msg lg0 _ _ H3 H4 _. apply Hf' in H3. subst f'.
      unfold Py.truthy_str in Efs. apply negb_false_iff, str_eqb_eq in Efs.
      contradiction. }
  destruct (VideoDownloader.is_valid_youtube_url (Py.strip u)) eqn:Ev; cbn [negb].
  2:{ do 2 eexists. split; [reflexivity |]. split; [now right |].
      intros u' f' msg lg0 H1 H2 _ _ _. apply Hu' in H1. subst u'. congruence. }
  rewrite Hdl.
  destruct (extract_title (Py.strip u)) as [[info_title | msg] lg0] eqn:Ee.
  - destruct (download_video_returns extract_title ydl_download listdir isfile getctime
                current_time (Py.strip u) f t None) as (r & lg & E).
    rewrite E. destruct r as [fn p | err]; cbn.
    + do 2 eexists. split; [reflexivity |]. split; [now left |].
      intros u' f' msg lg1 H1 _ _ _ H5. apply Hu' in H1. subst u'. congruence.
    + do 2 eexists. split; [reflexivity |]. split; [now right |].
      intros u' f' msg lg1 H1 _ _ _ H5. apply Hu' in H1. subst u'. congruence.
  - unfold Downloader.download_video. rewrite Ee. cbn.
    do 2 eexists. split; [reflexivity |]. split; [now right |].
    intros u' f' msg' lg1 H1 _ _ _ H5. apply Hu' in H1. subst u'.
    rewrite Ee in H5. now injection H5 as <- _.
Qed.

End ServerDownload.

Lemma server_download_well_formed_witness :
  exists resp lg,
    App.server_download (U := Props.sample_unicode) Props.sample_download_video
      (Py.VDict Props.video_body)
    = (Py.Ok resp, lg) /\
    (App.status resp = 200 \/ App.status resp = 400).
Proof.
  destruct (server_download_well_formed (U := Props.sample_unicode)
              Props.sample_extract_title
              Props.sample_ydl_download Props.sample_listdir Props.sample_isfile
              Props.sample_getctime Props.sample_time Props.sample_download_video
              Props.video_body)
    as (resp & lg & H1 & H2 & _).
  - reflexivity.
  - right. now exists "https://youtu.be/abc".
  - right. now exists "137".
  - now left.
  - exists resp, lg. split; assumption.
Defined.

(** ** [get_video_info] and its route *)

Section InfoRoute.

Context {U : Py.Unicode} {F : Py.Floats}.

Lemma get_video_info_none extract url :
  Downloader.get_video_info extract url = None <->
  Props.raises (extract url) \/
  fst (extract url) = Py.Ok None \/
  exists info,
    fst (extract url) = Py.Ok (Some info) /\
    VideoDownloader.dedup (Downloader.formats info) = None.
Proof.
  unfold Downloader.get_video_info, Props.raises.
  destruct (fst (extract url)) as [[info|] | msg].
  - unfold VideoDownloader.get_video_info_formats.
    destruct (VideoDownloader.dedup (Downloader.formats info)) as [d|] eqn:Ed.
    + destruct (sort_formats_spec _ d Ed) as (vid & Hout & _).
      rewrite Hout. split; [discriminate |].
      intros [(m & H) | [H | (i & [= <-] & H)]]; [discriminate H | discriminate H |].
      congruence.
    + split; [| reflexivity]. intros _. right. right. now exists info.
  - split; [| reflexivity]. intros _. right. now left.
  - split; [| reflexivity]. intros _. left. now exists msg.
Qed.

(** X21: [get_video_info] returns [None] in three cases only: the extractor
    raises, the extractor finds nothing, or the deduplication loop raises on
    the formats found; the sort of the video formats never raises.  A short
    description is at most 203 characters long. *)
Theorem get_video_info_none_iff extract url :
  (Downloader.get_video_info extract url = None <->
   Props.raises (extract url) \/
   fst (extract url) = Py.Ok None \/
   exists info,
     fst (extract url) = Py.Ok (Some info) /\
     VideoDownloader.dedup (Downloader.formats info) = None) /\
  (forall video_info,
     Downloader.get_video_info extract url = Some video_info ->
     (Str.length (Downloader.v_description video_info) <= 203)%nat /\
     exists info,
       fst (extract url) = Py.Ok (Some info) /\
       VideoDownloader.get_video_info_formats (Downloader.formats info)
       = Some (Downloader.v_formats video_info)).
Proof.
  split; [apply get_video_info_none |].
  intros vi. unfold Downloader.get_video_info.
  destruct (fst (extract url)) as [[info|] | msg]; try discriminate.
  destruct (VideoDownloader.get_video_info_formats _) as [fs|] eqn:Ef; [| discriminate].
  intros [= <-]. cbn [Downloader.v_description Downloader.v_formats]. split.
  - unfold Downloader.short_description.
    destruct (Downloader.description info) as [desc|]; [| cbn; lia].
    destruct (Py.truthy_str desc); [| cbn; lia].
    rewrite str_length_app. pose proof (take_length 200 desc). cbn [Str.length]. lia.
  - now exists info.
Qed.

Lemma get_video_info_route_valid format_1f extract d u :
  Py.lookup "url" d = Some (Py.VStr u) ->
  VideoDownloader.is_valid_youtube_url (Py.strip u) = true ->
  AppInfo.get_video_info format_1f extract (Py.VDict d)
  = match Downloader.get_video_info extract (Py.strip u) with
    | None =>
        {| AppInfo.body := AppInfo.ErrorPayload
             "Unable to fetch video information. Please check the URL and try again.";
           AppInfo.status := 400 |}
    | Some video_info =>
        {| AppInfo.body :=
             AppInfo.InfoPayload video_info
               (VideoDownloader.format_duration (Downloader.v_duration video_info))
               (Downloader.format_view_count format_1f
                  (Downloader.v_view_count video_info));
           AppInfo.status := 200 |}
    end.
Proof.
  intros Hu Hv. unfold AppInfo.get_video_info, Py.get. rewrite Hu.
  cbn [Py.bind Py.ret Py.strip_value fst].
  now rewrite (is_valid_nonempty _ Hv), Hv.
Qed.

(** X22: the route [/get_video_info] answers with status 200, 400 or 500;
    it answers 500 exactly when the body is not a dictionary or its [url] is
    not a text, and 200 exactly when the [url] is a text that, stripped, is
    a recognized URL for which [get_video_info] returns a result; the
    response then carries the formatted duration of that result. *)
Theorem get_video_info_route_status format_1f extract data :
  let resp := AppInfo.get_video_info format_1f extract data in
  (AppInfo.status resp = 200 \/ AppInfo.status resp = 400 \/ AppInfo.status resp = 500) /\
  (AppInfo.status resp = 500 <->
   ~ exists d, data = Py.VDict d /\ Spec.url_is_text d) /\
  (AppInfo.status resp = 200 <->
   exists d u video_info,
     data = Py.VDict d /\ Py.lookup "url" d = Some (Py.VStr u) /\
     VideoDownloader.is_valid_youtube_url (Py.strip u) = true /\
     Downloader.get_video_info extract (Py.strip u) = Some video_info /\
     AppInfo.body resp
     = AppInfo.InfoPayload video_info
         (VideoDownloader.format_duration (Downloader.v_duration video_info))
         (Downloader.format_view_count format_1f (Downloader.v_view_count video_info))).
Proof.
  intros resp. subst resp.
  destruct data as [| b | n | s | l | d];
    try (cbn; split; [now auto |]; split;
         [split; [intros _ (d & Hd & _); discriminate Hd | reflexivity]
         | split; [discriminate | intros (d & u & vi & Hd & _); discriminate Hd]]).
  destruct (Py.lookup "url" d) as [v|] eqn:Eu.
  - destruct v as [| b | n | u | l | dd];
      try (unfold AppInfo.get_video_info, Py.get; rewrite Eu; cbn;
           split; [now auto |]; split;
           [split; [intros _ (d' & [= <-] & [H | (u0 & H)]); rewrite Eu in H; discriminate H
                   | reflexivity]
           | split; [discriminate
                    | intros (d' & u0 & vi & [= <-] & H & _); rewrite Eu in H;
                      discriminate H]]).
    assert (Htext : exists d', Py.VDict d = Py.VDict d' /\ Spec.url_is_text d').
    { exists d. split; [reflexivity |]. right. now exists u. }
    destruct (VideoDownloader.is_valid_youtube_url (Py.strip u)) eqn:Ev.
    + rewrite (get_video_info_route_valid format_1f extract d u Eu Ev).
      destruct (Downloader.get_video_info extract (Py.strip u)) as [vi|] eqn:Eg; cbn.
      * split; [now auto |]. split; [split; [discriminate | contradiction] |].
        split; [| reflexivity]. intros _. exists d, u, vi. now repeat split.
      * split; [now auto |]. split; [split; [discriminate | contradiction] |].
        split; [discriminate |].
        intros (d' & u0 & vi & [= <-] & H & _ & Hg & _). rewrite Eu in H.
        injection H as <-. congruence.
    + assert (E : AppInfo.status (AppInfo.get_video_info format_1f extract (Py.VDict d))
                  = 400).
      { unfold AppInfo.get_video_info, Py.get. rewrite Eu.
        cbn [Py.bind Py.ret Py.strip_value fst]. rewrite Ev.
        now destruct (negb (Py.truthy_str (Py.strip u))). }
      rewrite E. split; [now auto |]. split; [split; [discriminate | contradiction] |].
      split; [discriminate |].
      intros (d' & u0 & vi & [= <-] & H & Hv & _). rewrite Eu in H.
      injection H as <-. congruence.
  - unfold AppInfo.get_video_info, Py.get. rewrite Eu. cbn.
    split; [now auto |]. split.
    + split; [discriminate |]. intros H. exfalso. apply H. exists d.
      split; [reflexivity | now left].
    + split; [discriminate |]. intros (d' & u0 & vi & [= <-] & H & _).
      rewrite Eu in H. discriminate H.
Qed.

(** X23: when the deduplication loop raises on the formats that the
    extractor reports for a recognized URL, as it does for two candidates of
    one key and unknown bitrate, the route [/get_video_info] answers 400
    with the message of an unavailable video: the client cannot tell the
    exception from a video that does not exist. *)
Theorem get_video_info_route_dedup_raises format_1f extract d u info :
  Py.lookup "url" d = Some (Py.VStr u) ->
  VideoDownloader.is_valid_youtube_url (Py.strip u) = true ->
  fst (extract (Py.strip u)) = Py.Ok (Some info) ->
  VideoDownloader.dedup (Downloader.formats info) = None ->
  AppInfo.get_video_info format_1f extract (Py.VDict d)
  = {| AppInfo.body := AppInfo.ErrorPayload
         "Unable to fetch video information. Please check the URL and try again.";
       AppInfo.status := 400 |}.
Proof.
  intros Hu Hv He Hd. rewrite (get_video_info_route_valid format_1f extract d u Hu Hv).
  assert (E : Downloader.get_video_info extract (Py.strip u) = None).
  { apply get_video_info_none. right. right. now exists info. }
  now rewrite E.
Qed.

End InfoRoute.

Lemma get_video_info_route_dedup_raises_witness :
  AppInfo.get_video_info (U := Props.sample_unicode) (F := Props.exact_floats)
    (fun _ => EmptyString) Props.extract_unknown_bitrates
    (Py.VDict Props.video_body)
  = {| AppInfo.body := AppInfo.ErrorPayload
         "Unable to fetch video information. Please check the URL and try again.";
       AppInfo.status := 400 |}.
Proof.
  apply (get_video_info_route_dedup_raises (U := Props.sample_unicode)
           (F := Props.exact_floats) (fun _ => EmptyString)
           Props.extract_unknown_bitrates Props.video_body "https://youtu.be/abc"
           {| Downloader.title := "Amazing Video!! (2024)";
              Downloader.duration := Some 3725;
              Downloader.uploader := "Unknown";
              Downloader.view_count := Some 0;
              Downloader.thumbnail := EmptyString;
              Downloader.description := None;
              Downloader.formats :=
                [Spec.sample_unknown_first; Spec.sample_unknown_second] |});
    reflexivity.
Defined.

(** ** [format_duration]: the text determines the duration *)

Lemma digit_inj (x y : Z) :
  0 <= x <= 9 -> 0 <= y <= 9 -> Spec.digit x = Spec.digit y -> x = y.
Proof.
  intros Hx Hy H. unfold Spec.digit in H. lia.
Qed.

Lemma two_digits_inj (x y : Z) :
  0 <= x < 100 -> 0 <= y < 100 -> Spec.two_digits x = Spec.two_digits y -> x = y.
Proof.
  intros Hx Hy H. unfold Spec.two_digits in H. injection H as H1 H2.
  pose proof (Z.mod_pos_bound x 10 ltac:(lia)).
  pose proof (Z.mod_pos_bound y 10 ltac:(lia)).
  assert (0 <= x / 10 < 10) by (split; [apply Z.div_pos | apply Z.div_lt_upper_bound]; lia).
  assert (0 <= y / 10 < 10) by (split; [apply Z.div_pos | apply Z.div_lt_upper_bound]; lia).
  apply digit_inj in H1; [| lia | lia]. apply digit_inj in H2; [| lia | lia].
  rewrite (Z.div_mod x 10), (Z.div_mod y 10) by lia. lia.
Qed.

Lemma int_of_at_least_two_digits (x : Z) :
  0 <= x -> Py.int_of_str (Spec.at_least_two_digits x) = Some x.
Proof.
  intros H. unfold Spec.at_least_two_digits. destruct (Z.ltb_spec x 10).
  - assert (T : forallb (fun k =>
                    match Py.int_of_str (String "0" (Py.str_of_int (Z.of_nat k))) with
                    | Some v => v =? Z.of_nat k
                    | None => false
                    end) (seq 0 10) = true) by (vm_compute; reflexivity).
    rewrite forallb_forall in T. specialize (T (Z.to_nat x)).
    rewrite Z2Nat.id in T by lia.
    destruct (Py.int_of_str (String "0" (Py.str_of_int x))) as [v|].
    + f_equal. apply Z.eqb_eq, T, in_seq. lia.
    + discriminate T. apply in_seq. lia.
  - apply int_of_str_of_int.
Qed.

Lemma at_least_two_digits_length (x : Z) :
  0 <= x -> (2 <= Str.length (Spec.at_least_two_digits x))%nat.
Proof.
  intros H. unfold Spec.at_least_two_digits. destruct (Z.ltb_spec x 10).
  - assert (T : forallb (fun k =>
                    Nat.leb 1 (Str.length (Py.str_of_int (Z.of_nat k))))
                  (seq 0 10) = true) by (vm_compute; reflexivity).
    rewrite forallb_forall in T. specialize (T (Z.to_nat x)).
    rewrite Z2Nat.id in T by lia. cbn [Str.length].
    assert (In (Z.to_nat x) (seq 0 10)) as Hin by (apply in_seq; lia).
    apply T, Nat.leb_le in Hin. lia.
  - now apply str_of_int_length.
Qed.

Lemma format_duration_positive (d : Z) :
  0 < d ->
  VideoDownloader.format_duration (Some d)
  = if d / 3600 >? 0 then
      Spec.at_least_two_digits (d / 3600) ++ ":" ++
      Spec.two_digits (d mod 3600 / 60) ++ ":" ++ Spec.two_digits (d mod 60)
    else Spec.two_digits (d mod 3600 / 60) ++ ":" ++ Spec.two_digits (d mod 60).
Proof.
  intros H. unfold VideoDownloader.format_duration, Py.truthy_int.
  destruct (Z.eqb_spec d 0); [lia |]. destruct (Z.leb_spec d 0); [lia |].
  cbn [negb orb].
  pose proof (Z.mod_pos_bound d 60 ltac:(lia)).
  pose proof (Z.mod_pos_bound d 3600 ltac:(lia)).
  assert (0 <= d mod 3600 / 60 < 100)
    by (split; [apply Z.div_pos; lia | apply Z.div_lt_upper_bound; lia]).
  assert (0 <= d / 3600) by (apply Z.div_pos; lia).
  rewrite (format_02d_hours (d / 3600)) by lia.
  now rewrite !format_02d_below_100 by lia.
Qed.

(** X24: the text of a positive duration is never [Unknown] and determines
    the duration: two positive numbers of seconds with the same text are
    equal. *)
Theorem format_duration_injective (a b : Z) :
  0 < a -> 0 < b ->
  VideoDownloader.format_duration (Some a) <> "Unknown" /\
  (VideoDownloader.format_duration (Some a) = VideoDownloader.format_duration (Some b) ->
   a = b).
Proof.
  intros Ha Hb. rewrite (format_duration_positive a Ha), (format_duration_positive b Hb).
  pose proof (Z.mod_pos_bound a 60 ltac:(lia)) as Hsa.
  pose proof (Z.mod_pos_bound b 60 ltac:(lia)) as Hsb.
  pose proof (Z.mod_pos_bound a 3600 ltac:(lia)) as Hra.
  pose proof (Z.mod_pos_bound b 3600 ltac:(lia)) as Hrb.
  assert (Hma : 0 <= a mod 3600 / 60 < 100)
    by (split; [apply Z.div_pos; lia | apply Z.div_lt_upper_bound; lia]).
  assert (Hmb : 0 <= b mod 3600 / 60 < 100)
    by (split; [apply Z.div_pos; lia | apply Z.div_lt_upper_bound; lia]).
  assert (Hha : 0 <= a / 3600) by (apply Z.div_pos; lia).
  assert (Hhb : 0 <= b / 3600) by (apply Z.div_pos; lia).
  assert (Hrec : forall d, 0 < d ->
            d = 3600 * (d / 3600) + 60 * (d mod 3600 / 60) + d mod 60).
  { intros d Hd. rewrite <- (Z.mod_mod_divide d 3600 60) by (now exists 60).
    pose proof (Z.div_mod d 3600 ltac:(lia)).
    pose proof (Z.div_mod (d mod 3600) 60 ltac:(lia)). lia. }
  assert (Hlen : forall h m s,
            0 <= h ->
            (8 <= Str.length (Spec.at_least_two_digits h ++ ":" ++
                                 Spec.two_digits m ++ ":" ++ Spec.two_digits s))%nat).
  { intros h m s Hh. rewrite str_length_app.
    pose proof (at_least_two_digits_length h Hh). cbn. lia. }
  split.
  - destruct (a / 3600 >? 0).
    + intros E.
      pose proof (Hlen (a / 3600) (a mod 3600 / 60) (a mod 60) Hha) as HL.
      rewrite E in HL. cbn in HL. lia.
    + discriminate.
  - destruct (Z.gtb_spec (a / 3600) 0) as [Pa | Pa];
      destruct (Z.gtb_spec (b / 3600) 0) as [Pb | Pb]; intros E.
    + assert (El : Str.length (Spec.at_least_two_digits (a / 3600))
                   = Str.length (Spec.at_least_two_digits (b / 3600))).
      { apply (f_equal Str.length) in E. rewrite !str_length_app in E.
        cbn in E. lia. }
      destruct (str_app_inv_length _ _ _ _ El E) as [E1 E2].
      apply (f_equal Py.int_of_str) in E1.
      rewrite !int_of_at_least_two_digits in E1 by lia. injection E1 as E1.
      unfold Spec.two_digits in E2. cbn [append] in E2.
      injection E2 as D1 D2 D3 D4.
      assert (Em : a mod 3600 / 60 = b mod 3600 / 60).
      { apply two_digits_inj; [lia | lia |]. unfold Spec.two_digits. now rewrite D1, D2. }
      assert (Es : a mod 60 = b mod 60).
      { apply two_digits_inj; [lia | lia |]. unfold Spec.two_digits. now rewrite D3, D4. }
      rewrite (Hrec a Ha), (Hrec b Hb). lia.
    + exfalso.
      pose proof (Hlen (a / 3600) (a mod 3600 / 60) (a mod 60) Hha) as HL.
      rewrite E in HL. cbn in HL. lia.
    + exfalso.
      pose proof (Hlen (b / 3600) (b mod 3600 / 60) (b mod 60) Hhb) as HL.
      rewrite <- E in HL. cbn in HL. lia.
    + unfold Spec.two_digits in E. cbn [append] in E.
      injection E as D1 D2 D3 D4.
      assert (Em : a mod 3600 / 60 = b mod 3600 / 60).
      { apply two_digits_inj; [lia | lia |]. unfold Spec.two_digits. now rewrite D1, D2. }
      assert (Es : a mod 60 = b mod 60).
      { apply two_digits_inj; [lia | lia |]. unfold Spec.two_digits. now rewrite D3, D4. }
      rewrite (Hrec a Ha), (Hrec b Hb). lia.
Qed.

Lemma format_duration_injective_witness :
  VideoDownloader.format_duration (Some 3725) <> "Unknown" /\
  (VideoDownloader.format_duration (Some 3725) = VideoDownloader.format_duration (Some 3725) ->
   3725 = 3725).
Proof. apply (format_duration_injective 3725 3725); lia. Defined.

(** ** [download_video]: the two ways of choosing the latest file *)

Lemma max_by_right (a x : Q * str) (l : list (Q * str)) :
  Downloader.max_by a (x :: l)
  = if VideoDownloader.Qltb (fst a) (fst (Downloader.max_by x l))
    then Downloader.max_by x l else a.
Proof.
  revert a x. induction l as [|y l IH]; intros a x; [reflexivity |].
  cbn [Downloader.max_by] in *.
  specialize (IH (if VideoDownloader.Qltb (fst a) (fst x) then x else a) y) as IH1.
  specialize (IH x y) as IH2. cbn [Downloader.max_by] in IH1, IH2.
  rewrite IH1. clear IH1.
  set (m := Downloader.max_by y l) in *.
  assert (E2 : Downloader.max_by
                 (if VideoDownloader.Qltb (fst x) (fst y) then y else x) l
               = if VideoDownloader.Qltb (fst x) (fst m) then m else x)
    by exact IH2.
  rewrite E2. clear IH IH2 E2.
  destruct (VideoDownloader.Qltb (fst a) (fst x)) eqn:E1;
    destruct (VideoDownloader.Qltb (fst x) (fst m)) eqn:E3;
    destruct (VideoDownloader.Qltb (fst a) (fst m)) eqn:E4;
    try rewrite E1; try rewrite E3; try rewrite E4; try reflexivity;
    rewrite ?Qltb_true, ?Qltb_false in *; exfalso; lra.
Qed.

Lemma insert_desc_nonempty (x : Q * str) (l : list (Q * str)) :
  Downloader.insert_desc x l <> [].
Proof. destruct l; cbn; [discriminate |]. destruct (VideoDownloader.Qltb _ _); discriminate. Qed.

Lemma sort_reverse_head (d first : Q * str) (rest : list (Q * str)) :
  hd d (Downloader.sort_reverse (first :: rest)) = Downloader.max_by first rest.
Proof.
  revert first. induction rest as [|x l IH]; intros a; [reflexivity |].
  rewrite max_by_right, <- IH.
  change (Downloader.sort_reverse (a :: x :: l))
    with (Downloader.insert_desc a (Downloader.sort_reverse (x :: l))).
  pose proof (insert_desc_nonempty x (Downloader.sort_reverse l)) as Hne.
  change (Downloader.insert_desc x (Downloader.sort_reverse l))
    with (Downloader.sort_reverse (x :: l)) in Hne.
  destruct (Downloader.sort_reverse (x :: l)) as [|y s]; [contradiction |].
  cbn. now destruct (VideoDownloader.Qltb (fst a) (fst y)).
Qed.

Lemma bind_ext {A B : Type} (m : Py.M A) (k k' : A -> Py.M B) :
  (forall a, k a = k' a) -> Py.bind m k = Py.bind m k'.
Proof. intros H. destruct m as [[a|e] l]; cbn; [now rewrite H | reflexivity]. Qed.

Lemma bind_assoc {A B C : Type} (m : Py.M A) (f : A -> Py.M B) (g : B -> Py.M C) :
  Py.bind (Py.bind m f) g = Py.bind m (fun a => Py.bind (f a) g).
Proof.
  destruct m as [[a|e] l]; cbn; [| reflexivity].
  destruct (f a) as [[b|e] l1]; cbn; [| reflexivity].
  destruct (g b) as [r l2]. now rewrite app_assoc.
Qed.

(** X25: the two ways in which the search chooses a file agree: the first
    name after the descending stable sort by creation time is the one that
    [max] returns, the first name among those created last; so, the
    creation times being read in the same order in both ways, the file
    reported is the latest of the files that the loop has kept, the recent
    regular files, when there is one, and else the latest of all entries
    other than [.gitkeep]. *)
Theorem find_downloaded_file_two_ways listdir isfile getctime current_time :
  (forall d first rest,
     hd d (Downloader.sort_reverse (first :: rest)) = Downloader.max_by first rest) /\
  Downloader.find_downloaded_file listdir isfile getctime current_time
  = (downloaded_files <-
       Downloader.recent_files isfile getctime current_time listdir ;;
     match downloaded_files, filter (fun f => negb (f =? ".gitkeep")%str) listdir with
     | first :: rest, _ | [], first :: rest =>
         first_ctime <- Downloader.ctime_of getctime first ;;
         keyed <- Downloader.with_ctime getctime rest ;;
         let latest := snd (Downloader.max_by (first_ctime, first) keyed) in
         Py.ret (App.Downloaded latest (Os.path_join Downloader.downloads_dir latest))
     | [], [] => Py.ret (App.NotDownloaded "No downloaded file found in directory")
     end) /\
  (forall downloaded_files lg,
     Downloader.recent_files isfile getctime current_time listdir
     = (Py.Ok downloaded_files, lg) ->
     downloaded_files
     = filter (Props.recent_file isfile getctime current_time) listdir).
Proof.
  split; [exact sort_reverse_head |]. split.
  - unfold Downloader.find_downloaded_file. apply bind_ext.
    intros [|r0 rs]; [reflexivity |].
    cbn [Downloader.with_ctime]. rewrite bind_assoc. apply bind_ext. intros t.
    rewrite bind_assoc. apply bind_ext. intros keyed.
    rewrite bind_ret_l. cbv zeta. now rewrite sort_reverse_head.
  - intros files lg H.
    now destruct (recent_files_ok isfile getctime current_time listdir files lg H).
Qed.

(** ** The route [/server_download], whatever the downloader does *)

Section ServerRoute.

Context {U : Py.Unicode}.

Lemma server_download_cases dl data :
  exists resp lg,
    App.server_download dl data = (Py.Ok resp, lg) /\
    ((App.status resp = 200 /\
      exists filename,
        App.body resp = App.ServerPayload ("/download_file/" ++ filename) filename) \/
     (App.status resp = 400 /\ exists err, App.body resp = App.ErrorPayload err) \/
     (App.status resp = 500 /\
      exists msg,
        App.body resp = App.ErrorPayload ("Server error: " ++ msg) /\
        In ("Error in server download: " ++ msg) lg)).
Proof.
  unfold App.server_download.
  match goal with
  | |- context [Py.try_except ?m _] => destruct m as [[r | e] l] eqn:Em
  end.
  - exists r, l. split; [reflexivity |].
    destruct (Py.truthy data); cbn [negb] in Em.
    2:{ injection Em as <- <-. right. left. split; [reflexivity | now eexists]. }
    apply bind_ok_inv in Em as (url_v & l1 & l2 & _ & Em & _).
    apply bind_ok_inv in Em as (url & l3 & l4 & _ & Em & _).
    apply bind_ok_inv in Em as (fid & l5 & l6 & _ & Em & _).
    apply bind_ok_inv in Em as (dt & l7 & l8 & _ & Em & _).
    destruct (negb (Py.truthy_str url) || negb (Py.truthy fid)).
    { injection Em as <- <-. right. left. split; [reflexivity | now eexists]. }
    destruct (negb (VideoDownloader.is_valid_youtube_url url)).
    { injection Em as <- <-. right. left. split; [reflexivity | now eexists]. }
    apply bind_ok_inv in Em as (res & l9 & l10 & _ & Em & _).
    destruct res as [fn p | err].
    + injection Em as <- <-. left. split; [reflexivity | now exists fn].
    + cbn in Em. injection Em as <- <-. right. left. split; [reflexivity | now eexists].
  - do 2 eexists. split; [reflexivity |]. right. right. split; [reflexivity |].
    exists e. split; [reflexivity |]. apply in_app_iff. right. now left.
Qed.

(** X26: the route [/server_download] always answers, whatever the
    downloader does: with status 200 and the link [/download_file/] followed
    by the file name, with status 400 and an error, or with status 500; and
    every 500 response of this route carries the text of the exception after
    [Server error: ], which is also logged.  A body that is falsy - [None],
    an empty dictionary - gets the 400 response [No data received]. *)
Theorem server_download_always_answers dl data :
  (exists resp lg,
     App.server_download dl data = (Py.Ok resp, lg) /\
     ((App.status resp = 200 /\
       exists filename,
         App.body resp = App.ServerPayload ("/download_file/" ++ filename) filename) \/
      (App.status resp = 400 /\ exists err, App.body resp = App.ErrorPayload err) \/
      (App.status resp = 500 /\
       exists msg,
         App.body resp = App.ErrorPayload ("Server error: " ++ msg) /\
         In ("Error in server download: " ++ msg) lg))) /\
  (Py.truthy data = false ->
   App.server_download dl data
   = (Py.Ok {| App.body := App.ErrorPayload "No data received"; App.status := 400 |}, [])).
Proof.
  split; [apply server_download_cases |].
  intros H. unfold App.server_download. now rewrite H.
Qed.

End ServerRoute.
